(** * Azure DevOps work-item retrieval: chunker, vector store, QA system
      and incremental embedding, embedded from the Python sources.

    Conventions of the embedding.
    - Python floats are read as exact real numbers ([R]); [np.float32]
      conversion is the identity.
    - Python [str] is [string]; a character is a code point below 256.
    - A Python call either returns or raises: [Py.result].  Code that talks
      to the Azure OpenAI client threads the log of calls made so far
      ([Eff.M]); the client's answers are given by an [AzureOpenAI]
      instance and may depend on that log.
    - [print] has no effect on any value and is left out. *)

From Stdlib Require Import ZArith List String Ascii Bool Reals Lra Lia Psatz.
From Stdlib Require Import DecimalString Sorting.Sorted Permutation.
Import ListNotations.

Set Implicit Arguments.
Open Scope string_scope.
Open Scope Z_scope.

(* ================================================================== *)
(** * Python primitives used by the sources *)
(* ================================================================== *)

Module Py.

(** Exceptions the modelled code can meet. *)
Inductive exn : Type :=
| ValueError (msg : string)
| IndexError (msg : string)
| APIConnectionError (msg : string)
| RateLimitError (msg : string)
| APIStatusError (msg : string) (status_code : Z) (response : string)
| KeyError (msg : string)
| OtherException (msg : string).

(** [str(e)], as an f-string interpolates it. *)
Definition exn_str (e : exn) : string :=
  match e with
  | ValueError m | IndexError m | APIConnectionError m
  | RateLimitError m | KeyError m | OtherException m => m
  | APIStatusError m _ _ => m
  end.

Inductive result (A : Type) : Type :=
| Returns (a : A)
| Raises (e : exn).
Arguments Returns {A} a.
Arguments Raises {A} e.

Definition rbind {A B} (m : result A) (k : A -> result B) : result B :=
  match m with
  | Returns a => k a
  | Raises e => Raises e
  end.

(** [str(n)] for an int. *)
Definition str_of_int (z : Z) : string := NilZero.string_of_int (Z.to_int z).

(** Identifiers arrive from JSON as ints or as strings; [str(id)] is the
    canonical text form the code compares. *)
Inductive json_id : Type :=
| IdInt (z : Z)
| IdStr (s : string).

Definition str_id (i : json_id) : string :=
  match i with
  | IdInt z => str_of_int z
  | IdStr s => s
  end.

(** [len(l)] *)
Definition len {A} (l : list A) : Z := Z.of_nat (List.length l).

(** Normalisation of a slice bound against a length. *)
Definition norm_bound (n i : Z) : Z :=
  if i <? 0 then Z.max (i + n) 0 else Z.min i n.

(** [l[start:stop]], a missing bound being [None]. *)
Definition slice {A} (l : list A) (start stop : option Z) : list A :=
  let n := len l in
  let lo := match start with Some i => norm_bound n i | None => 0 end in
  let hi := match stop with Some i => norm_bound n i | None => n end in
  firstn (Z.to_nat (hi - lo)) (skipn (Z.to_nat lo) l).

Definition str_slice (s : string) (start stop : option Z) : string :=
  string_of_list_ascii (slice (list_ascii_of_string s) start stop).

(** [range(start, stop, step)] as a list. *)
Definition range (start stop step : Z) : result (list Z) :=
  if step =? 0 then Raises (ValueError "range() arg 3 must not be zero")
  else
    let count :=
      if 0 <? step then (stop - start + step - 1) / step
      else (start - stop - step - 1) / (- step) in
    Returns (map (fun k => start + Z.of_nat k * step) (seq 0 (Z.to_nat count))).

(** [c.isspace()] on code points below 256. *)
Definition isspace (c : ascii) : bool :=
  let n := nat_of_ascii c in
  ((9 <=? n) && (n <=? 13) || (28 <=? n) && (n <=? 32)
   || (n =? 133) || (n =? 160))%nat.

Fixpoint lstrip (s : string) : string :=
  match s with
  | EmptyString => EmptyString
  | String c s' => if isspace c then lstrip s' else s
  end.

Fixpoint rstrip (s : string) : string :=
  match s with
  | EmptyString => EmptyString
  | String c s' =>
      match rstrip s' with
      | EmptyString => if isspace c then EmptyString else String c EmptyString
      | r => String c r
      end
  end.

(** [s.strip()] *)
Definition strip (s : string) : string := rstrip (lstrip s).

(** The string is empty or holds whitespace only. *)
Fixpoint blank (s : string) : bool :=
  match s with
  | EmptyString => true
  | String c s' => isspace c && blank s'
  end.

(** Truth value of a string: non-empty. *)
Definition truthy (s : string) : bool :=
  match s with EmptyString => false | _ => true end.

(** [s.replace(old, new)] for one-character [old] and [new]. *)
Fixpoint replace_char (old new : ascii) (s : string) : string :=
  match s with
  | EmptyString => EmptyString
  | String c s' =>
      String (if Ascii.eqb c old then new else c) (replace_char old new s')
  end.

Definition newline : ascii := ascii_of_nat 10.
Definition nl : string := String newline EmptyString.

(** [text.split(sep)] for a non-empty separator: [skip] counts the
    characters of a matched separator still to be passed over, [cur] is
    the part under construction, reversed. *)
Fixpoint split_aux (sep : string) (skip : nat) (cur : list ascii) (s : string)
  : list string :=
  match s with
  | EmptyString => [string_of_list_ascii (rev cur)]
  | String c s' =>
      match skip with
      | S k => split_aux sep k cur s'
      | O =>
          if prefix sep s
          then string_of_list_ascii (rev cur)
                 :: split_aux sep (String.length sep - 1) [] s'
          else split_aux sep O (c :: cur) s'
      end
  end.

Definition split (text sep : string) : result (list string) :=
  match sep with
  | EmptyString => Raises (ValueError "empty separator")
  | _ => Returns (split_aux sep O [] text)
  end.

(** [l.sort(key=key, reverse=True)]: descending by key, elements with
    equal keys keeping their original order.  [klt a b] decides
    [key a < key b]. *)
Section Sort.
Context {A : Type} (klt : A -> A -> bool).

Fixpoint insert_desc (x : A) (l : list A) : list A :=
  match l with
  | [] => [x]
  | y :: l' => if klt x y then y :: insert_desc x l' else x :: l
  end.

Definition sort_desc (l : list A) : list A := fold_right insert_desc [] l.

(** [a] may stand before [b] in the sorted list: the key of [a] is not
    below that of [b], and on equal keys [before a b] holds. *)
Definition ranked (before : A -> A -> Prop) (a b : A) : Prop :=
  klt a b = false /\ (klt b a = true \/ before a b).
End Sort.

(** Float comparisons, read on the reals. *)
Definition Rltb (x y : R) : bool := if Rlt_dec x y then true else false.
Definition Rgeb (x y : R) : bool := if Rle_dec y x then true else false.
Definition Reqb (x y : R) : bool := if Req_dec_T x y then true else false.

(** [sum(l)] *)
Definition sum (l : list R) : R := fold_left Rplus l 0%R.

(** [max(l)] *)
Definition max (l : list R) : result R :=
  match l with
  | [] => Raises (ValueError "max() arg is an empty sequence")
  | x :: l' => Returns (fold_left Rmax l' x)
  end.

(** A JSON object with text values, in key order of insertion. *)
Definition dict : Type := list (string * string).

Fixpoint get (d : dict) (k : string) : option string :=
  match d with
  | [] => None
  | (k', v) :: d' => if String.eqb k k' then Some v else get d' k
  end.

End Py.

Import Py.

Notation "x <~ m ;; k" := (rbind m (fun x => k))
  (at level 61, m at next level, right associativity).


(* ================================================================== *)
(** * Effects: the log of client calls *)
(* ================================================================== *)

Module Eff.

(** What the process did to the outside world, oldest first. *)
Inductive call : Type :=
| EmbeddingsCreate (input : string)
| ChatCompletionsCreate (system_message user_message : string)
    (temperature : R) (max_tokens : Z) (top_p : R)
| Sleep (seconds : R).

Definition world : Type := list call.

(** The Azure OpenAI client: what a call answers, given the calls made
    before it. *)
Class AzureOpenAI : Type := {
  embeddings_create : world -> string -> result (list R);
  chat_completions_create :
    world -> string -> string -> R -> Z -> R -> result string
}.

(** Presentation of floats, fixed by the Python runtime:
    [f"{x:.3f}"] and [round(x, 3)]. *)
Class FloatFormat : Type := {
  format_3f : R -> string;
  round_3 : R -> R
}.

Definition M (A : Type) : Type := world -> result A * world.

Definition ret {A} (a : A) : M A := fun w => (Returns a, w).
Definition raise {A} (e : exn) : M A := fun w => (Raises e, w).

Definition bind {A B} (m : M A) (k : A -> M B) : M B :=
  fun w =>
    match m w with
    | (Returns a, w') => k a w'
    | (Raises e, w') => (Raises e, w')
    end.

(** [try: m  except Exception as e: h e] *)
Definition try_except {A} (m : M A) (h : exn -> M A) : M A :=
  fun w =>
    match m w with
    | (Returns a, w') => (Returns a, w')
    | (Raises e, w') => h e w'
    end.

Definition lift {A} (r : result A) : M A := fun w => (r, w).

Definition sleep (seconds : R) : M unit :=
  fun w => (Returns tt, (w ++ [Sleep seconds])%list).

Definition call_embeddings `{AzureOpenAI} (input : string) : M (list R) :=
  fun w => (embeddings_create w input, (w ++ [EmbeddingsCreate input])%list).

Definition call_chat `{AzureOpenAI} (system_message user_message : string)
    (temperature : R) (max_tokens : Z) (top_p : R) : M string :=
  fun w =>
    (chat_completions_create w system_message user_message
       temperature max_tokens top_p,
     (w ++ [ChatCompletionsCreate system_message user_message
              temperature max_tokens top_p])%list).

End Eff.

Import Eff.

Notation "x <- m ;; k" := (bind m (fun x => k))
  (at level 61, m at next level, right associativity).

(* ================================================================== *)
(** * ado_vector_store.py *)
(* ================================================================== *)

Module VectorStore.

(** One record of the persisted embeddings file.  A missing or empty
    ['embedding'] is the empty list. *)
Record embedding_item : Type := {
  ei_chunk_id : string;
  ei_content : string;
  ei_workitem_id : json_id;
  ei_embedding : list R;
  ei_metadata : dict
}.

(** An entry of [chunk_metadata]. *)
Record chunk_meta : Type := {
  cm_chunk_id : string;
  cm_content : string;
  cm_workitem_id : json_id;
  cm_metadata : dict
}.

(** The embeddings file as [load_embeddings] finds it. *)
Inductive embeddings_file : Type :=
| FileMissing
| FileUnreadable (e : exn)
| FileData (items : list embedding_item).

Record ADOVectorStore : Type := {
  embeddings_matrix : option (list (list R));
  chunk_metadata : list chunk_meta
}.

Definition empty_store : ADOVectorStore :=
  {| embeddings_matrix := None; chunk_metadata := [] |}.

(** [np.array(rows, dtype=np.float32)] accepts rows of one length only. *)
Definition np_array (rows : list (list R)) : result (list (list R)) :=
  match rows with
  | [] => Returns []
  | r :: rest =>
      if forallb (fun r' => Nat.eqb (List.length r') (List.length r)) rest
      then Returns rows
      else Raises (ValueError "setting an array element with a sequence")
  end.

Definition has_embedding (item : embedding_item) : bool :=
  match ei_embedding item with [] => false | _ => true end.

Definition meta_of_item (item : embedding_item) : chunk_meta :=
  {| cm_chunk_id := ei_chunk_id item;
     cm_content := ei_content item;
     cm_workitem_id := ei_workitem_id item;
     cm_metadata := ei_metadata item |}.

(** [__init__] followed by [load_embeddings]: the store starts empty and
    is filled only when the whole load succeeds. *)
Definition load_embeddings (f : embeddings_file) : ADOVectorStore :=
  match f with
  | FileMissing => empty_store
  | FileUnreadable _ => empty_store
  | FileData embeddings_data =>
      match embeddings_data with
      | [] => empty_store
      | _ =>
          let valid := filter has_embedding embeddings_data in
          let embeddings_list := map ei_embedding valid in
          let metadata_list := map meta_of_item valid in
          match embeddings_list with
          | [] => empty_store
          | _ =>
              match np_array embeddings_list with
              | Returns matrix =>
                  {| embeddings_matrix := Some matrix;
                     chunk_metadata := metadata_list |}
              | Raises _ => empty_store
              end
          end
      end
  end.

Section Client.
Context `{AzureOpenAI}.

(** [get_query_embedding] *)
Definition get_query_embedding (query : string) : M (option (list R)) :=
  let query := strip (replace_char newline " "%char query) in
  if negb (truthy query) then ret None
  else
    try_except
      (response <- call_embeddings query ;; ret (Some response))
      (fun _ => ret None).

End Client.

(** [np.dot] of two 1-D arrays. *)
Fixpoint dot (a b : list R) : result R :=
  match a, b with
  | [], [] => Returns 0%R
  | x :: a', y :: b' => d <~ dot a' b' ;; Returns (x * y + d)%R
  | _, _ => Raises (ValueError "shapes not aligned")
  end.

(** [np.linalg.norm] of a 1-D array: the root of the sum of squares. *)
Definition sumsq (a : list R) : R :=
  fold_right (fun x acc => x * x + acc)%R 0%R a.

Definition norm (a : list R) : R := sqrt (sumsq a).

(** [cosine_similarity] *)
Definition cosine_similarity (vec1 vec2 : list R) : result R :=
  dot_product <~ dot vec1 vec2 ;;
  let norm1 := norm vec1 in
  let norm2 := norm vec2 in
  if Reqb norm1 0 || Reqb norm2 0 then Returns 0%R
  else Returns (dot_product / (norm1 * norm2))%R.

(** A search result. *)
Record search_result : Type := {
  sr_index : nat;
  sr_similarity : R;
  sr_chunk_id : string;
  sr_content : string;
  sr_workitem_id : json_id;
  sr_metadata : dict
}.

Definition subscript {A} (l : list A) (i : nat) : result A :=
  match nth_error l i with
  | Some a => Returns a
  | None => Raises (IndexError "list index out of range")
  end.

(** Truth value of the optional filter, then [not in]. *)
Definition filtered_out (workitem_filter : option (list string))
    (wid : string) : bool :=
  match workitem_filter with
  | None | Some [] => false
  | Some ids => negb (existsb (String.eqb wid) ids)
  end.

Definition filter_active (workitem_filter : option (list string)) : bool :=
  match workitem_filter with
  | None | Some [] => false
  | Some _ => true
  end.

(** The loop of [similarity_search] over [enumerate(embeddings_matrix)],
    from row [i] on. *)
Fixpoint scan (query_embedding : list R) (metas : list chunk_meta)
    (similarity_threshold : R) (workitem_filter : option (list string))
    (i : nat) (rows : list (list R)) : result (list search_result) :=
  match rows with
  | [] => Returns []
  | chunk_embedding :: rows' =>
      similarity <~ cosine_similarity query_embedding chunk_embedding ;;
      skip <~ (if filter_active workitem_filter
               then m <~ subscript metas i ;;
                    Returns (filtered_out workitem_filter
                               (str_id (cm_workitem_id m)))
               else Returns false) ;;
      here <~ (if skip then Returns []
               else if Rgeb similarity similarity_threshold
               then m <~ subscript metas i ;;
                    Returns [ {| sr_index := i;
                                 sr_similarity := similarity;
                                 sr_chunk_id := cm_chunk_id m;
                                 sr_content := cm_content m;
                                 sr_workitem_id := cm_workitem_id m;
                                 sr_metadata := cm_metadata m |} ]
               else Returns []) ;;
      rest <~ scan query_embedding metas similarity_threshold
                workitem_filter (S i) rows' ;;
      Returns (here ++ rest)%list
  end.

Definition by_similarity (a b : search_result) : bool :=
  Rltb (sr_similarity a) (sr_similarity b).

(** [r] is the match of the query vector with the record at its index. *)
Definition is_match (matrix : list (list R)) (metas : list chunk_meta)
    (query_embedding : list R) (r : search_result) : Prop :=
  exists row m,
    nth_error matrix (sr_index r) = Some row
    /\ nth_error metas (sr_index r) = Some m
    /\ cosine_similarity query_embedding row = Returns (sr_similarity r)
    /\ sr_chunk_id r = cm_chunk_id m
    /\ sr_content r = cm_content m
    /\ sr_workitem_id r = cm_workitem_id m
    /\ sr_metadata r = cm_metadata m.

(** Descending by score, equal scores in record order. *)
Definition score_order (a b : search_result) : Prop :=
  (sr_similarity b <= sr_similarity a)%R
  /\ (sr_similarity a = sr_similarity b -> (sr_index a < sr_index b)%nat).

Section Client.
Context `{AzureOpenAI}.

(** [similarity_search] *)
Definition similarity_search (self : ADOVectorStore) (query : string)
    (top_k : Z) (similarity_threshold : R)
    (workitem_filter : option (list string)) : M (list search_result) :=
  match embeddings_matrix self with
  | None => ret []
  | Some matrix =>
      if len (chunk_metadata self) =? 0 then ret []
      else
        qe <- get_query_embedding query ;;
        match qe with
        | None => ret []
        | Some query_embedding =>
            similarities <- lift (scan query_embedding (chunk_metadata self)
                                    similarity_threshold workitem_filter
                                    0%nat matrix) ;;
            ret (slice (sort_desc by_similarity similarities)
                   None (Some top_k))
        end
  end.

End Client.

(** An entry of ['relevant_chunks']. *)
Record relevant_chunk : Type := {
  rc_chunk_id : string;
  rc_content : string;
  rc_similarity : R
}.

(** An entry of the list [get_related_workitems] returns. *)
Record workitem_result : Type := {
  wr_workitem_id : string;
  wr_max_similarity : R;
  wr_avg_similarity : R;
  wr_chunk_count : Z;
  wr_relevant_chunks : list relevant_chunk
}.

(** A dict from work item id to a list, in insertion order of the keys. *)
Definition listdict (V : Type) : Type := list (string * list V).

Fixpoint contains {V} (d : listdict V) (k : string) : bool :=
  match d with
  | [] => false
  | (k', _) :: d' => String.eqb k k' || contains d' k
  end.

(** [d[k].append(v)] *)
Fixpoint append_at {V} (d : listdict V) (k : string) (v : V)
  : result (listdict V) :=
  match d with
  | [] => Raises (KeyError k)
  | (k', vs) :: d' =>
      if String.eqb k k' then Returns ((k', vs ++ [v])%list :: d')
      else d'' <~ append_at d' k v ;; Returns ((k', vs) :: d'')
  end.

(** [d[k]] *)
Fixpoint getitem {V} (d : listdict V) (k : string) : result (list V) :=
  match d with
  | [] => Raises (KeyError k)
  | (k', vs) :: d' => if String.eqb k k' then Returns vs else getitem d' k
  end.

Definition chunk_of_result (r : search_result) : relevant_chunk :=
  {| rc_chunk_id := sr_chunk_id r;
     rc_content := sr_content r;
     rc_similarity := sr_similarity r |}.

(** The grouping loop of [get_related_workitems]: the state is
    [(workitem_scores, workitem_contents)]. *)
Fixpoint group_results (all_results : list search_result)
    (workitem_scores : listdict R) (workitem_contents : listdict relevant_chunk)
  : result (listdict R * listdict relevant_chunk) :=
  match all_results with
  | [] => Returns (workitem_scores, workitem_contents)
  | r :: rest =>
      let workitem_id := str_id (sr_workitem_id r) in
      let similarity := sr_similarity r in
      let '(workitem_scores, workitem_contents) :=
        if negb (contains workitem_scores workitem_id)
        then ((workitem_scores ++ [(workitem_id, [])])%list,
              (workitem_contents ++ [(workitem_id, [])])%list)
        else (workitem_scores, workitem_contents) in
      workitem_scores <~ append_at workitem_scores workitem_id similarity ;;
      workitem_contents <~ append_at workitem_contents workitem_id
                             (chunk_of_result r) ;;
      group_results rest workitem_scores workitem_contents
  end.

(** The loop over [workitem_scores.items()]. *)
Fixpoint score_workitems (items : listdict R)
    (workitem_contents : listdict relevant_chunk)
  : result (list workitem_result) :=
  match items with
  | [] => Returns []
  | (workitem_id, scores) :: items' =>
      max_score <~ max scores ;;
      let avg_score := (sum scores / IZR (len scores))%R in
      chunks <~ getitem workitem_contents workitem_id ;;
      rest <~ score_workitems items' workitem_contents ;;
      Returns ({| wr_workitem_id := workitem_id;
                  wr_max_similarity := max_score;
                  wr_avg_similarity := avg_score;
                  wr_chunk_count := len scores;
                  wr_relevant_chunks := chunks |} :: rest)
  end.

(** Order of the keys [(max_similarity, avg_similarity)], as tuples. *)
Definition by_max_then_avg (a b : workitem_result) : bool :=
  Rltb (wr_max_similarity a) (wr_max_similarity b)
  || Reqb (wr_max_similarity a) (wr_max_similarity b)
     && Rltb (wr_avg_similarity a) (wr_avg_similarity b).

(** [get_related_workitems] from the grouping on: everything up to the
    sort, ... *)
Definition aggregate_sorted (all_results : list search_result)
  : result (list workitem_result) :=
  g <~ group_results all_results [] [] ;;
  workitem_results <~ score_workitems (fst g) (snd g) ;;
  Returns (sort_desc by_max_then_avg workitem_results).

(** ... and the value returned. *)
Definition related_workitems_of (all_results : list search_result)
    (top_k : Z) : result (list workitem_result) :=
  workitem_results <~ aggregate_sorted all_results ;;
  Returns (slice workitem_results None (Some top_k)).

Definition workitem_ids (rs : list search_result) : list string :=
  map (fun r => str_id (sr_workitem_id r)) rs.

(** The matches of [all_results] owned by work item [k], in input order. *)
Definition matches_of (k : string) (all_results : list search_result)
  : list search_result :=
  filter (fun r => String.eqb (str_id (sr_workitem_id r)) k) all_results.

(** In [ids], the first occurrence of [ka] comes before any [kb]. *)
Definition first_seen_before (ids : list string) (ka kb : string) : Prop :=
  ka <> kb /\ exists l1 l2, ids = (l1 ++ ka :: l2)%list
                            /\ ~ In ka l1 /\ ~ In kb l1.

(** Descending by [(max_similarity, avg_similarity)], equal pairs in the
    order in which their work items first occur in [all_results]. *)
Definition aggregate_order (all_results : list search_result)
    (a b : workitem_result) : Prop :=
  (wr_max_similarity b < wr_max_similarity a)%R
  \/ wr_max_similarity a = wr_max_similarity b
     /\ ((wr_avg_similarity b < wr_avg_similarity a)%R
         \/ wr_avg_similarity a = wr_avg_similarity b
            /\ first_seen_before (workitem_ids all_results)
                 (wr_workitem_id a) (wr_workitem_id b)).

(** [a] is the aggregate of exactly the matches of its work item. *)
Definition aggregates (all_results : list search_result)
    (a : workitem_result) : Prop :=
  let ms := matches_of (wr_workitem_id a) all_results in
  let scores := map sr_similarity ms in
  ms <> []
  /\ wr_relevant_chunks a = map chunk_of_result ms
  /\ wr_chunk_count a = len ms
  /\ In (wr_max_similarity a) scores
  /\ (forall x, In x scores -> (x <= wr_max_similarity a)%R)
  /\ wr_avg_similarity a = (sum scores / IZR (len scores))%R.

(** The keys of the grouping dicts after the loop has seen [ids]: every
    id once, in order of first occurrence. *)
Definition add_key (keys : list string) (k : string) : list string :=
  if existsb (String.eqb k) keys then keys else (keys ++ [k])%list.

Definition first_seen (ids : list string) : list string :=
  fold_left add_key ids [].

(** The grouping dict after the loop has seen [seen], each match
    contributing [f]. *)
Definition grouped {V} (f : search_result -> V) (seen : list search_result)
  : listdict V :=
  map (fun k => (k, map f (matches_of k seen))) (first_seen (workitem_ids seen)).

Section Client.
Context `{AzureOpenAI}.

(** [get_related_workitems] *)
Definition get_related_workitems (self : ADOVectorStore) (query : string)
    (top_k : Z) : M (list workitem_result) :=
  all_results <- similarity_search self query 50 0%R None ;;
  lift (related_workitems_of all_results top_k).

(** [get_workitem_chunks] *)
Definition get_workitem_chunks (self : ADOVectorStore) (workitem_id : string)
  : list chunk_meta :=
  filter (fun chunk => String.eqb (str_id (cm_workitem_id chunk)) workitem_id)
    (chunk_metadata self).

(** [get_similar_chunks_by_workitem] *)
Definition get_similar_chunks_by_workitem (self : ADOVectorStore)
    (workitem_id query : string) (top_k : Z) : M (list search_result) :=
  similarity_search self query top_k 0%R (Some [workitem_id]).

End Client.

(** The loop of [get_chunk_by_id]. *)
Fixpoint find_chunk (chunks : list chunk_meta) (chunk_id : string)
  : option chunk_meta :=
  match chunks with
  | [] => None
  | chunk :: rest =>
      if String.eqb (cm_chunk_id chunk) chunk_id then Some chunk
      else find_chunk rest chunk_id
  end.

(** [get_chunk_by_id] *)
Definition get_chunk_by_id (self : ADOVectorStore) (chunk_id : string)
  : option chunk_meta :=
  find_chunk (chunk_metadata self) chunk_id.

(** [round(x, 2)], fixed by the Python runtime. *)
Class FloatRound2 : Type := { round_2 : R -> R }.

(** The dict [get_statistics] returns. *)
Inductive statistics : Type :=
| StatsError (error : string)
| Stats (total_chunks unique_workitems : Z) (avg_chunks_per_workitem : R)
    (max_chunks_per_workitem min_chunks_per_workitem embedding_dimension : Z).

(** [len(set(ids))] *)
Definition distinct (ids : list string) : list string := nodup string_dec ids.

(** [counts[k] = counts.get(k, 0) + 1] *)
Fixpoint count_up (counts : list (string * Z)) (k : string)
  : list (string * Z) :=
  match counts with
  | [] => [(k, 0 + 1)]
  | (k', n) :: rest =>
      if String.eqb k k' then (k', n + 1) :: rest
      else (k', n) :: count_up rest k
  end.

(** [max] and [min] of a list of ints. *)
Definition max_int (l : list Z) : result Z :=
  match l with
  | [] => Raises (ValueError "max() arg is an empty sequence")
  | x :: l' => Returns (fold_left Z.max l' x)
  end.

Definition min_int (l : list Z) : result Z :=
  match l with
  | [] => Raises (ValueError "min() arg is an empty sequence")
  | x :: l' => Returns (fold_left Z.min l' x)
  end.

(** [matrix.shape[1]] of a 2-D array. *)
Definition shape1 (matrix : list (list R)) : result Z :=
  match matrix with
  | [] => Raises (IndexError "tuple index out of range")
  | row :: _ => Returns (len row)
  end.

(** [get_statistics] *)
Definition get_statistics `{FloatRound2} (self : ADOVectorStore)
  : result statistics :=
  match chunk_metadata self with
  | [] => Returns (StatsError "No data loaded")
  | _ =>
      let ids := map (fun chunk => str_id (cm_workitem_id chunk))
                   (chunk_metadata self) in
      let unique_workitems := distinct ids in
      let workitem_chunk_counts := fold_left count_up ids [] in
      let avg_chunks_per_workitem :=
        match unique_workitems with
        | [] => 0%R
        | _ => (IZR (len (chunk_metadata self))
                / IZR (len unique_workitems))%R
        end in
      max_chunks <~ (match workitem_chunk_counts with
                     | [] => Returns 0
                     | _ => max_int (map snd workitem_chunk_counts)
                     end) ;;
      min_chunks <~ (match workitem_chunk_counts with
                     | [] => Returns 0
                     | _ => min_int (map snd workitem_chunk_counts)
                     end) ;;
      dimension <~ (match embeddings_matrix self with
                    | Some matrix => shape1 matrix
                    | None => Returns 0
                    end) ;;
      Returns (Stats (len (chunk_metadata self)) (len unique_workitems)
                 (round_2 avg_chunks_per_workitem) max_chunks min_chunks
                 dimension)
  end.

End VectorStore.

(* ================================================================== *)
(** * chunker.py *)
(* ================================================================== *)

Module Chunker.

(** The tokenizer [get_tokenizer] returns (tiktoken), as an interface. *)
Class Tokenizer : Type := {
  token : Type;
  encode : string -> list token;
  decode : list token -> string
}.

Record RecursiveCharacterTextSplitter : Type := {
  chunk_size : Z;
  chunk_overlap : Z;
  separators : list string
}.

Definition default_separators : list string :=
  [nl ++ nl; nl; " "; ""; ""].

(** [__init__]: [separators or default]. *)
Definition init (chunk_size chunk_overlap : Z)
    (separators : option (list string)) : RecursiveCharacterTextSplitter :=
  {| chunk_size := chunk_size;
     chunk_overlap := chunk_overlap;
     separators := match separators with
                   | None | Some [] => default_separators
                   | Some seps => seps
                   end |}.

(** A chunk of [split_document]. *)
Record chunk_doc : Type := {
  cd_content : string;
  cd_filepath : string;
  cd_chunk_id : string
}.

Section Splitter.
Context `{Tokenizer}.
Variable self : RecursiveCharacterTextSplitter.

(** Token windows [tokens[i : i + chunk_size]] at every
    [i in range(0, len(tokens), chunk_size - chunk_overlap)], decoded. *)
Definition token_windows (tokens : list token) : result (list string) :=
  starts <~ range 0 (len tokens) (chunk_size self - chunk_overlap self) ;;
  Returns (map (fun i => decode (slice tokens (Some i)
                                   (Some (i + chunk_size self)))) starts).

(** Character windows of the last resort. *)
Definition char_windows (text : string) : result (list string) :=
  starts <~ range 0 (len (list_ascii_of_string text))
              (chunk_size self - chunk_overlap self) ;;
  Returns (map (fun i => str_slice text (Some i) (Some (i + chunk_size self)))
             starts).

(** One turn of the first loop of [_split_text]: [part] is packed into
    [chunks]; [recurse] splits an oversized part on the finer separators. *)
Definition pack_part (recurse : string -> result (list string))
    (current_separator : string) (chunks : list string) (part : string)
  : result (list string) :=
  if negb (truthy part) then Returns chunks
  else if chunk_size self <? len (encode part)
  then sub <~ recurse part ;; Returns (chunks ++ sub)%list
  else
    match rev chunks with
    | [] => Returns [part]
    | last_chunk :: before =>
        if chunk_size self
             <? len (encode (last_chunk ++ current_separator ++ part))
        then Returns (chunks ++ [part])%list
        else
          let last_chunk_tokens := encode last_chunk in
          let part_tokens := encode part in
          if len last_chunk_tokens + len part_tokens
               + len (encode current_separator) <=? chunk_size self
          then Returns (rev before
                          ++ [(last_chunk ++ current_separator ++ part)%string])%list
          else
            let overlap_text :=
              decode (slice last_chunk_tokens
                        (Some (- chunk_overlap self)) None) in
            if len (encode (overlap_text ++ current_separator ++ part))
                 <=? chunk_size self
            then Returns (chunks
                            ++ [(overlap_text ++ current_separator ++ part)%string])%list
            else Returns (chunks ++ [part])%list
    end.

Fixpoint pack (recurse : string -> result (list string))
    (current_separator : string) (parts : list string) (chunks : list string)
  : result (list string) :=
  match parts with
  | [] => Returns chunks
  | part :: parts' =>
      chunks' <~ pack_part recurse current_separator chunks part ;;
      pack recurse current_separator parts' chunks'
  end.

(** The second loop: overlap with the end of the previous final chunk. *)
Definition refine_step (current_separator : string)
    (final_chunks : list string) (current_chunk : string) : list string :=
  match rev final_chunks with
  | [] => [current_chunk]
  | prev :: _ =>
      let prev_chunk_tokens := encode prev in
      let overlap_tokens :=
        slice prev_chunk_tokens
          (Some (Z.max 0 (len prev_chunk_tokens - chunk_overlap self))) None in
      let overlap_text := decode overlap_tokens in
      let combined_text :=
        if truthy overlap_text
        then overlap_text ++ current_separator ++ current_chunk
        else current_chunk in
      if len (encode combined_text) <=? chunk_size self
      then (final_chunks ++ [combined_text])%list
      else (final_chunks ++ [current_chunk])%list
  end.

Definition refine (current_separator : string) (chunks : list string)
  : list string :=
  fold_left (refine_step current_separator) chunks [].

(** The third loop: chunks still too long are cut into token windows. *)
Fixpoint re_split (final_chunks : list string) : result (list string) :=
  match final_chunks with
  | [] => Returns []
  | chunk :: rest =>
      let tokens := encode chunk in
      here <~ (if chunk_size self <? len tokens then token_windows tokens
               else Returns [chunk]) ;;
      more <~ re_split rest ;;
      Returns (here ++ more)%list
  end.

(** [_split_text] *)
Fixpoint _split_text (text : string) (separators : list string)
  : result (list string) :=
  match separators with
  | [] => char_windows text
  | current_separator :: other_separators =>
      if String.eqb current_separator ""
      then
        if len (encode text) <=? chunk_size self then Returns [text]
        else token_windows (encode text)
      else
        parts <~ split text current_separator ;;
        chunks <~ pack (fun part => _split_text part other_separators)
                    current_separator parts [] ;;
        re_split (refine current_separator chunks)
  end.

(** The filtering loop of [split_document] over [enumerate(chunks)]. *)
Fixpoint process_chunks (filepath : string) (i : Z) (chunks : list string)
  : list chunk_doc :=
  match chunks with
  | [] => []
  | chunk_text :: rest =>
      (if truthy (strip chunk_text)
       then [ {| cd_content := strip chunk_text;
                 cd_filepath := filepath;
                 cd_chunk_id := (filepath ++ "_" ++ str_of_int i)%string |} ]
       else []) ++ process_chunks filepath (i + 1) rest
  end%list.

(** [split_document] *)
Definition split_document (document_content filepath : string)
  : result (list chunk_doc) :=
  chunks <~ _split_text document_content (separators self) ;;
  Returns (process_chunks filepath 0 chunks).

End Splitter.

(** The error of a window loop whose step is zero. *)
Definition zero_step_error : exn :=
  ValueError "range() arg 3 must not be zero".

(** [s] has at most [n] tokens. *)
Definition fits `{Tokenizer} (n : Z) (s : string) : Prop :=
  len (encode s) <= n.

(** Tokenizers for which decoding and encoding again, or stripping
    whitespace, never yields more tokens. *)
Class LengthMonotone (T : Tokenizer) : Prop := {
  reencode_le : forall ts : list token, len (encode (decode ts)) <= len ts;
  strip_le : forall s : string, len (encode (strip s)) <= len (encode s)
}.

(** ** Tokenizers for experiments *)

(** One token per character. *)
Definition char_tokenizer : Tokenizer := {|
  token := ascii;
  encode s := list_ascii_of_string s;
  decode ts := string_of_list_ascii ts
|}.

(** A whitespace character and the word after it form one token, as in
    byte-pair vocabularies; any other character is a token of its own. *)
Fixpoint spaceword_encode (cur : option string) (s : string) : list string :=
  match s with
  | EmptyString => match cur with Some t => [t] | None => [] end
  | String c s' =>
      if isspace c
      then (match cur with Some t => [t] | None => [] end
            ++ spaceword_encode (Some (String c EmptyString)) s')%list
      else match cur with
           | Some t => spaceword_encode (Some (t ++ String c EmptyString)) s'
           | None => String c EmptyString :: spaceword_encode None s'
           end
  end.

Definition spaceword_tokenizer : Tokenizer := {|
  token := string;
  encode s := spaceword_encode None s;
  decode ts := String.concat "" ts
|}.

(** One token per character, where the token of [x] decodes to two
    characters, as a partial byte sequence decodes to replacement
    characters. *)
Definition stutter_tokenizer : Tokenizer := {|
  token := ascii;
  encode s := list_ascii_of_string s;
  decode ts :=
    String.concat ""
      (map (fun c => if Ascii.eqb c "x"%char then "xx"
                     else String c EmptyString) ts)
|}.

(** ** [create_workitem_chunks] *)

(** A cleaned work item; an absent key is [None], absent lists are empty. *)
Record workitem : Type := {
  wi_id : json_id;
  wi_title : option string;
  wi_state : option string;
  wi_assigned_to : option string;
  wi_description : option string;
  wi_comments : list string;
  wi_parent_work_items : list json_id;
  wi_child_work_items : list json_id;
  wi_related_work_items : list json_id
}.

(** A chunk of [create_workitem_chunks], its metadata flattened. *)
Record workitem_chunk : Type := {
  wc_chunk_id : string;
  wc_content : string;
  wc_workitem_id : json_id;
  wc_title : string;
  wc_state : string;
  wc_assigned_to : string;
  wc_parent_work_items : list json_id;
  wc_child_work_items : list json_id;
  wc_related_work_items : list json_id;
  wc_chunk_index : Z;
  wc_total_chunks : Z;
  wc_type : string
}.

(** [item.get(key, '')] *)
Definition get_or_empty (v : option string) : string :=
  match v with Some s => s | None => "" end.

(** [', '.join(map(str, ids))] *)
Definition join_ids (ids : list json_id) : string :=
  String.concat ", " (map str_id ids).

(** A line added to [content_parts] when its list is not empty. *)
Definition ids_part (label : string) (ids : list json_id) : list string :=
  match ids with
  | [] => []
  | _ => [label ++ join_ids ids]
  end.

Definition content_parts (item : workitem) : list string :=
  ["Work Item ID: " ++ str_id (wi_id item);
   "Title: " ++ get_or_empty (wi_title item);
   "State: " ++ get_or_empty (wi_state item)]
  ++ (if truthy (get_or_empty (wi_assigned_to item))
      then ["Assigned to: " ++ get_or_empty (wi_assigned_to item)] else [])
  ++ (if truthy (get_or_empty (wi_description item))
      then ["Description:" ++ nl ++ get_or_empty (wi_description item)]
      else [])
  ++ (match wi_comments item with
      | [] => []
      | comments => ["Comments:" ++ nl ++ String.concat nl comments]
      end)
  ++ ids_part "Parent Work Items: " (wi_parent_work_items item)
  ++ ids_part "Child Work Items: " (wi_child_work_items item)
  ++ ids_part "Related Work Items: " (wi_related_work_items item).

Definition full_content_of (item : workitem) : string :=
  String.concat (nl ++ nl) (content_parts item).

Definition workitem_chunk_of (item : workitem) (content : string)
    (i total : Z) : workitem_chunk :=
  {| wc_chunk_id := "workitem_" ++ str_id (wi_id item) ++ "_chunk_"
                    ++ str_of_int i;
     wc_content := content;
     wc_workitem_id := wi_id item;
     wc_title := get_or_empty (wi_title item);
     wc_state := get_or_empty (wi_state item);
     wc_assigned_to := get_or_empty (wi_assigned_to item);
     wc_parent_work_items := wi_parent_work_items item;
     wc_child_work_items := wi_child_work_items item;
     wc_related_work_items := wi_related_work_items item;
     wc_chunk_index := i;
     wc_total_chunks := total;
     wc_type := "azure_devops_workitem" |}.

(** The loop over [enumerate(chunk_docs)], from index [i] on. *)
Fixpoint number_chunks (item : workitem) (i total : Z)
    (chunk_docs : list chunk_doc) : list workitem_chunk :=
  match chunk_docs with
  | [] => []
  | chunk_doc :: rest =>
      workitem_chunk_of item (cd_content chunk_doc) i total
      :: number_chunks item (i + 1) total rest
  end.

(** The docs built from [_split_text] when [split_document] gave none. *)
Fixpoint raw_docs (filepath : string) (i : Z) (text_chunks : list string)
  : list chunk_doc :=
  match text_chunks with
  | [] => []
  | chunk_content :: rest =>
      {| cd_content := chunk_content;
         cd_filepath := filepath;
         cd_chunk_id := filepath ++ "_chunk_" ++ str_of_int i |}
      :: raw_docs filepath (i + 1) rest
  end.

Section Workitems.
Context `{Tokenizer}.

(** The body of the loop of [create_workitem_chunks] for one item: the
    [try] block and its handler. *)
Definition chunks_of_workitem (splitter : RecursiveCharacterTextSplitter)
    (item : workitem) : list workitem_chunk :=
  let full_content := full_content_of item in
  let filepath := "workitem_" ++ str_id (wi_id item) in
  match (chunk_docs <~ split_document splitter full_content filepath ;;
         chunk_docs <~ (match chunk_docs with
                        | [] =>
                            text_chunks <~ _split_text splitter full_content
                                             (separators splitter) ;;
                            Returns (raw_docs filepath 0 text_chunks)
                        | _ => Returns chunk_docs
                        end) ;;
         Returns (number_chunks item 0 (len chunk_docs) chunk_docs)) with
  | Returns chunks => chunks
  | Raises _ => [workitem_chunk_of item full_content 0 1]
  end.

(** The splitter [create_workitem_chunks] builds from the configuration. *)
Definition workitem_splitter (CHUNK_SIZE CHUNK_OVERLAP : Z)
  : RecursiveCharacterTextSplitter :=
  init CHUNK_SIZE CHUNK_OVERLAP (Some [nl ++ nl; nl; " "; ""]).

(** [create_workitem_chunks] *)
Definition create_workitem_chunks (CHUNK_SIZE CHUNK_OVERLAP : Z)
    (cleaned_workitems : list workitem) : list workitem_chunk :=
  flat_map (chunks_of_workitem (workitem_splitter CHUNK_SIZE CHUNK_OVERLAP))
    cleaned_workitems.

End Workitems.

(** Every index below [n] lies in the window starting at some start. *)
Definition covered (starts : list Z) (size n : Z) : Prop :=
  forall j, 0 <= j < n -> exists i, In i starts /\ i <= j < i + size.

End Chunker.

(* ================================================================== *)
(** * ado_qa_system.py *)
(* ================================================================== *)

Module QASystem.
Import VectorStore.

(** An entry of ['sources']; [src_metadata] holds title, state, type and
    assignee when the chunk has metadata. *)
Record source : Type := {
  src_workitem_id : json_id;
  src_chunk_id : string;
  src_similarity : R;
  src_content_preview : string;
  src_metadata : option (string * string * string * string)
}.

(** The dict [answer_question] returns; ['num_sources'] is present on the
    normal path only. *)
Record answer : Type := {
  ans_answer : string;
  ans_sources : list source;
  ans_confidence : string;
  ans_query : string;
  ans_num_sources : option Z
}.

Definition not_found_answer : string :=
  "I couldn't find any relevant work items for your question. Please try rephrasing your query or check if the work item data has been properly indexed.".

Definition system_message : string :=
  "You are an expert Azure DevOps assistant specializing in work item analysis and project management. "
  ++ "Your task is to answer questions about Azure DevOps work items based on the provided context. "
  ++ nl ++ "Guidelines:" ++ nl
  ++ "- Use ONLY the information provided in the 'Context' section to formulate your answer" ++ nl
  ++ "- If the information is not available in the context, clearly state that you don't know" ++ nl
  ++ "- Provide clear, concise, and actionable answers" ++ nl
  ++ "- Reference specific work item IDs when relevant" ++ nl
  ++ "- Include work item states, assignees, types, and priorities when helpful" ++ nl
  ++ "- If asked about status or progress, summarize based on work item states" ++ nl
  ++ "- For troubleshooting questions, focus on error descriptions and solutions mentioned" ++ nl
  ++ "- Organize your response with clear structure (bullet points, numbered lists when appropriate)" ++ nl
  ++ "- If multiple work items are relevant, group or categorize them logically" ++ nl
  ++ "- Always maintain a professional and helpful tone" ++ nl
  ++ "- When citing work items, format them as 'Work Item #[ID]' for clarity".

(** [s * n] *)
Fixpoint repeat_str (s : string) (n : nat) : string :=
  match n with
  | O => ""
  | S n' => s ++ repeat_str s n'
  end.

(** A line [label: value] when [metadata.get(key)] is truthy. *)
Definition metadata_line (metadata : dict) (key label : string) : string :=
  match get metadata key with
  | Some v => if truthy v then label ++ ": " ++ v ++ nl else ""
  | None => ""
  end.

Section System.
Context `{AzureOpenAI} `{FloatFormat}.

(** [_build_context_string], from chunk number [i] (counted from 0) on. *)
Fixpoint build_context_from (i : Z) (chunks : list search_result)
    (include_metadata : bool) : string :=
  match chunks with
  | [] => ""
  | chunk :: rest =>
      (nl ++ "--- Work Item Context " ++ str_of_int (i + 1)
         ++ " (Similarity: " ++ format_3f (sr_similarity chunk) ++ ") ---" ++ nl)
      ++ ("Work Item ID: " ++ str_id (sr_workitem_id chunk) ++ nl)
      ++ ("Chunk ID: " ++ sr_chunk_id chunk ++ nl)
      ++ (if include_metadata
          then match sr_metadata chunk with
               | [] => ""
               | metadata =>
                   metadata_line metadata "title" "Title"
                   ++ metadata_line metadata "state" "State"
                   ++ metadata_line metadata "type" "Type"
                   ++ metadata_line metadata "assigned_to" "Assigned To"
                   ++ metadata_line metadata "priority" "Priority"
                   ++ metadata_line metadata "area_path" "Area Path"
               end
          else "")
      ++ ("Content:" ++ nl ++ sr_content chunk ++ nl)
      ++ (repeat_str "---" 20 ++ nl)
      ++ build_context_from (i + 1) rest include_metadata
  end.

Definition _build_context_string (chunks : list search_result)
    (include_metadata : bool) : string :=
  build_context_from 0 chunks include_metadata.

(** The four handlers of [_generate_response]. *)
Definition generation_error_text (e : exn) : string :=
  match e with
  | APIConnectionError _ =>
      "Connection error to GPT model: " ++ exn_str e
      ++ ". Check your endpoint and network."
  | RateLimitError _ =>
      "Rate limit exceeded for GPT model: " ++ exn_str e
      ++ ". Please wait and try again."
  | APIStatusError _ status_code response =>
      "Azure OpenAI GPT API error: " ++ str_of_int status_code ++ " - "
      ++ response ++ ". Check your model deployment name."
  | _ =>
      "An unexpected error occurred during response generation: " ++ exn_str e
  end.

(** The user message of [_generate_response]. *)
Definition user_message_of (query context : string) : string :=
  "Context:" ++ nl ++ context ++ nl ++ nl ++ "User Question: " ++ query
  ++ nl ++ nl ++ "Answer:".

(** The call [_generate_response] makes. *)
Definition chat_call_of (query context : string) (temperature : R) : call :=
  ChatCompletionsCreate system_message (user_message_of query context)
    temperature 1500 (9 / 10)%R.

(** [_generate_response] *)
Definition _generate_response (query context : string) (temperature : R)
  : M string :=
  let user_message := user_message_of query context in
  try_except
    (call_chat system_message user_message temperature 1500 (9 / 10)%R)
    (fun e => ret (generation_error_text e)).

(** [_calculate_confidence] *)
Definition _calculate_confidence (chunks : list search_result)
  : result string :=
  match chunks with
  | [] => Returns "low"
  | _ =>
      max_similarity <~ max (map sr_similarity chunks) ;;
      let avg_similarity :=
        (sum (map sr_similarity chunks) / IZR (len chunks))%R in
      if Rgeb max_similarity (8 / 10) && Rgeb avg_similarity (6 / 10)
      then Returns "high"
      else if Rgeb max_similarity (6 / 10) && Rgeb avg_similarity (4 / 10)
      then Returns "medium"
      else Returns "low"
  end.

(** [_format_sources] *)
Definition format_source (chunk : search_result) : source :=
  {| src_workitem_id := sr_workitem_id chunk;
     src_chunk_id := sr_chunk_id chunk;
     src_similarity := round_3 (sr_similarity chunk);
     src_content_preview :=
       if 200 <? len (list_ascii_of_string (sr_content chunk))
       then str_slice (sr_content chunk) None (Some 200) ++ "..."
       else sr_content chunk;
     src_metadata :=
       match sr_metadata chunk with
       | [] => None
       | metadata =>
           let field k := match get metadata k with
                          | Some v => v
                          | None => "N/A"
                          end in
           Some (field "title", field "state", field "type",
                 field "assigned_to")
       end |}.

Definition _format_sources (chunks : list search_result) : list source :=
  map format_source chunks.

(** The body of the [try] block of [answer_question]. *)
Definition answer_question_body (vector_store : ADOVectorStore)
    (query : string) (top_k : Z) (similarity_threshold : R)
    (include_metadata : bool) (temperature : R) : M answer :=
  retrieved_chunks <- similarity_search vector_store query top_k
                        similarity_threshold None ;;
  match retrieved_chunks with
  | [] =>
      ret {| ans_answer := not_found_answer;
             ans_sources := [];
             ans_confidence := "low";
             ans_query := query;
             ans_num_sources := None |}
  | _ =>
      let context_str :=
        _build_context_string retrieved_chunks include_metadata in
      response <- _generate_response query context_str temperature ;;
      confidence <- lift (_calculate_confidence retrieved_chunks) ;;
      ret {| ans_answer := response;
             ans_sources := _format_sources retrieved_chunks;
             ans_confidence := confidence;
             ans_query := query;
             ans_num_sources := Some (len retrieved_chunks) |}
  end.

(** [answer_question] *)
Definition answer_question (vector_store : ADOVectorStore)
    (query : string) (top_k : Z) (similarity_threshold : R)
    (include_metadata : bool) (temperature : R) : M answer :=
  try_except
    (answer_question_body vector_store query top_k similarity_threshold
       include_metadata temperature)
    (fun e =>
       ret {| ans_answer :=
                "An error occurred while processing your question: "
                ++ exn_str e;
              ans_sources := [];
              ans_confidence := "error";
              ans_query := query;
              ans_num_sources := None |}).

(** [batch_answer_questions]: the defaults of [answer_question] apply. *)
Fixpoint batch_answer_questions (vector_store : ADOVectorStore)
    (questions : list string) : M (list answer) :=
  match questions with
  | [] => ret []
  | question :: rest =>
      result <- answer_question vector_store question 5 (3 / 10)%R true
                  (2 / 10)%R ;;
      results <- batch_answer_questions vector_store rest ;;
      ret (result :: results)
  end.

(** The dict [get_workitem_summary] returns; metadata and chunk count are
    present when the work item was found. *)
Record summary : Type := {
  sum_answer : string;
  sum_workitem_id : string;
  sum_found : bool;
  sum_metadata : option dict;
  sum_chunk_count : option Z
}.

(** The context of [get_workitem_summary]. *)
Definition summary_context (workitem_id : string) (chunks : list chunk_meta)
  : string :=
  let combined_content :=
    String.concat "" (map (fun chunk => cm_content chunk ++ nl ++ nl) chunks) in
  let metadata := match chunks with
                  | chunk :: _ => cm_metadata chunk
                  | [] => []
                  end in
  ("Work Item ID: " ++ workitem_id ++ nl)
  ++ match metadata with
     | [] => ""
     | _ =>
         metadata_line metadata "title" "Title"
         ++ metadata_line metadata "state" "State"
         ++ metadata_line metadata "type" "Type"
         ++ metadata_line metadata "assigned_to" "Assigned To"
         ++ metadata_line metadata "priority" "Priority"
     end
  ++ (nl ++ "Full Content:" ++ nl ++ combined_content).

Definition summary_query (workitem_id : string) : string :=
  "Please provide a comprehensive summary of work item " ++ workitem_id.

(** [get_workitem_summary] *)
Definition get_workitem_summary (vector_store : ADOVectorStore)
    (workitem_id : string) : M summary :=
  let chunks := get_workitem_chunks vector_store workitem_id in
  match chunks with
  | [] =>
      ret {| sum_answer := "Work item " ++ workitem_id
                           ++ " not found in the knowledge base.";
             sum_workitem_id := workitem_id;
             sum_found := false;
             sum_metadata := None;
             sum_chunk_count := None |}
  | first :: _ =>
      let context := summary_context workitem_id chunks in
      answer <- _generate_response (summary_query workitem_id) context
                  (2 / 10)%R ;;
      ret {| sum_answer := answer;
             sum_workitem_id := workitem_id;
             sum_found := true;
             sum_metadata := Some (cm_metadata first);
             sum_chunk_count := Some (len chunks) |}
  end.

(** The dict [search_workitems_by_criteria] returns: ['workitems'] in the
    grouped mode, ['chunks'] in the flat mode; ['count'] is absent when
    the grouped mode finds nothing. *)
Record criteria_result : Type := {
  cr_answer : string;
  cr_criteria : string;
  cr_workitems : option (list workitem_result);
  cr_chunks : option (list search_result);
  cr_found : bool;
  cr_count : option Z
}.

(** The listing of the grouped mode, from rank [i] on. *)
Fixpoint criteria_listing (i : Z) (related_workitems : list workitem_result)
  : string :=
  match related_workitems with
  | [] => ""
  | item :: rest =>
      (str_of_int i ++ ". Work Item " ++ wr_workitem_id item ++ nl)
      ++ ("   Max Similarity: " ++ format_3f (wr_max_similarity item) ++ nl)
      ++ ("   Relevant Chunks: " ++ str_of_int (wr_chunk_count item) ++ nl)
      ++ match wr_relevant_chunks item with
         | [] => ""
         | top_chunk :: _ =>
             "   Content Preview: "
             ++ str_slice (rc_content top_chunk) None (Some 200) ++ "..." ++ nl
         end
      ++ nl
      ++ criteria_listing (i + 1) rest
  end.

Definition criteria_context (criteria : string)
    (related_workitems : list workitem_result) : string :=
  "Search Results for: '" ++ criteria ++ "'" ++ nl ++ nl
  ++ criteria_listing 1 related_workitems.

Definition grouped_query (criteria : string) : string :=
  "Summarize and organize these work items related to: " ++ criteria.

Definition flat_query (criteria : string) : string :=
  "Organize and summarize these work item chunks related to: " ++ criteria.

(** [search_workitems_by_criteria] *)
Definition search_workitems_by_criteria (vector_store : ADOVectorStore)
    (criteria : string) (top_k : Z) (group_by_workitem : bool)
    (similarity_threshold : R) : M criteria_result :=
  if group_by_workitem
  then
    related_workitems <- get_related_workitems vector_store criteria top_k ;;
    match related_workitems with
    | [] =>
        ret {| cr_answer := "No work items found matching criteria: '"
                            ++ criteria ++ "'";
               cr_criteria := criteria;
               cr_workitems := Some [];
               cr_chunks := None;
               cr_found := false;
               cr_count := None |}
    | _ =>
        let context := criteria_context criteria related_workitems in
        answer <- _generate_response (grouped_query criteria) context
                    (2 / 10)%R ;;
        ret {| cr_answer := answer;
               cr_criteria := criteria;
               cr_workitems := Some related_workitems;
               cr_chunks := None;
               cr_found := true;
               cr_count := Some (len related_workitems) |}
    end
  else
    chunks <- similarity_search vector_store criteria top_k
                similarity_threshold None ;;
    let context := _build_context_string chunks true in
    answer <- _generate_response (flat_query criteria) context (2 / 10)%R ;;
    ret {| cr_answer := answer;
           cr_criteria := criteria;
           cr_workitems := None;
           cr_chunks := Some chunks;
           cr_found := 0 <? len chunks;
           cr_count := Some (len chunks) |}.

(** ['system_status'] of [get_system_stats]. *)
Definition system_status `{FloatRound2} (vector_store : ADOVectorStore)
  : result string :=
  vector_stats <~ get_statistics vector_store ;;
  Returns match vector_stats with
          | StatsError _ => "error"
          | Stats _ _ _ _ _ _ => "operational"
          end.

(** The calls of a log that go to the client. *)
Definition is_embedding_call (c : call) : bool :=
  match c with EmbeddingsCreate _ => true | _ => false end.

Definition is_chat_call (c : call) : bool :=
  match c with ChatCompletionsCreate _ _ _ _ _ => true | _ => false end.

End System.

End QASystem.

(* ================================================================== *)
(** * embedding.py *)
(* ================================================================== *)

Module Embedding.
Import VectorStore.

(** The chunk file read by [main]. *)
Inductive chunks_file : Type :=
| ChunksMissing
| ChunksUnreadable (e : exn)
| ChunksData (chunks : list chunk_meta).

(** The dict [chunk_id -> embedding_data], keys in insertion order. *)
Definition record_dict : Type := list (string * embedding_item).

(** [d[k] = v] *)
Fixpoint setitem (d : record_dict) (k : string) (v : embedding_item)
  : record_dict :=
  match d with
  | [] => [(k, v)]
  | (k', v') :: d' =>
      if String.eqb k k' then (k', v) :: d' else (k', v') :: setitem d' k v
  end.

(** [k in d] *)
Definition haskey (d : record_dict) (k : string) : bool :=
  existsb (fun kv => String.eqb k (fst kv)) d.

(** [list(d.values())] *)
Definition values (d : record_dict) : list embedding_item := map snd d.

Section Client.
Context `{AzureOpenAI}.

(** [get_text_embedding] *)
Definition get_text_embedding (text : string) : M (option (list R)) :=
  let text := strip (replace_char newline " "%char text) in
  if negb (truthy text) then ret None
  else
    try_except
      (response <- call_embeddings text ;; ret (Some response))
      (fun e =>
         match e with
         | RateLimitError _ => _ <- sleep 10 ;; ret None
         | _ => ret None
         end).

(** [generate_embeddings_with_retry]: the loop over the attempts still
    to be made. *)
Fixpoint retry_loop (text : string) (max_retries : Z) (attempts : list Z)
  : M (option (list R)) :=
  match attempts with
  | [] => ret None
  | attempt :: later =>
      embedding <- get_text_embedding text ;;
      match embedding with
      | Some e => ret (Some e)
      | None =>
          _ <- (if attempt <? max_retries - 1
                then sleep (IZR ((attempt + 1) * 5))
                else ret tt) ;;
          retry_loop text max_retries later
      end
  end.

Definition generate_embeddings_with_retry (text : string) (max_retries : Z)
  : M (option (list R)) :=
  attempts <- lift (range 0 max_retries 1) ;;
  retry_loop text max_retries attempts.

(** The record [generate_embeddings_for_chunks] builds for a chunk. *)
Definition embedding_data_of (chunk : chunk_meta) (embedding : list R)
  : embedding_item :=
  {| ei_chunk_id := cm_chunk_id chunk;
     ei_content := cm_content chunk;
     ei_workitem_id := cm_workitem_id chunk;
     ei_embedding := embedding;
     ei_metadata := cm_metadata chunk |}.

(** [generate_embeddings_for_chunks], from chunk number [i] of [n] on. *)
Fixpoint embed_chunks_from (i n : Z) (chunks : list chunk_meta)
  : M (list embedding_item) :=
  match chunks with
  | [] => ret []
  | chunk :: rest =>
      embedding <- generate_embeddings_with_retry (cm_content chunk) 3 ;;
      let here :=
        match embedding with
        | Some e => [embedding_data_of chunk e]
        | None => []
        end in
      _ <- (if i <? n - 1 then sleep (5 / 10) else ret tt) ;;
      more <- embed_chunks_from (i + 1) n rest ;;
      ret (here ++ more)%list
  end.

Definition generate_embeddings_for_chunks (chunks : list chunk_meta)
  : M (list embedding_item) :=
  embed_chunks_from 0 (len chunks) chunks.

End Client.

(** [data] holds records of some of [chunks], in the order of the
    chunks. *)
Inductive embedded_from : list chunk_meta -> list embedding_item -> Prop :=
| embedded_nil : embedded_from [] []
| embedded_take chunk e chunks data :
    embedded_from chunks data ->
    embedded_from (chunk :: chunks) (embedding_data_of chunk e :: data)
| embedded_skip chunk chunks data :
    embedded_from chunks data ->
    embedded_from (chunk :: chunks) data.

(** The dict entry of a record. *)
Definition entry_of (item : embedding_item) : string * embedding_item :=
  (ei_chunk_id item, item).

(** [load_existing_embeddings] *)
Definition load_existing_embeddings (output_file : embeddings_file)
  : record_dict :=
  match output_file with
  | FileMissing => []
  | FileUnreadable _ => []
  | FileData existing_data =>
      fold_left (fun d item => setitem d (ei_chunk_id item) item)
        existing_data []
  end.

Section Client.
Context `{AzureOpenAI}.

(** The chunks [main] still has to embed. *)
Definition new_chunks_of (existing_embeddings : record_dict)
    (chunks : list chunk_meta) : list chunk_meta :=
  filter (fun chunk => negb (haskey existing_embeddings (cm_chunk_id chunk)))
    chunks.

(** [main]: the state of the output file after the run.  [env_ok] is the
    check of the environment variables; the final write succeeds. *)
Definition main (input_file : chunks_file) (env_ok : bool)
    (output_file : embeddings_file) : M embeddings_file :=
  match input_file with
  | ChunksMissing => ret output_file
  | _ =>
      if negb env_ok then ret output_file
      else
        try_except
          (chunks <- lift (match input_file with
                           | ChunksData chunks => Returns chunks
                           | ChunksUnreadable e => Raises e
                           | ChunksMissing => Returns []
                           end) ;;
           let existing_embeddings := load_existing_embeddings output_file in
           let new_chunks := new_chunks_of existing_embeddings chunks in
           match new_chunks with
           | [] => ret output_file
           | _ =>
               new_embeddings_data <-
                 generate_embeddings_for_chunks new_chunks ;;
               let all_embeddings_data :=
                 (values existing_embeddings ++ new_embeddings_data)%list in
               ret (FileData all_embeddings_data)
           end)
          (fun _ => ret output_file)
  end.

End Client.

End Embedding.

(* ================================================================== *)
(** * Sample data and clients *)
(* ================================================================== *)

Module Fixtures.
Import VectorStore QASystem Embedding.

(** No network: every call fails to connect. *)
Definition offline_client : AzureOpenAI := {|
  embeddings_create _ _ := Raises (APIConnectionError "offline");
  chat_completions_create _ _ _ _ _ _ := Raises (APIConnectionError "offline")
|}.

(** Embedding works except for one input; generation works. *)
Definition demo_client : AzureOpenAI := {|
  embeddings_create _ input :=
    if String.eqb input "second question"
    then Raises (APIConnectionError "down")
    else Returns [1%R];
  chat_completions_create _ _ _ _ _ _ := Returns "ok"
|}.

(** Embedding works; generation is rate limited. *)
Definition chat_down_client : AzureOpenAI := {|
  embeddings_create _ _ := Returns [1%R];
  chat_completions_create _ _ _ _ _ _ := Raises (RateLimitError "busy")
|}.

(** Embeddings of dimension 2, whatever the input; generation works. *)
Definition wide_client : AzureOpenAI := {|
  embeddings_create _ _ := Returns [1%R; 0%R];
  chat_completions_create _ _ _ _ _ _ := Returns "ok"
|}.

Definition plain_format : FloatFormat := {|
  format_3f _ := "0.000";
  round_3 x := x
|}.

Definition plain_round : FloatRound2 := {| round_2 x := x |}.

Definition item1 : embedding_item :=
  {| ei_chunk_id := "workitem_1_chunk_0"; ei_content := "alpha";
     ei_workitem_id := IdInt 1; ei_embedding := [1%R];
     ei_metadata := [("title", "A")] |}.

Definition item2 : embedding_item :=
  {| ei_chunk_id := "workitem_2_chunk_0"; ei_content := "beta";
     ei_workitem_id := IdInt 2; ei_embedding := [1%R];
     ei_metadata := [] |}.

(** A second record under the chunk id of [item1]. *)
Definition item1_again : embedding_item :=
  {| ei_chunk_id := "workitem_1_chunk_0"; ei_content := "alpha, edited";
     ei_workitem_id := IdInt 1; ei_embedding := [1%R];
     ei_metadata := [("title", "A")] |}.

Definition demo_file : embeddings_file := FileData [item1; item2].

Definition hit (i : nat) (score : R) (item : embedding_item) : search_result :=
  {| sr_index := i; sr_similarity := score;
     sr_chunk_id := ei_chunk_id item; sr_content := ei_content item;
     sr_workitem_id := ei_workitem_id item;
     sr_metadata := ei_metadata item |}.

Definition chunk3 : chunk_meta :=
  {| cm_chunk_id := "workitem_3_chunk_0"; cm_content := "gamma";
     cm_workitem_id := IdInt 3; cm_metadata := [] |}.

End Fixtures.

(* ================================================================== *)
(** * Facts about the Python primitives *)
(* ================================================================== *)


Module PyFacts.

Lemma rbind_returns {A B} (m : result A) (k : A -> result B) (b : B) :
  rbind m k = Returns b <-> exists a, m = Returns a /\ k a = Returns b.
Proof.
  destruct m as [a|e]; simpl; split.
  - intros Hk. exists a. auto.
  - intros [a' [Ha Hk]]. inversion Ha. subst. exact Hk.
  - discriminate.
  - intros [a' [Ha _]]. discriminate.
Qed.

Lemma rbind_raises {A B} (m : result A) (k : A -> result B) (e : exn) :
  rbind m k = Raises e <->
  m = Raises e \/ exists a, m = Returns a /\ k a = Raises e.
Proof.
  destruct m as [a|e']; simpl; split.
  - intros Hk. right. exists a. auto.
  - intros [Hm | [a' [Ha Hk]]]; [discriminate|]. inversion Ha. subst. exact Hk.
  - intros Hk. left. inversion Hk. reflexivity.
  - intros [Hm | [a' [Ha _]]]; [inversion Hm; reflexivity | discriminate].
Qed.

(** ** The primitives on sample inputs *)

Example split_ex1 : split "a,b,,c," "," = Returns ["a"; "b"; ""; "c"; ""].
Proof. reflexivity. Qed.
Example split_ex2 : split "" "ab" = Returns [""].
Proof. reflexivity. Qed.
Example split_ex3 : split "xabyabab" "ab" = Returns ["x"; "y"; ""; ""].
Proof. reflexivity. Qed.
Example strip_ex : strip "  a b 	" = "a b".
Proof. reflexivity. Qed.
Example slice_ex : slice [1;2;3;4;5] (Some (-2)) None = [4;5]
   /\ slice [1;2;3;4;5] (Some 0) (Some (-1)) = [1;2;3;4]
   /\ slice [1;2;3;4;5] (Some 3) (Some 10) = [4;5]
   /\ slice [1;2;3;4;5] (Some (-0)) None = [1;2;3;4;5].
Proof. repeat split; reflexivity. Qed.
Example range_ex : range 0 7 3 = Returns [0;3;6] /\ range 0 6 3 = Returns [0;3]
   /\ range 0 0 1 = Returns [] /\ range 0 5 (-1) = Returns [].
Proof. repeat split; reflexivity. Qed.

(** Splits a hypothesis [x <~ m ;; k = Returns b] into its steps. *)
Ltac rsteps H :=
  let a := fresh "a" in
  let Ha := fresh "Ha" in
  apply rbind_returns in H; destruct H as [a [Ha H]].

Lemma Rltb_true x y : Rltb x y = true <-> (x < y)%R.
Proof. unfold Rltb. destruct (Rlt_dec x y); split; intros; try lra; discriminate. Qed.

Lemma Rltb_false x y : Rltb x y = false <-> (y <= x)%R.
Proof. unfold Rltb. destruct (Rlt_dec x y); split; intros; try lra; discriminate. Qed.

Lemma Rgeb_true x y : Rgeb x y = true <-> (y <= x)%R.
Proof. unfold Rgeb. destruct (Rle_dec y x); split; intros; try lra; discriminate. Qed.

Lemma Rgeb_false x y : Rgeb x y = false <-> (x < y)%R.
Proof. unfold Rgeb. destruct (Rle_dec y x); split; intros; try lra; discriminate. Qed.

Lemma Reqb_true x y : Reqb x y = true <-> x = y.
Proof. unfold Reqb. destruct (Req_dec_T x y); split; intros; auto; discriminate. Qed.

Lemma Reqb_false x y : Reqb x y = false <-> x <> y.
Proof. unfold Reqb. destruct (Req_dec_T x y); split; intros; auto; try discriminate. contradiction. Qed.

(** ** Slices *)

Lemma slice_prefix {A} (l : list A) (k : Z) :
  slice l None (Some k) = firstn (Z.to_nat (norm_bound (len l) k)) l.
Proof. unfold slice. simpl. rewrite Z.sub_0_r. reflexivity. Qed.

Lemma slice_prefix_length {A} (l : list A) (k : Z) :
  0 <= k -> len (slice l None (Some k)) <= k.
Proof.
  intros Hk. rewrite slice_prefix. unfold len, norm_bound.
  rewrite length_firstn.
  destruct (k <? 0) eqn:E; [apply Z.ltb_lt in E; lia|]. lia.
Qed.

Lemma slice_prefix_all {A} (l : list A) (k : Z) :
  len l <= k -> slice l None (Some k) = l.
Proof.
  intros Hk. rewrite slice_prefix. unfold norm_bound, len in *.
  destruct (k <? 0) eqn:E; [apply Z.ltb_lt in E; lia|].
  apply firstn_all2. lia.
Qed.

Lemma slice_window_length {A} (l : list A) (i n : Z) :
  0 <= i -> 0 <= n -> len (slice l (Some i) (Some (i + n))) <= n.
Proof.
  intros Hi Hn. unfold slice, len, norm_bound.
  rewrite length_firstn.
  destruct (i <? 0) eqn:E1; [apply Z.ltb_lt in E1; lia|].
  destruct (i + n <? 0) eqn:E2; [apply Z.ltb_lt in E2; lia|]. lia.
Qed.

Lemma In_firstn {A} (x : A) (l : list A) (n : nat) :
  In x (firstn n l) -> In x l.
Proof.
  revert n. induction l as [|a l IH]; intros [|n]; simpl; try tauto.
  intros [Hx|Hx]; [left; exact Hx|right; eapply IH; exact Hx].
Qed.

Lemma StronglySorted_firstn {A} (R : A -> A -> Prop) (l : list A) (n : nat) :
  StronglySorted R l -> StronglySorted R (firstn n l).
Proof.
  intros Hs. revert n. induction Hs as [|a l Hs IH Hall]; intros [|n]; simpl;
    try constructor.
  - apply IH.
  - rewrite Forall_forall in *. intros x Hx. apply Hall.
    eapply In_firstn; eauto.
Qed.

Lemma Forall_firstn {A} (P : A -> Prop) (l : list A) (n : nat) :
  Forall P l -> Forall P (firstn n l).
Proof.
  rewrite !Forall_forall. intros Hall x Hx. apply Hall.
  eapply In_firstn; eauto.
Qed.

(** ** The stable descending sort *)

Section SortFacts.
Context {A : Type} (klt : A -> A -> bool).

Lemma insert_desc_perm (x : A) (l : list A) :
  Permutation (x :: l) (insert_desc klt x l).
Proof.
  induction l as [|y l IH]; simpl; [reflexivity|].
  destruct (klt x y); [|reflexivity].
  rewrite perm_swap. constructor. exact IH.
Qed.

Lemma sort_desc_perm (l : list A) : Permutation l (sort_desc klt l).
Proof.
  induction l as [|x l IH]; simpl; [constructor|].
  rewrite <- insert_desc_perm. constructor. exact IH.
Qed.

Lemma sort_desc_Forall (P : A -> Prop) (l : list A) :
  Forall P l -> Forall P (sort_desc klt l).
Proof.
  intros Hl. rewrite Forall_forall in *. intros x Hx. apply Hl.
  eapply Permutation_in; [symmetry; apply sort_desc_perm|exact Hx].
Qed.

Hypothesis klt_asym : forall a b, klt a b = true -> klt b a = false.
Hypothesis klt_negtrans :
  forall a b c, klt a b = false -> klt b c = false -> klt a c = false.

Lemma insert_desc_ranked (before : A -> A -> Prop) (x : A) (l : list A) :
  StronglySorted (ranked klt before) l ->
  Forall (before x) l ->
  StronglySorted (ranked klt before) (insert_desc klt x l).
Proof.
  induction 1 as [|y l Hs IH Hy]; intros Hx; simpl.
  - constructor; constructor.
  - inversion Hx as [|? ? Hxy Hxl]; subst.
    destruct (klt x y) eqn:E.
    + constructor; [apply IH; assumption|].
      rewrite Forall_forall. intros z Hz.
      apply (Permutation_in _ (Permutation_sym (insert_desc_perm x l))) in Hz.
      destruct Hz as [<-|Hz].
      * split; [apply klt_asym; exact E|left; exact E].
      * rewrite Forall_forall in Hy. apply Hy. exact Hz.
    + constructor; [constructor; assumption|].
      constructor.
      * split; [exact E|right; exact Hxy].
      * rewrite Forall_forall in *. intros z Hz. split.
        -- apply klt_negtrans with y; [exact E|]. apply (Hy z Hz).
        -- right. apply Hxl. exact Hz.
Qed.

Lemma sort_desc_ranked (before : A -> A -> Prop) (l : list A) :
  StronglySorted before l ->
  StronglySorted (ranked klt before) (sort_desc klt l).
Proof.
  induction 1 as [|x l Hs IH Hx]; simpl; [constructor|].
  apply insert_desc_ranked; [exact IH|].
  rewrite Forall_forall in *. intros z Hz. apply Hx.
  eapply Permutation_in; [symmetry; apply sort_desc_perm|exact Hz].
Qed.
End SortFacts.

End PyFacts.

(* ================================================================== *)
(** * The vector store *)
(* ================================================================== *)

Module VectorStoreFacts.
Import VectorStore PyFacts.

Lemma sumsq_nonneg (a : list R) : (0 <= sumsq a)%R.
Proof.
  induction a as [|x a IH]; simpl; [lra|].
  pose proof (Rle_0_sqr x) as Hx. unfold Rsqr in Hx. lra.
Qed.

Lemma norm_nonneg (a : list R) : (0 <= norm a)%R.
Proof. apply sqrt_pos. Qed.

Lemma norm_sqr (a : list R) : (norm a * norm a = sumsq a)%R.
Proof. apply sqrt_sqrt, sumsq_nonneg. Qed.

Lemma dot_total (a b : list R) :
  List.length a = List.length b -> exists d, dot a b = Returns d.
Proof.
  revert b. induction a as [|x a IH]; intros [|y b] Hlen; simpl in *;
    try discriminate.
  - eexists; reflexivity.
  - destruct (IH b) as [d Hd]; [lia|]. rewrite Hd. simpl. eexists; reflexivity.
Qed.

Lemma dot_length (a b : list R) (d : R) :
  dot a b = Returns d -> List.length a = List.length b.
Proof.
  revert b d. induction a as [|x a IH]; intros [|y b] d Hd; simpl in *;
    try discriminate; [reflexivity|].
  rsteps Hd. f_equal. eapply IH; eauto.
Qed.

Lemma dot_self (a : list R) : dot a a = Returns (sumsq a).
Proof. induction a as [|x a IH]; simpl; [reflexivity|]. rewrite IH. reflexivity. Qed.

Lemma cauchy_schwarz_step (x y d A B : R) :
  (0 <= A -> 0 <= B -> d * d <= A * B ->
   (x * y + d) * (x * y + d) <= (x * x + A) * (y * y + B))%R.
Proof.
  intros HA HB Hd.
  assert (H2 : (2 * (x * y * d) <= x * x * B + y * y * A)%R).
  { set (u := (x * x * B)%R). set (v := (y * y * A)%R). set (t := (x * y * d)%R).
    assert (Hu : (0 <= u)%R) by (apply Rmult_le_pos; [apply Rle_0_sqr|lra]).
    assert (Hv : (0 <= v)%R) by (apply Rmult_le_pos; [apply Rle_0_sqr|lra]).
    assert (Huv : (t * t <= u * v)%R).
    { unfold t, u, v.
      replace (x * y * d * (x * y * d))%R
        with ((x * x) * (y * y) * (d * d))%R by ring.
      replace (x * x * B * (y * y * A))%R
        with ((x * x) * (y * y) * (A * B))%R by ring.
      apply Rmult_le_compat_l; [|exact Hd].
      apply Rmult_le_pos; apply Rle_0_sqr. }
    clearbody t u v.
    destruct (Rle_dec (2 * t) (u + v)) as [Hle|Hgt]; [exact Hle|].
    exfalso.
    assert (H1 : ((u + v) * (u + v) < (2 * t) * (2 * t))%R)
      by (apply Rmult_le_0_lt_compat; lra).
    pose proof (Rle_0_sqr (u - v)) as H3. unfold Rsqr in H3.
    assert (E1 : ((u + v) * (u + v) = (u - v) * (u - v) + 4 * (u * v))%R)
      by ring.
    assert (E2 : (2 * t * (2 * t) = 4 * (t * t))%R) by ring.
    lra. }
  replace ((x * y + d) * (x * y + d))%R
    with (x * x * (y * y) + 2 * (x * y * d) + d * d)%R by ring.
  replace ((x * x + A) * (y * y + B))%R
    with (x * x * (y * y) + (x * x * B + y * y * A) + A * B)%R by ring.
  lra.
Qed.

(** Cauchy-Schwarz on [np.dot]. *)
Lemma cauchy_schwarz (a b : list R) (d : R) :
  dot a b = Returns d -> (d * d <= sumsq a * sumsq b)%R.
Proof.
  revert b d. induction a as [|x a IH]; intros [|y b] d Hd; simpl in *;
    try discriminate.
  - inversion Hd. lra.
  - rsteps Hd. inversion Hd; subst.
    apply cauchy_schwarz_step;
      [apply sumsq_nonneg|apply sumsq_nonneg|eapply IH; eauto].
Qed.

Lemma square_bound (d p : R) :
  (0 < p -> d * d <= p * p -> - p <= d <= p)%R.
Proof.
  intros Hp Hd. split.
  - destruct (Rle_dec (- p) d) as [H|H]; [exact H|]. exfalso.
    assert ((p * p < (- d) * (- d))%R) by (apply Rmult_le_0_lt_compat; lra).
    replace (- d * - d)%R with (d * d)%R in * by ring. lra.
  - destruct (Rle_dec d p) as [H|H]; [exact H|]. exfalso.
    assert ((p * p < d * d)%R) by (apply Rmult_le_0_lt_compat; lra). lra.
Qed.

(** What [cosine_similarity] returns, by cases on the norms. *)
Lemma cosine_similarity_cases (a b : list R) (c : R) :
  cosine_similarity a b = Returns c ->
  exists d, dot a b = Returns d /\
    ((norm a = 0%R \/ norm b = 0%R) /\ c = 0%R
     \/ (0 < norm a)%R /\ (0 < norm b)%R /\ c = (d / (norm a * norm b))%R).
Proof.
  unfold cosine_similarity. intros Hc. rsteps Hc. exists a0. split; [exact Ha|].
  destruct (Reqb (norm a) 0) eqn:E1; simpl in Hc.
  - inversion Hc. left. split; [left; apply Reqb_true; exact E1|reflexivity].
  - destruct (Reqb (norm b) 0) eqn:E2; simpl in Hc; inversion Hc.
    + left. split; [right; apply Reqb_true; exact E2|reflexivity].
    + right. apply Reqb_false in E1, E2.
      pose proof (norm_nonneg a). pose proof (norm_nonneg b).
      repeat split; lra.
Qed.

Lemma cosine_similarity_range (a b : list R) (c : R) :
  cosine_similarity a b = Returns c -> (-1 <= c <= 1)%R.
Proof.
  intros Hc. destruct (cosine_similarity_cases _ _ Hc) as [d [Hd Hcases]].
  destruct Hcases as [[_ ->]|[Ha [Hb ->]]]; [lra|].
  set (p := (norm a * norm b)%R).
  assert (Hp : (0 < p)%R) by (apply Rmult_lt_0_compat; assumption).
  assert (Hdp : (d * d <= p * p)%R).
  { unfold p. replace (norm a * norm b * (norm a * norm b))%R
      with ((norm a * norm a) * (norm b * norm b))%R by ring.
    rewrite !norm_sqr. apply cauchy_schwarz. exact Hd. }
  destruct (square_bound Hp Hdp) as [Hlo Hhi].
  split.
  - apply Rmult_le_reg_r with p; [exact Hp|].
    unfold Rdiv. rewrite Rmult_assoc, Rinv_l by lra. lra.
  - apply Rmult_le_reg_r with p; [exact Hp|].
    unfold Rdiv. rewrite Rmult_assoc, Rinv_l by lra. lra.
Qed.

Lemma cosine_similarity_total (a b : list R) :
  List.length a = List.length b -> exists c, cosine_similarity a b = Returns c.
Proof.
  intros Hlen. destruct (dot_total _ _ Hlen) as [d Hd].
  unfold cosine_similarity. rewrite Hd. simpl.
  destruct (Reqb (norm a) 0 || Reqb (norm b) 0); eexists; reflexivity.
Qed.

Lemma cosine_similarity_self (a : list R) :
  (0 < norm a)%R -> cosine_similarity a a = Returns 1%R.
Proof.
  intros Ha. unfold cosine_similarity. rewrite dot_self. simpl.
  assert (E : Reqb (norm a) 0 = false) by (apply Reqb_false; lra).
  rewrite E. simpl. f_equal. rewrite <- norm_sqr. field. lra.
Qed.

(** ** [similarity_search] *)

Lemma by_similarity_asym a b :
  by_similarity a b = true -> by_similarity b a = false.
Proof. unfold by_similarity. rewrite Rltb_true, Rltb_false. lra. Qed.

Lemma by_similarity_negtrans a b c :
  by_similarity a b = false -> by_similarity b c = false ->
  by_similarity a c = false.
Proof. unfold by_similarity. rewrite !Rltb_false. lra. Qed.

Lemma ranked_score_order a b :
  ranked by_similarity (fun x y => (sr_index x < sr_index y)%nat) a b ->
  score_order a b.
Proof.
  unfold ranked, by_similarity, score_order.
  rewrite Rltb_false, Rltb_true. intros [Hle [Hlt|Hidx]]; split; auto; lra.
Qed.

Lemma StronglySorted_impl {A} (R1 R2 : A -> A -> Prop) (l : list A) :
  (forall a b, R1 a b -> R2 a b) -> StronglySorted R1 l -> StronglySorted R2 l.
Proof.
  intros Himp. induction 1 as [|a l Hs IH Ha]; constructor; auto.
  eapply Forall_impl; [|exact Ha]. intros b. apply Himp.
Qed.

Lemma subscript_returns {A} (l : list A) (i : nat) (a : A) :
  subscript l i = Returns a <-> nth_error l i = Some a.
Proof.
  unfold subscript. destruct (nth_error l i); split; intros E;
    inversion E; reflexivity.
Qed.

(** The matches the loop collects from row [i] on, where [rows] are the
    rows of [matrix] from [i] on. *)
Lemma scan_spec qe metas thr filt matrix rows i rs :
  skipn i matrix = rows ->
  scan qe metas thr filt i rows = Returns rs ->
  StronglySorted (fun a b => (sr_index a < sr_index b)%nat) rs
  /\ Forall (fun r => (i <= sr_index r)%nat
                      /\ (thr <= sr_similarity r)%R
                      /\ is_match matrix metas qe r) rs.
Proof.
  revert i rs. induction rows as [|row rows IH]; intros i rs Hrows Hscan;
    simpl in Hscan.
  - inversion Hscan. split; constructor.
  - rsteps Hscan. rename a into sim, Ha into Hsim.
    rsteps Hscan. rename a into skip, Ha into Hskip.
    rsteps Hscan. rename a into here, Ha into Hhere.
    rsteps Hscan. rename a into rest, Ha into Hrest.
    inversion Hscan; subst rs; clear Hscan.
    assert (Hrows' : skipn (S i) matrix = rows).
    { clear - Hrows. revert matrix Hrows. induction i as [|i IHi];
        intros [|r0 matrix] Hrows; simpl in *; try discriminate.
      - inversion Hrows. reflexivity.
      - apply IHi. exact Hrows. }
    assert (Hnth : nth_error matrix i = Some row).
    { clear - Hrows. revert matrix Hrows. induction i as [|i IHi];
        intros [|r0 matrix] Hrows; simpl in *; try discriminate.
      - inversion Hrows. reflexivity.
      - apply IHi. exact Hrows. }
    destruct (IH (S i) rest Hrows' Hrest) as [Hsorted Hall].
    assert (Hhere' : here = [] \/ exists r, here = [r] /\ sr_index r = i
              /\ (thr <= sr_similarity r)%R /\ is_match matrix metas qe r).
    { destruct skip; [inversion Hhere; auto|].
      destruct (Rgeb sim thr) eqn:Ege; [|inversion Hhere; auto].
      rsteps Hhere. inversion Hhere; subst here. right.
      eexists. split; [reflexivity|]. simpl.
      split; [reflexivity|]. split; [apply Rgeb_true; exact Ege|].
      exists row, a. simpl. apply subscript_returns in Ha.
      repeat split; auto. }
    destruct Hhere' as [->|[r [-> [Hidx [Hthr Hmatch]]]]]; simpl.
    + split; [exact Hsorted|].
      eapply Forall_impl; [|exact Hall]. simpl. intros r [H1 H2].
      split; [lia|exact H2].
    + split.
      * constructor; [exact Hsorted|].
        eapply Forall_impl; [|exact Hall]. simpl. intros r' [H1 _]. lia.
      * constructor; [repeat split; auto; lia|].
        eapply Forall_impl; [|exact Hall]. simpl. intros r' [H1 H2].
        split; [lia|exact H2].
Qed.

Lemma scan_total qe metas thr filt rows i :
  Forall (fun row => List.length row = List.length qe) rows ->
  (i + List.length rows <= List.length metas)%nat ->
  exists rs, scan qe metas thr filt i rows = Returns rs.
Proof.
  revert i. induction rows as [|row rows IH]; intros i Hdim Hlen; simpl.
  - eexists; reflexivity.
  - inversion Hdim as [|? ? Hrow Hrest]; subst.
    destruct (cosine_similarity_total qe row) as [c Hc]; [symmetry; exact Hrow|].
    rewrite Hc. simpl.
    assert (Hm : exists m, subscript metas i = Returns m).
    { unfold subscript. destruct (nth_error metas i) eqn:E; [eexists; reflexivity|].
      apply nth_error_None in E. simpl in Hlen. lia. }
    destruct Hm as [m Hm]. rewrite Hm.
    destruct (IH (S i) Hrest) as [rs Hrs]; [simpl in Hlen; lia|].
    rewrite Hrs.
    destruct (filter_active filt); simpl;
      repeat match goal with
             | |- context [if ?b then _ else _] => destruct b; simpl
             end; eexists; reflexivity.
Qed.

(** The store [load_embeddings] builds has one metadata entry per row. *)
Lemma load_embeddings_shape (f : embeddings_file) (matrix : list (list R)) :
  embeddings_matrix (load_embeddings f) = Some matrix ->
  List.length (chunk_metadata (load_embeddings f)) = List.length matrix.
Proof.
  destruct f as [| |items]; simpl; try discriminate.
  destruct items as [|it items]; [discriminate|].
  set (valid := filter has_embedding (it :: items)).
  destruct (map ei_embedding valid) as [|r rows] eqn:Erows; [discriminate|].
  unfold np_array.
  destruct (forallb _ rows); simpl; [|discriminate].
  intros Hm. inversion Hm. rewrite <- Erows, !length_map. reflexivity.
Qed.

Section Client.
Context `{AzureOpenAI}.

(** [get_query_embedding] always returns. *)
Lemma get_query_embedding_returns (query : string) (w : world) :
  exists o w', get_query_embedding query w = (Returns o, w').
Proof.
  unfold get_query_embedding.
  destruct (negb _); [eexists; eexists; reflexivity|].
  unfold try_except, bind, call_embeddings, ret.
  destruct (embeddings_create w _); eexists; eexists; reflexivity.
Qed.

Lemma get_query_embedding_ok (query : string) (v : list R) (w : world) :
  truthy (strip (replace_char newline " "%char query)) = true ->
  embeddings_create w (strip (replace_char newline " "%char query)) = Returns v ->
  get_query_embedding query w
  = (Returns (Some v),
     (w ++ [EmbeddingsCreate (strip (replace_char newline " "%char query))])%list).
Proof.
  intros Hq He. unfold get_query_embedding. cbv zeta. rewrite Hq.
  change (negb true) with false. cbv iota.
  unfold try_except, bind, call_embeddings. rewrite He. reflexivity.
Qed.

(** The search on a loaded store, once the query is embedded. *)
Lemma similarity_search_loaded self query top_k thr filt (w w1 : world)
    (matrix : list (list R)) (qe : list R) (rs : list search_result) :
  embeddings_matrix self = Some matrix ->
  chunk_metadata self <> [] ->
  get_query_embedding query w = (Returns (Some qe), w1) ->
  scan qe (chunk_metadata self) thr filt 0 matrix = Returns rs ->
  similarity_search self query top_k thr filt w
  = (Returns (slice (sort_desc by_similarity rs) None (Some top_k)), w1).
Proof.
  intros Hm Hmeta Hq Hscan. unfold similarity_search. rewrite Hm.
  destruct (len (chunk_metadata self) =? 0) eqn:E.
  - apply Z.eqb_eq in E. unfold len in E.
    destruct (chunk_metadata self); [congruence|simpl in E; lia].
  - unfold bind. rewrite Hq. unfold lift. rewrite Hscan. reflexivity.
Qed.

(** What [similarity_search] returns, whenever it returns. *)
Lemma similarity_search_spec self query top_k thr filt w ms w' :
  0 < top_k ->
  similarity_search self query top_k thr filt w = (Returns ms, w') ->
  len ms <= top_k
  /\ Forall (fun m => (thr <= sr_similarity m)%R) ms
  /\ StronglySorted score_order ms
  /\ (ms = [] \/
      exists matrix qe w0,
        embeddings_matrix self = Some matrix
        /\ get_query_embedding query w = (Returns (Some qe), w0)
        /\ Forall (is_match matrix (chunk_metadata self) qe) ms).
Proof.
  intros Hk. unfold similarity_search.
  assert (Hnil : forall w0, ret (A:=list search_result) [] w0 = (Returns ms, w')
                        -> ms = []).
  { intros w0 E. inversion E. reflexivity. }
  assert (Htriv : forall P : Prop, ms = [] ->
            len ms <= top_k
            /\ Forall (fun m => (thr <= sr_similarity m)%R) ms
            /\ StronglySorted score_order ms
            /\ (ms = [] \/ P)).
  { intros P ->. unfold len. simpl. repeat split; try constructor; auto. lia. }
  destruct (embeddings_matrix self) as [matrix|] eqn:Em;
    [|intros E; apply Htriv, (Hnil _ E)].
  destruct (len (chunk_metadata self) =? 0); [intros E; apply Htriv, (Hnil _ E)|].
  unfold bind.
  destruct (get_query_embedding_returns query w) as [o [w0 Hq]]. rewrite Hq.
  destruct o as [qe|]; [|intros E; apply Htriv, (Hnil _ E)].
  unfold lift.
  destruct (scan qe (chunk_metadata self) thr filt 0 matrix) as [rs|e] eqn:Escan;
    [|discriminate].
  unfold ret. intros E. inversion E; subst; clear E.
  destruct (scan_spec _ _ _ _ matrix 0 eq_refl Escan) as [Hsorted Hall].
  split; [apply slice_prefix_length; lia|].
  rewrite slice_prefix.
  split; [|split].
  - apply Forall_firstn, sort_desc_Forall.
    eapply Forall_impl; [|exact Hall]. simpl. tauto.
  - apply StronglySorted_firstn.
    eapply StronglySorted_impl; [apply ranked_score_order|].
    apply sort_desc_ranked;
      [apply by_similarity_asym|apply by_similarity_negtrans|exact Hsorted].
  - right. exists matrix, qe, w'. repeat split; auto.
    apply Forall_firstn, sort_desc_Forall.
    eapply Forall_impl; [|exact Hall]. simpl. tauto.
Qed.

(** [similarity_search] returns when the query vector has the dimension
    of the rows of a loaded store. *)
Lemma similarity_search_total (f : embeddings_file) query top_k thr filt w :
  (forall qe w0 matrix,
     get_query_embedding query w = (Returns (Some qe), w0) ->
     embeddings_matrix (load_embeddings f) = Some matrix ->
     Forall (fun row => List.length row = List.length qe) matrix) ->
  exists ms w',
    similarity_search (load_embeddings f) query top_k thr filt w
    = (Returns ms, w').
Proof.
  intros Hdim. unfold similarity_search.
  destruct (embeddings_matrix (load_embeddings f)) as [matrix|] eqn:Em;
    [|eexists; eexists; reflexivity].
  destruct (len _ =? 0); [eexists; eexists; reflexivity|].
  unfold bind.
  destruct (get_query_embedding_returns query w) as [o [w0 Hq]]. rewrite Hq.
  destruct o as [qe|]; [|eexists; eexists; reflexivity].
  destruct (@scan_total qe (chunk_metadata (load_embeddings f)) thr filt matrix 0)
    as [rs Hrs].
  - eapply Hdim; eauto.
  - rewrite (load_embeddings_shape f Em). simpl. lia.
  - unfold lift, ret. rewrite Hrs. eexists; eexists; reflexivity.
Qed.

End Client.

End VectorStoreFacts.

(* ================================================================== *)
(** * Aggregation by work item *)
(* ================================================================== *)

Module AggregationFacts.
Import VectorStore PyFacts VectorStoreFacts.

Lemma existsb_eqb_In (k : string) (keys : list string) :
  existsb (String.eqb k) keys = true <-> In k keys.
Proof.
  rewrite existsb_exists. split.
  - intros [x [Hx E]]. apply String.eqb_eq in E. subst. exact Hx.
  - intros Hk. exists k. split; [exact Hk|apply String.eqb_refl].
Qed.

Lemma existsb_eqb_notIn (k : string) (keys : list string) :
  existsb (String.eqb k) keys = false <-> ~ In k keys.
Proof.
  rewrite <- existsb_eqb_In. destruct (existsb _ keys); split; intros H;
    try discriminate; try reflexivity; try tauto.
Qed.

(** ** The keys *)

Lemma first_seen_snoc (ids : list string) (k : string) :
  first_seen (ids ++ [k]) = add_key (first_seen ids) k.
Proof. unfold first_seen. rewrite fold_left_app. reflexivity. Qed.

Lemma first_seen_In (ids : list string) (k : string) :
  In k (first_seen ids) <-> In k ids.
Proof.
  induction ids as [|x ids IH] using rev_ind; [simpl; tauto|].
  rewrite first_seen_snoc, in_app_iff. unfold add_key.
  destruct (existsb (String.eqb x) (first_seen ids)) eqn:E.
  - apply existsb_eqb_In in E. rewrite IH. simpl. split; [tauto|].
    intros [Hk|[<-|[]]]; [exact Hk|]. apply IH. exact E.
  - rewrite in_app_iff, IH. tauto.
Qed.

Lemma first_seen_NoDup (ids : list string) : NoDup (first_seen ids).
Proof.
  induction ids as [|x ids IH] using rev_ind; [constructor|].
  rewrite first_seen_snoc. unfold add_key.
  destruct (existsb (String.eqb x) (first_seen ids)) eqn:E; [exact IH|].
  apply existsb_eqb_notIn in E.
  apply NoDup_app; [exact IH|constructor; [simpl; tauto|constructor]|].
  intros y Hy [<-|[]]. contradiction.
Qed.

Lemma first_seen_before_snoc (ids : list string) (x ka kb : string) :
  first_seen_before ids ka kb -> first_seen_before (ids ++ [x]) ka kb.
Proof.
  intros [Hne [l1 [l2 [E [Ha Hb]]]]]. split; [exact Hne|].
  exists l1, (l2 ++ [x])%list. rewrite E, <- app_assoc. simpl. auto.
Qed.

Lemma StronglySorted_snoc {A} (R : A -> A -> Prop) (l : list A) (x : A) :
  StronglySorted R l -> Forall (fun a => R a x) l ->
  StronglySorted R (l ++ [x]).
Proof.
  induction 1 as [|a l Hs IH Ha]; intros Hx; simpl.
  - constructor; constructor.
  - inversion Hx; subst. constructor; [apply IH; assumption|].
    apply Forall_app. split; [exact Ha|constructor; [assumption|constructor]].
Qed.

Lemma in_split_first (a : string) (l : list string) :
  In a l -> exists l1 l2, l = (l1 ++ a :: l2)%list /\ ~ In a l1.
Proof.
  induction l as [|y l IH]; [intros []|].
  intros Hin. destruct (string_dec y a) as [->|Hya].
  - exists [], l. simpl. auto.
  - destruct Hin as [Hy|Hin]; [contradiction|].
    destruct (IH Hin) as [l1 [l2 [E Hl1]]].
    exists (y :: l1)%list, l2. split; [rewrite E; reflexivity|].
    simpl. intros [H|H]; auto.
Qed.

Lemma first_seen_sorted (ids : list string) :
  StronglySorted (first_seen_before ids) (first_seen ids).
Proof.
  induction ids as [|x ids IH] using rev_ind; [constructor|].
  assert (IH' : StronglySorted (first_seen_before (ids ++ [x])) (first_seen ids)).
  { eapply StronglySorted_impl; [|exact IH].
    intros a b. apply first_seen_before_snoc. }
  rewrite first_seen_snoc. unfold add_key.
  destruct (existsb (String.eqb x) (first_seen ids)) eqn:E; [exact IH'|].
  apply existsb_eqb_notIn in E. rewrite first_seen_In in E.
  apply StronglySorted_snoc; [exact IH'|].
  rewrite Forall_forall. intros a Ha. rewrite first_seen_In in Ha.
  assert (Hax : a <> x) by (intros Heq; apply E; rewrite <- Heq; exact Ha).
  split; [exact Hax|].
  destruct (in_split_first a ids Ha) as [l1 [l2 [E12 Hl1]]].
  exists l1, (l2 ++ [x])%list.
  split; [rewrite E12, <- app_assoc; reflexivity|].
  split; [exact Hl1|].
  intros Hx. apply E. rewrite E12, in_app_iff. left. exact Hx.
Qed.

(** ** The grouping loop *)

Lemma matches_of_snoc (k : string) (seen : list search_result) r :
  matches_of k (seen ++ [r])
  = (matches_of k seen
     ++ if String.eqb (str_id (sr_workitem_id r)) k then [r] else [])%list.
Proof.
  unfold matches_of. rewrite filter_app. simpl.
  destruct (String.eqb _ k); reflexivity.
Qed.

Lemma matches_of_nil (k : string) (seen : list search_result) :
  ~ In k (workitem_ids seen) -> matches_of k seen = [].
Proof.
  induction seen as [|r seen IH]; simpl; [reflexivity|].
  intros Hk. destruct (String.eqb _ k) eqn:E.
  - apply String.eqb_eq in E. exfalso. apply Hk. left. exact E.
  - apply IH. intros Hin. apply Hk. right. exact Hin.
Qed.

Lemma matches_of_nonempty (k : string) (seen : list search_result) :
  In k (workitem_ids seen) -> matches_of k seen <> [].
Proof.
  induction seen as [|r seen IH]; simpl; [tauto|].
  intros [Hk|Hk].
  - rewrite Hk, String.eqb_refl. discriminate.
  - destruct (String.eqb _ k); [discriminate|apply IH; exact Hk].
Qed.

Lemma workitem_ids_snoc (seen : list search_result) r :
  workitem_ids (seen ++ [r])
  = (workitem_ids seen ++ [str_id (sr_workitem_id r)])%list.
Proof. unfold workitem_ids. rewrite map_app. reflexivity. Qed.

Section Dicts.
Context {V : Type}.
Implicit Types g : string -> list V.

Lemma contains_keys g (keys : list string) (k : string) :
  contains (map (fun k' => (k', g k')) keys) k = existsb (String.eqb k) keys.
Proof.
  induction keys as [|y keys IH]; simpl; [reflexivity|].
  rewrite IH. reflexivity.
Qed.

Lemma getitem_keys g (keys : list string) (k : string) :
  In k keys -> getitem (map (fun k' => (k', g k')) keys) k = Returns (g k).
Proof.
  induction keys as [|y keys IH]; simpl; [tauto|].
  intros Hk. destruct (String.eqb k y) eqn:E.
  - apply String.eqb_eq in E. subst. reflexivity.
  - destruct Hk as [->|Hk]; [rewrite String.eqb_refl in E; discriminate|].
    apply IH. exact Hk.
Qed.

Lemma append_at_keys g g' (keys : list string) (k : string) (v : V) :
  NoDup keys -> In k keys ->
  g' k = (g k ++ [v])%list ->
  (forall k', k' <> k -> g' k' = g k') ->
  append_at (map (fun k' => (k', g k')) keys) k v
  = Returns (map (fun k' => (k', g' k')) keys).
Proof.
  intros Hnd Hin Hk Hother.
  induction keys as [|y keys IH]; simpl; [destruct Hin|].
  inversion Hnd as [|? ? Hy Hnd']; subst.
  destruct (String.eqb k y) eqn:E.
  - apply String.eqb_eq in E. subst y. rewrite Hk. do 2 f_equal.
    apply map_ext_in. intros k' Hk'. rewrite Hother; [reflexivity|].
    intros ->. contradiction.
  - destruct Hin as [->|Hin]; [rewrite String.eqb_refl in E; discriminate|].
    rewrite (IH Hnd' Hin). simpl. rewrite Hother; [reflexivity|].
    intros ->. rewrite String.eqb_refl in E. discriminate.
Qed.

Lemma append_at_new g g' (keys : list string) (k : string) (v : V) :
  ~ In k keys ->
  g' k = [v] ->
  (forall k', k' <> k -> g' k' = g k') ->
  append_at (map (fun k' => (k', g k')) keys ++ [(k, [])])%list k v
  = Returns (map (fun k' => (k', g' k')) (keys ++ [k])%list).
Proof.
  intros Hnin Hk Hother.
  induction keys as [|y keys IH]; simpl.
  - rewrite String.eqb_refl, Hk. reflexivity.
  - destruct (String.eqb k y) eqn:E.
    + apply String.eqb_eq in E. subst. exfalso. apply Hnin. left. reflexivity.
    + rewrite IH by (intros Hin; apply Hnin; right; exact Hin).
      simpl. rewrite Hother; [reflexivity|].
      intros ->. rewrite String.eqb_refl in E. discriminate.
Qed.

Variable f : search_result -> V.

Lemma group_step_present (seen : list search_result) r :
  In (str_id (sr_workitem_id r)) (first_seen (workitem_ids seen)) ->
  append_at (grouped f seen) (str_id (sr_workitem_id r)) (f r)
  = Returns (grouped f (seen ++ [r])).
Proof.
  intros Hin. unfold grouped. rewrite workitem_ids_snoc.
  rewrite first_seen_snoc. unfold add_key.
  rewrite (proj2 (existsb_eqb_In _ _) Hin).
  apply append_at_keys; auto using first_seen_NoDup.
  - rewrite matches_of_snoc, String.eqb_refl, map_app. reflexivity.
  - intros k' Hk'. rewrite matches_of_snoc.
    destruct (String.eqb _ k') eqn:E;
      [apply String.eqb_eq in E; congruence|].
    rewrite app_nil_r. reflexivity.
Qed.

Lemma group_step_new (seen : list search_result) r :
  ~ In (str_id (sr_workitem_id r)) (first_seen (workitem_ids seen)) ->
  append_at (grouped f seen ++ [(str_id (sr_workitem_id r), [])])%list
    (str_id (sr_workitem_id r)) (f r)
  = Returns (grouped f (seen ++ [r])).
Proof.
  intros Hnin. unfold grouped. rewrite workitem_ids_snoc.
  rewrite first_seen_snoc. unfold add_key.
  rewrite (proj2 (existsb_eqb_notIn _ _) Hnin).
  apply append_at_new; auto.
  - rewrite matches_of_snoc, String.eqb_refl, matches_of_nil; [reflexivity|].
    rewrite <- first_seen_In. exact Hnin.
  - intros k' Hk'. rewrite matches_of_snoc.
    destruct (String.eqb _ k') eqn:E;
      [apply String.eqb_eq in E; congruence|].
    rewrite app_nil_r. reflexivity.
Qed.
End Dicts.

Lemma group_results_grouped (rest seen : list search_result) :
  group_results rest (grouped sr_similarity seen) (grouped chunk_of_result seen)
  = Returns (grouped sr_similarity (seen ++ rest),
             grouped chunk_of_result (seen ++ rest)).
Proof.
  revert seen. induction rest as [|r rest IH]; intros seen; simpl.
  - rewrite app_nil_r. reflexivity.
  - unfold grouped at 1. rewrite contains_keys.
    destruct (existsb _ (first_seen (workitem_ids seen))) eqn:E; simpl.
    + apply existsb_eqb_In in E.
      rewrite !group_step_present by exact E. simpl.
      rewrite IH, <- app_assoc. reflexivity.
    + apply existsb_eqb_notIn in E.
      rewrite !group_step_new by exact E. simpl.
      rewrite IH, <- app_assoc. reflexivity.
Qed.

(** ** Maximum and mean *)

Lemma fold_Rmax_spec (l : list R) (x : R) :
  (fold_left Rmax l x = x \/ In (fold_left Rmax l x) l)
  /\ (x <= fold_left Rmax l x)%R
  /\ (forall y, In y l -> (y <= fold_left Rmax l x)%R).
Proof.
  revert x. induction l as [|z l IH]; intros x; simpl.
  - split; [left; reflexivity|]. split; [lra|tauto].
  - destruct (IH (Rmax x z)) as [Hin [Hle Hall]].
    pose proof (Rmax_l x z). pose proof (Rmax_r x z).
    split; [|split].
    + destruct Hin as [Hm|Hin]; [|right; right; exact Hin].
      rewrite Hm. unfold Rmax. destruct (Rle_dec x z); auto.
    + lra.
    + intros y [<-|Hy]; [lra|apply Hall; exact Hy].
Qed.

Lemma max_spec (l : list R) :
  l <> [] ->
  exists m, max l = Returns m /\ In m l /\ (forall y, In y l -> (y <= m)%R).
Proof.
  destruct l as [|x l]; [congruence|]. intros _. simpl.
  destruct (fold_Rmax_spec l x) as [Hin [Hle Hall]].
  eexists. split; [reflexivity|]. split.
  - destruct Hin as [->|Hin]; [left; reflexivity|right; exact Hin].
  - intros y [<-|Hy]; [exact Hle|apply Hall; exact Hy].
Qed.

Lemma score_workitems_grouped (all_results : list search_result)
    (keys : list string) :
  (forall k, In k keys -> In k (workitem_ids all_results)) ->
  exists aggs,
    score_workitems
      (map (fun k => (k, map sr_similarity (matches_of k all_results))) keys)
      (grouped chunk_of_result all_results) = Returns aggs
    /\ map wr_workitem_id aggs = keys
    /\ Forall (aggregates all_results) aggs.
Proof.
  induction keys as [|k keys IH]; intros Hkeys; simpl.
  - exists []. repeat split; constructor.
  - assert (Hk : In k (workitem_ids all_results)) by (apply Hkeys; left; reflexivity).
    pose proof (matches_of_nonempty _ _ Hk) as Hne.
    destruct (max_spec (l := map sr_similarity (matches_of k all_results)))
      as [m [Hm [Hin Hall]]].
    { destruct (matches_of k all_results); [congruence|discriminate]. }
    rewrite Hm. simpl.
    unfold grouped at 1. rewrite getitem_keys by (apply first_seen_In; exact Hk).
    simpl.
    destruct IH as [aggs [Haggs [Hids Hall']]];
      [intros k' Hk'; apply Hkeys; right; exact Hk'|].
    rewrite Haggs. simpl. eexists. split; [reflexivity|]. simpl.
    split; [rewrite Hids; reflexivity|].
    constructor; [|exact Hall'].
    unfold aggregates. simpl. repeat split; auto.
    unfold len. rewrite length_map. reflexivity.
Qed.

(** ** The order of the aggregates *)

Lemma by_max_then_avg_true a b :
  by_max_then_avg a b = true <->
  (wr_max_similarity a < wr_max_similarity b)%R
  \/ wr_max_similarity a = wr_max_similarity b
     /\ (wr_avg_similarity a < wr_avg_similarity b)%R.
Proof.
  unfold by_max_then_avg.
  rewrite orb_true_iff, andb_true_iff, !Rltb_true, Reqb_true. tauto.
Qed.

Lemma by_max_then_avg_false a b :
  by_max_then_avg a b = false <->
  (wr_max_similarity b < wr_max_similarity a)%R
  \/ wr_max_similarity a = wr_max_similarity b
     /\ (wr_avg_similarity b <= wr_avg_similarity a)%R.
Proof.
  pose proof (by_max_then_avg_true a b) as Ht.
  destruct (by_max_then_avg a b); split; intros Hf; try discriminate;
    try reflexivity.
  - exfalso. destruct (proj1 Ht eq_refl) as [H|[H1 H2]];
      destruct Hf as [H'|[H1' H2']]; lra.
  - destruct (Rtotal_order (wr_max_similarity a) (wr_max_similarity b))
      as [Hlt|[Heq|Hgt]].
    + assert (false = true) by (apply Ht; left; exact Hlt). discriminate.
    + right. split; [exact Heq|].
      destruct (Rle_dec (wr_avg_similarity b) (wr_avg_similarity a)) as [H|H];
        [exact H|].
      assert (false = true) by (apply Ht; right; split; [exact Heq|lra]).
      discriminate.
    + left. lra.
Qed.

Lemma by_max_then_avg_asym a b :
  by_max_then_avg a b = true -> by_max_then_avg b a = false.
Proof.
  rewrite by_max_then_avg_true, by_max_then_avg_false.
  intros [H|[H1 H2]]; [left; exact H|right; split; [symmetry; exact H1|lra]].
Qed.

Lemma by_max_then_avg_negtrans a b c :
  by_max_then_avg a b = false -> by_max_then_avg b c = false ->
  by_max_then_avg a c = false.
Proof.
  rewrite !by_max_then_avg_false.
  intros [H|[H1 H2]] [H'|[H1' H2']].
  - left. lra.
  - left. lra.
  - left. lra.
  - right. split; [congruence|lra].
Qed.

Lemma ranked_aggregate_order (all_results : list search_result) a b :
  ranked by_max_then_avg
    (fun x y => first_seen_before (workitem_ids all_results)
                  (wr_workitem_id x) (wr_workitem_id y)) a b ->
  aggregate_order all_results a b.
Proof.
  unfold ranked, aggregate_order.
  rewrite by_max_then_avg_false, by_max_then_avg_true.
  intros [[Hgt|[Heq Hle]] [[Hlt|[Heq' Hlt']]|Hseen]]; try (left; lra).
  - right. split; [exact Heq|]. left. exact Hlt'.
  - right. split; [exact Heq|].
    destruct (Rle_lt_or_eq_dec _ _ Hle) as [Hlt|Heqa]; [left; exact Hlt|].
    right. split; [symmetry; exact Heqa|exact Hseen].
Qed.

Lemma StronglySorted_map {A B} (R : B -> B -> Prop) (f : A -> B) (l : list A) :
  StronglySorted R (map f l) -> StronglySorted (fun a b => R (f a) (f b)) l.
Proof.
  induction l as [|a l IH]; simpl; intros Hs; [constructor|].
  inversion Hs as [|? ? Hs' Ha]; subst. constructor; [apply IH; exact Hs'|].
  rewrite Forall_forall in *. intros b Hb. apply Ha. apply in_map. exact Hb.
Qed.

(** The aggregates before truncation. *)
Lemma aggregate_sorted_spec (all_results : list search_result) :
  exists aggs,
    aggregate_sorted all_results = Returns aggs
    /\ Permutation (first_seen (workitem_ids all_results))
         (map wr_workitem_id aggs)
    /\ Forall (aggregates all_results) aggs
    /\ StronglySorted (aggregate_order all_results) aggs.
Proof.
  unfold aggregate_sorted.
  pose proof (group_results_grouped all_results []) as Hg.
  change (grouped sr_similarity []) with (@nil (string * list R)) in Hg.
  change (grouped chunk_of_result []) with (@nil (string * list relevant_chunk)) in Hg.
  rewrite Hg. simpl.
  destruct (@score_workitems_grouped all_results
              (first_seen (workitem_ids all_results)))
    as [aggs [Haggs [Hids Hall]]].
  { intros k. apply first_seen_In. }
  unfold grouped at 1. rewrite Haggs. simpl.
  eexists. split; [reflexivity|]. split; [|split].
  - rewrite <- Hids. apply Permutation_map, sort_desc_perm.
  - apply sort_desc_Forall. exact Hall.
  - eapply StronglySorted_impl; [apply ranked_aggregate_order|].
    apply sort_desc_ranked;
      [apply by_max_then_avg_asym|apply by_max_then_avg_negtrans|].
    apply StronglySorted_map. rewrite Hids. apply first_seen_sorted.
Qed.

End AggregationFacts.

(* ================================================================== *)
(** * The question-answering system *)
(* ================================================================== *)

Module QAFacts.
Import VectorStore QASystem PyFacts VectorStoreFacts AggregationFacts.

(** ** Blank queries *)

Lemma lstrip_blank (s : string) : blank s = true -> lstrip s = "".
Proof.
  induction s as [|c s IH]; simpl; [reflexivity|].
  intros Hb. apply andb_true_iff in Hb. destruct Hb as [Hc Hs].
  rewrite Hc. apply IH. exact Hs.
Qed.

Lemma replace_newline_blank (s : string) :
  blank s = true -> blank (replace_char newline " "%char s) = true.
Proof.
  induction s as [|c s IH]; simpl; [reflexivity|].
  intros Hb. apply andb_true_iff in Hb. destruct Hb as [Hc Hs].
  rewrite (IH Hs), andb_true_r.
  destruct (Ascii.eqb c newline); [reflexivity|exact Hc].
Qed.

Lemma strip_blank_query (query : string) :
  blank query = true -> strip (replace_char newline " "%char query) = "".
Proof.
  intros Hb. unfold strip.
  rewrite (lstrip_blank _ (replace_newline_blank _ Hb)). reflexivity.
Qed.

Section System.
Context `{AzureOpenAI} `{FloatFormat}.

(** A blank query is answered without any call to the client. *)
Lemma get_query_embedding_blank (query : string) (w : world) :
  blank query = true -> get_query_embedding query w = (Returns None, w).
Proof.
  intros Hb. unfold get_query_embedding. rewrite (strip_blank_query _ Hb).
  reflexivity.
Qed.

Lemma similarity_search_blank self query top_k thr filt (w : world) :
  blank query = true ->
  similarity_search self query top_k thr filt w = (Returns [], w).
Proof.
  intros Hb. unfold similarity_search.
  destruct (embeddings_matrix self); [|reflexivity].
  destruct (len _ =? 0); [reflexivity|].
  unfold bind. rewrite (get_query_embedding_blank _ w Hb). reflexivity.
Qed.

Lemma answer_question_blank vector_store query top_k thr inc temp (w : world) :
  blank query = true ->
  answer_question vector_store query top_k thr inc temp w
  = (Returns {| ans_answer := not_found_answer;
                ans_sources := [];
                ans_confidence := "low";
                ans_query := query;
                ans_num_sources := None |}, w).
Proof.
  intros Hb. unfold answer_question, try_except, answer_question_body, bind.
  rewrite (similarity_search_blank _ _ _ _ _ w Hb). reflexivity.
Qed.

(** ** Confidence *)

Lemma calculate_confidence_cases (chunks : list search_result) :
  chunks <> [] ->
  exists mx,
    max (map sr_similarity chunks) = Returns mx
    /\ In mx (map sr_similarity chunks)
    /\ (forall x, In x (map sr_similarity chunks) -> (x <= mx)%R)
    /\ let avg := (sum (map sr_similarity chunks) / IZR (len chunks))%R in
       _calculate_confidence chunks
       = Returns (if Rgeb mx (8 / 10) && Rgeb avg (6 / 10) then "high"
                  else if Rgeb mx (6 / 10) && Rgeb avg (4 / 10) then "medium"
                  else "low").
Proof.
  intros Hne.
  destruct (max_spec (l := map sr_similarity chunks)) as [mx [Hmx [Hin Hall]]].
  { destruct chunks; [congruence|discriminate]. }
  exists mx. repeat split; auto.
  destruct chunks as [|c chunks]; [congruence|].
  unfold _calculate_confidence. rewrite Hmx. simpl rbind.
  destruct (Rgeb mx (8 / 10) && Rgeb _ (6 / 10)); [reflexivity|].
  destruct (Rgeb mx (6 / 10) && Rgeb _ (4 / 10)); reflexivity.
Qed.

Lemma calculate_confidence_tier (chunks : list search_result) :
  exists c, _calculate_confidence chunks = Returns c
            /\ (c = "high" \/ c = "medium" \/ c = "low").
Proof.
  destruct chunks as [|c0 chunks]; [exists "low"; simpl; auto|].
  destruct (@calculate_confidence_cases (c0 :: chunks)) as [mx [_ [_ [_ Hc]]]];
    [discriminate|].
  cbv zeta in Hc. rewrite Hc.
  destruct (Rgeb mx (8 / 10) && Rgeb _ (6 / 10)); [eexists; eauto|].
  destruct (Rgeb mx (6 / 10) && Rgeb _ (4 / 10)); eexists; eauto.
Qed.

(** ** Generation *)

Lemma generate_response_cases query context temperature (w : world) :
  _generate_response query context temperature w
  = (Returns
       match chat_completions_create w system_message
               (user_message_of query context) temperature 1500 (9 / 10)%R with
       | Returns text => text
       | Raises e => generation_error_text e
       end,
     (w ++ [chat_call_of query context temperature])%list).
Proof.
  unfold _generate_response, try_except, call_chat, ret, chat_call_of.
  destruct (chat_completions_create _ _ _ _ _ _); reflexivity.
Qed.

(** ** [answer_question] *)

(** The answer when the search found something. *)
Lemma answer_question_found vector_store query top_k thr inc temp
    (w w1 : world) (ms : list search_result) :
  similarity_search vector_store query top_k thr None w = (Returns ms, w1) ->
  ms <> [] ->
  exists confidence,
    _calculate_confidence ms = Returns confidence
    /\ (confidence = "high" \/ confidence = "medium" \/ confidence = "low")
    /\ answer_question vector_store query top_k thr inc temp w
       = (Returns
            {| ans_answer :=
                 match chat_completions_create w1 system_message
                         (user_message_of query
                            (_build_context_string ms inc))
                         temp 1500 (9 / 10)%R with
                 | Returns text => text
                 | Raises e => generation_error_text e
                 end;
               ans_sources := _format_sources ms;
               ans_confidence := confidence;
               ans_query := query;
               ans_num_sources := Some (len ms) |},
          (w1 ++ [chat_call_of query (_build_context_string ms inc) temp])%list).
Proof.
  intros Hs Hne.
  destruct (calculate_confidence_tier ms) as [c [Hc Htier]].
  exists c. split; [exact Hc|]. split; [exact Htier|].
  unfold answer_question, try_except, answer_question_body, bind.
  rewrite Hs. destruct ms as [|m ms]; [congruence|].
  rewrite generate_response_cases. unfold lift. rewrite Hc. reflexivity.
Qed.

(** The answer when the embedding call fails: the search finds nothing. *)
Lemma answer_question_embedding_failure vector_store query top_k thr inc temp
    (w : world) (e : exn) :
  truthy (strip (replace_char newline " "%char query)) = true ->
  embeddings_create w (strip (replace_char newline " "%char query)) = Raises e ->
  exists w',
    answer_question vector_store query top_k thr inc temp w
    = (Returns {| ans_answer := not_found_answer;
                  ans_sources := [];
                  ans_confidence := "low";
                  ans_query := query;
                  ans_num_sources := None |}, w').
Proof.
  intros Hq He.
  assert (Hemb : get_query_embedding query w
                 = (Returns None,
                    (w ++ [EmbeddingsCreate
                             (strip (replace_char newline " "%char query))])%list)).
  { unfold get_query_embedding. cbv zeta. rewrite Hq.
    change (negb true) with false. cbv iota.
    unfold try_except, bind, call_embeddings. rewrite He. reflexivity. }
  unfold answer_question, try_except, answer_question_body, bind.
  unfold similarity_search.
  destruct (embeddings_matrix vector_store); [|eexists; reflexivity].
  destruct (len _ =? 0); [eexists; reflexivity|].
  unfold bind. rewrite Hemb. eexists; reflexivity.
Qed.

(** One turn of the loop of [batch_answer_questions]. *)
Lemma batch_answer_questions_step vector_store question rest
    (w w1 w2 : world) (r : answer) (rs : list answer) :
  answer_question vector_store question 5 (3 / 10) true (2 / 10) w
  = (Returns r, w1) ->
  batch_answer_questions vector_store rest w1 = (Returns rs, w2) ->
  batch_answer_questions vector_store (question :: rest) w
  = (Returns (r :: rs), w2).
Proof.
  intros Hr Hrs. simpl. unfold bind. rewrite Hr, Hrs. reflexivity.
Qed.

(** [answer_question] returns a dict for the query, whatever happens. *)
Lemma answer_question_returns vector_store query top_k thr inc temp (w : world) :
  exists r w',
    answer_question vector_store query top_k thr inc temp w = (Returns r, w')
    /\ ans_query r = query.
Proof.
  unfold answer_question, try_except.
  destruct (answer_question_body _ _ _ _ _ _ w) as [[r|e] w'] eqn:Eb.
  - exists r, w'. split; [reflexivity|].
    unfold answer_question_body, bind in Eb.
    destruct (similarity_search _ _ _ _ _ w) as [[ms|e] w1]; [|discriminate].
    destruct ms as [|m ms]; [inversion Eb; reflexivity|].
    rewrite generate_response_cases in Eb. unfold lift in Eb.
    destruct (_calculate_confidence (m :: ms)); [|discriminate].
    inversion Eb. reflexivity.
  - eexists. eexists. split; reflexivity.
Qed.

End System.

End QAFacts.

(* ================================================================== *)
(** * The chunker *)
(* ================================================================== *)

Module ChunkerFacts.
Import Chunker PyFacts.

(** ** [range] *)

Lemma range_raises (a b step : Z) (e : exn) :
  range a b step = Raises e -> step = 0 /\ e = zero_step_error.
Proof.
  unfold range. destruct (step =? 0) eqn:E; [|discriminate].
  apply Z.eqb_eq in E. intros He. inversion He. auto.
Qed.

Lemma range_returns (a b step : Z) :
  step <> 0 -> exists l, range a b step = Returns l.
Proof.
  intros Hs. unfold range. apply Z.eqb_neq in Hs. rewrite Hs.
  eexists; reflexivity.
Qed.

Lemma range0_nonneg (n step : Z) (l : list Z) :
  0 <= n -> range 0 n step = Returns l -> Forall (fun i => 0 <= i) l.
Proof.
  intros Hn. unfold range. destruct (step =? 0) eqn:E0; [discriminate|].
  apply Z.eqb_neq in E0.
  intros Hl. inversion Hl; subst l; clear Hl.
  destruct (0 <? step) eqn:E.
  - apply Z.ltb_lt in E. rewrite Forall_forall. intros i Hi.
    apply in_map_iff in Hi. destruct Hi as [k [<- _]]. nia.
  - apply Z.ltb_ge in E.
    match goal with
    | |- context [Z.to_nat ?q] => assert (Hq : Z.to_nat q = 0%nat)
    end.
    { match goal with
      | |- Z.to_nat (?a / ?b) = _ => assert (a / b < 1)
      end; [apply Z.div_lt_upper_bound; lia|lia]. }
    rewrite Hq. constructor.
Qed.

Section Splitter.
Context `{T : Tokenizer}.
Variable self : RecursiveCharacterTextSplitter.

(** ** Where [_split_text] can fail *)

Lemma token_windows_raises (tokens : list token) (e : exn) :
  token_windows self tokens = Raises e ->
  chunk_size self = chunk_overlap self /\ e = zero_step_error.
Proof.
  unfold token_windows. intros Hr. apply rbind_raises in Hr.
  destruct Hr as [Hr|[a [_ Hr]]]; [|discriminate].
  apply range_raises in Hr. destruct Hr as [Hs He]. split; [lia|exact He].
Qed.

Lemma char_windows_raises (text : string) (e : exn) :
  char_windows self text = Raises e ->
  chunk_size self = chunk_overlap self /\ e = zero_step_error.
Proof.
  unfold char_windows. intros Hr. apply rbind_raises in Hr.
  destruct Hr as [Hr|[a [_ Hr]]]; [|discriminate].
  apply range_raises in Hr. destruct Hr as [Hs He]. split; [lia|exact He].
Qed.

Lemma re_split_raises (final_chunks : list string) (e : exn) :
  re_split self final_chunks = Raises e ->
  chunk_size self = chunk_overlap self /\ e = zero_step_error.
Proof.
  induction final_chunks as [|chunk rest IH]; simpl; [discriminate|].
  intros Hr. apply rbind_raises in Hr. destruct Hr as [Hr|[here [_ Hr]]].
  - destruct (chunk_size self <? len (encode chunk)); [|discriminate].
    apply token_windows_raises in Hr. exact Hr.
  - apply rbind_raises in Hr. destruct Hr as [Hr|[more [_ Hr]]];
      [apply IH; exact Hr|discriminate].
Qed.

Lemma pack_part_raises recurse sep chunks part (e : exn) :
  pack_part self recurse sep chunks part = Raises e ->
  recurse part = Raises e.
Proof.
  unfold pack_part.
  destruct (negb (truthy part)); [discriminate|].
  destruct (chunk_size self <? len (encode part)).
  - intros Hr. apply rbind_raises in Hr.
    destruct Hr as [Hr|[a [_ Hr]]]; [exact Hr|discriminate].
  - destruct (rev chunks); [discriminate|].
    repeat match goal with
           | |- context [if ?b then _ else _] => destruct b
           end; discriminate.
Qed.

Lemma pack_raises recurse sep parts chunks (e : exn) :
  pack self recurse sep parts chunks = Raises e ->
  exists part, recurse part = Raises e.
Proof.
  revert chunks. induction parts as [|part parts IH]; intros chunks; simpl;
    [discriminate|].
  intros Hr. apply rbind_raises in Hr. destruct Hr as [Hr|[chunks' [_ Hr]]].
  - exists part. eapply pack_part_raises; eauto.
  - eapply IH; eauto.
Qed.

Lemma split_nonempty_sep (text sep : string) :
  String.eqb sep "" = false -> split text sep = Returns (split_aux sep 0 [] text).
Proof. destruct sep; [discriminate|reflexivity]. Qed.

(** [_split_text] fails only on a zero window step. *)
Lemma split_text_raises (separators : list string) (text : string) (e : exn) :
  _split_text self text separators = Raises e ->
  chunk_size self = chunk_overlap self /\ e = zero_step_error.
Proof.
  revert text. induction separators as [|sep others IH]; intros text; simpl.
  - apply char_windows_raises.
  - destruct (String.eqb sep "") eqn:Esep.
    + destruct (len (encode text) <=? chunk_size self); [discriminate|].
      apply token_windows_raises.
    + rewrite (split_nonempty_sep _ _ Esep). simpl.
      intros Hr. apply rbind_raises in Hr.
      destruct Hr as [Hr|[chunks [_ Hr]]].
      * apply pack_raises in Hr. destruct Hr as [part Hr].
        eapply IH; eauto.
      * apply re_split_raises in Hr. exact Hr.
Qed.

Lemma split_document_raises (text filepath : string) (e : exn) :
  split_document self text filepath = Raises e ->
  chunk_size self = chunk_overlap self /\ e = zero_step_error.
Proof.
  unfold split_document. intros Hr. apply rbind_raises in Hr.
  destruct Hr as [Hr|[chunks [_ Hr]]]; [|discriminate].
  eapply split_text_raises; eauto.
Qed.

(** ** The empty text *)

Lemma split_text_empty (sep : string) (others : list string) :
  String.eqb sep "" = false ->
  _split_text self "" (sep :: others) = Returns [].
Proof.
  intros Esep. simpl. rewrite Esep, (split_nonempty_sep _ _ Esep). reflexivity.
Qed.

(** ** The token budget *)

Context {L : LengthMonotone T}.
Hypothesis size_nonneg : 0 <= chunk_size self.

Lemma token_windows_fits (tokens : list token) (ws : list string) :
  token_windows self tokens = Returns ws -> Forall (fits (chunk_size self)) ws.
Proof.
  unfold token_windows. intros Hw. rsteps Hw. inversion Hw; subst ws.
  apply range0_nonneg in Ha; [|unfold len; lia].
  rewrite Forall_forall in *. intros w Hin.
  apply in_map_iff in Hin. destruct Hin as [i [<- Hi]].
  unfold fits. etransitivity; [apply reencode_le|].
  apply slice_window_length; [apply Ha; exact Hi|exact size_nonneg].
Qed.

Lemma re_split_fits (final_chunks r : list string) :
  re_split self final_chunks = Returns r -> Forall (fits (chunk_size self)) r.
Proof.
  revert r. induction final_chunks as [|chunk rest IH]; intros r; simpl.
  - intros Hr. inversion Hr. constructor.
  - intros Hr. rsteps Hr. rename a into here, Ha into Hhere.
    rsteps Hr. inversion Hr; subst r.
    apply Forall_app. split; [|apply IH; exact Ha].
    destruct (chunk_size self <? len (encode chunk)) eqn:E.
    + eapply token_windows_fits; eauto.
    + inversion Hhere. constructor; [|constructor].
      unfold fits. apply Z.ltb_ge in E. exact E.
Qed.

Lemma split_text_fits (sep : string) (others : list string)
    (text : string) (r : list string) :
  _split_text self text (sep :: others) = Returns r ->
  Forall (fits (chunk_size self)) r.
Proof.
  simpl. destruct (String.eqb sep "") eqn:Esep.
  - destruct (len (encode text) <=? chunk_size self) eqn:E.
    + intros Hr. inversion Hr. constructor; [|constructor].
      unfold fits. apply Z.leb_le in E. exact E.
    + apply token_windows_fits.
  - intros Hr. rsteps Hr. rsteps Hr. eapply re_split_fits; eauto.
Qed.

End Splitter.

(** ** Stripped chunks *)

Lemma lstrip_head (s : string) :
  lstrip s = "" \/ exists c s', lstrip s = String c s' /\ isspace c = false.
Proof.
  induction s as [|c s IH]; simpl; [left; reflexivity|].
  destruct (isspace c) eqn:E; [exact IH|].
  right. exists c, s. auto.
Qed.

Lemma rstrip_head (c : ascii) (s : string) :
  isspace c = false -> exists r, rstrip (String c s) = String c r.
Proof.
  intros Hc. simpl. destruct (rstrip s); [rewrite Hc|]; eexists; reflexivity.
Qed.

Lemma strip_not_blank (s : string) :
  truthy (strip s) = true -> blank (strip s) = false.
Proof.
  unfold strip. destruct (lstrip_head s) as [->|[c [s' [-> Hc]]]];
    [discriminate|].
  destruct (@rstrip_head c s' Hc) as [r ->]. intros _. simpl. rewrite Hc.
  reflexivity.
Qed.

Lemma process_chunks_not_blank (filepath : string) (i : Z)
    (chunks : list string) :
  Forall (fun d => blank (cd_content d) = false)
    (process_chunks filepath i chunks).
Proof.
  revert i. induction chunks as [|c chunks IH]; intros i; simpl; [constructor|].
  apply Forall_app. split; [|apply IH].
  destruct (truthy (strip c)) eqn:E; [|constructor].
  constructor; [|constructor]. simpl. apply strip_not_blank. exact E.
Qed.

Lemma process_chunks_fits `{T : Tokenizer} {L : LengthMonotone T}
    (n : Z) (filepath : string) (i : Z) (chunks : list string) :
  Forall (fits n) chunks ->
  Forall (fun d => fits n (cd_content d)) (process_chunks filepath i chunks).
Proof.
  intros Hall. revert i. induction Hall as [|c chunks Hc Hall IH]; intros i;
    simpl; [constructor|].
  apply Forall_app. split; [|apply IH].
  destruct (truthy (strip c)) eqn:E; [|constructor].
  constructor; [|constructor]. simpl.
  unfold fits in *. etransitivity; [apply strip_le|exact Hc].
Qed.

End ChunkerFacts.

(* ================================================================== *)
(** * Incremental embedding *)
(* ================================================================== *)

Module EmbeddingFacts.
Import VectorStore Embedding PyFacts AggregationFacts.

(** ** The dict of existing records *)

Lemma setitem_new (d : record_dict) (k : string) (v : embedding_item) :
  ~ In k (map fst d) -> setitem d k v = (d ++ [(k, v)])%list.
Proof.
  induction d as [|[k' v'] d IH]; simpl; [reflexivity|].
  intros Hk. destruct (String.eqb k k') eqn:E.
  - apply String.eqb_eq in E. exfalso. apply Hk. left. symmetry. exact E.
  - rewrite IH; [reflexivity|]. intros Hin. apply Hk. right. exact Hin.
Qed.

Lemma load_fold (existing_data : list embedding_item) (acc : record_dict) :
  NoDup (map fst acc ++ map ei_chunk_id existing_data) ->
  fold_left (fun d item => setitem d (ei_chunk_id item) item) existing_data acc
  = (acc ++ map entry_of existing_data)%list.
Proof.
  revert acc. induction existing_data as [|item rest IH]; intros acc Hnd; simpl.
  - rewrite app_nil_r. reflexivity.
  - assert (Hk : ~ In (ei_chunk_id item) (map fst acc)).
    { intros Hin. apply NoDup_remove_2 in Hnd. apply Hnd.
      apply in_or_app. left. exact Hin. }
    rewrite (setitem_new acc _ item Hk), IH.
    + rewrite <- app_assoc. reflexivity.
    + rewrite map_app. simpl. rewrite <- app_assoc. exact Hnd.
Qed.

Lemma load_existing_distinct (existing_data : list embedding_item) :
  NoDup (map ei_chunk_id existing_data) ->
  load_existing_embeddings (FileData existing_data)
  = map entry_of existing_data.
Proof. intros Hnd. simpl. rewrite load_fold; [reflexivity|exact Hnd]. Qed.

Lemma values_entries (existing_data : list embedding_item) :
  values (map entry_of existing_data) = existing_data.
Proof.
  unfold values. rewrite map_map. simpl. apply map_id.
Qed.

Lemma haskey_entries (existing_data : list embedding_item) (k : string) :
  haskey (map entry_of existing_data) k = true
  <-> In k (map ei_chunk_id existing_data).
Proof.
  unfold haskey. rewrite existsb_exists. split.
  - intros [kv [Hin E]]. apply String.eqb_eq in E. subst k.
    apply in_map_iff in Hin. destruct Hin as [item [<- Hitem]].
    simpl. apply in_map. exact Hitem.
  - intros Hin. apply in_map_iff in Hin. destruct Hin as [item [<- Hitem]].
    exists (entry_of item). split; [apply in_map; exact Hitem|].
    apply String.eqb_refl.
Qed.

Section Client.
Context `{AzureOpenAI}.

(** ** The embedding calls never raise *)

Lemma get_text_embedding_returns (text : string) (w : world) :
  exists o w', get_text_embedding text w = (Returns o, w').
Proof.
  unfold get_text_embedding. destruct (negb _); [eexists; eexists; reflexivity|].
  unfold try_except, bind, call_embeddings, ret, sleep.
  destruct (embeddings_create w _) as [v|e]; [eexists; eexists; reflexivity|].
  destruct e; eexists; eexists; reflexivity.
Qed.

Lemma retry_loop_returns (text : string) (max_retries : Z) (attempts : list Z)
    (w : world) :
  exists o w', retry_loop text max_retries attempts w = (Returns o, w').
Proof.
  revert w. induction attempts as [|attempt later IH]; intros w; simpl.
  - eexists; eexists; reflexivity.
  - unfold bind.
    destruct (get_text_embedding_returns text w) as [o [w1 Ho]]. rewrite Ho.
    destruct o as [e|]; [eexists; eexists; reflexivity|].
    destruct (attempt <? max_retries - 1); unfold sleep, ret; apply IH.
Qed.

Lemma generate_embeddings_with_retry_returns (text : string) (w : world) :
  exists o w', generate_embeddings_with_retry text 3 w = (Returns o, w').
Proof.
  unfold generate_embeddings_with_retry, bind, lift.
  change (range 0 3 1) with (Returns [0; 1; 2]).
  apply retry_loop_returns.
Qed.

(** Every record built comes from one of the chunks. *)
Lemma embed_chunks_from_spec (chunks : list chunk_meta) (i n : Z) (w : world) :
  exists data w',
    embed_chunks_from i n chunks w = (Returns data, w')
    /\ Forall (fun item => exists chunk e,
                  In chunk chunks /\ item = embedding_data_of chunk e) data.
Proof.
  revert i w. induction chunks as [|chunk rest IH]; intros i w; simpl.
  - exists [], w. split; [reflexivity|constructor].
  - unfold bind.
    destruct (generate_embeddings_with_retry_returns (cm_content chunk) w)
      as [o [w1 Ho]]. rewrite Ho.
    assert (Hs : exists w2,
               (if i <? n - 1 then sleep (5 / 10) else ret tt) w1
               = (Returns tt, w2)).
    { destruct (i <? n - 1); eexists; reflexivity. }
    destruct Hs as [w2 Hs]. rewrite Hs.
    destruct (IH (i + 1) w2) as [more [w3 [Hmore Hall]]]. rewrite Hmore.
    eexists; eexists. split; [reflexivity|].
    apply Forall_app. split.
    + destruct o as [e|]; constructor; [|constructor].
      exists chunk, e. split; [left; reflexivity|reflexivity].
    + eapply Forall_impl; [|exact Hall]. simpl.
      intros item [c [e [Hc He]]]. exists c, e. split; [right; exact Hc|exact He].
Qed.

(** ** [main] *)

Lemma new_chunks_fresh (existing_data : list embedding_item)
    (chunks : list chunk_meta) (chunk : chunk_meta) :
  In chunk (new_chunks_of (map entry_of existing_data) chunks) <->
  In chunk chunks /\ ~ In (cm_chunk_id chunk) (map ei_chunk_id existing_data).
Proof.
  unfold new_chunks_of. rewrite filter_In, negb_true_iff.
  rewrite <- haskey_entries.
  destruct (haskey _ (cm_chunk_id chunk)); split; intros [H1 H2]; split; auto;
    try discriminate.
  exfalso. apply H2. reflexivity.
Qed.

(** A run keeps the existing records and appends records of chunks that
    had none. *)
Lemma main_appends (existing_data : list embedding_item)
    (chunks : list chunk_meta) (w : world) :
  NoDup (map ei_chunk_id existing_data) ->
  exists added w',
    main (ChunksData chunks) true (FileData existing_data) w
    = (Returns (FileData (existing_data ++ added)), w')
    /\ Forall (fun item => exists chunk e,
                  In chunk chunks
                  /\ ~ In (cm_chunk_id chunk) (map ei_chunk_id existing_data)
                  /\ item = embedding_data_of chunk e) added.
Proof.
  intros Hnd. unfold main. simpl negb. cbv iota.
  unfold try_except, bind, lift.
  rewrite (load_existing_distinct _ Hnd).
  destruct (new_chunks_of (map entry_of existing_data) chunks)
    as [|c new] eqn:Enew.
  - exists [], w. rewrite app_nil_r. split; [reflexivity|constructor].
  - unfold generate_embeddings_for_chunks.
    destruct (embed_chunks_from_spec (c :: new) 0 (len (c :: new)) w)
      as [data [w' [Hdata Hall]]].
    change (negb true) with false. cbv beta iota.
    rewrite Hdata. unfold ret. rewrite values_entries.
    exists data, w'. split; [reflexivity|].
    eapply Forall_impl; [|exact Hall].
    intros item [chunk [e [Hin He]]]. exists chunk, e.
    rewrite <- Enew in Hin. apply new_chunks_fresh in Hin.
    destruct Hin as [H1 H2]. auto.
Qed.

(** A run with one new chunk: the record is appended when the embedding
    is obtained, and left out when it is not. *)
Lemma main_one_new (existing_data : list embedding_item)
    (chunks : list chunk_meta) (chunk : chunk_meta)
    (o : option (list R)) (w w1 : world) :
  NoDup (map ei_chunk_id existing_data) ->
  new_chunks_of (load_existing_embeddings (FileData existing_data)) chunks
  = [chunk] ->
  generate_embeddings_with_retry (cm_content chunk) 3 w = (Returns o, w1) ->
  main (ChunksData chunks) true (FileData existing_data) w
  = (Returns (FileData (existing_data
                        ++ match o with
                           | Some e => [embedding_data_of chunk e]
                           | None => []
                           end)), w1).
Proof.
  intros Hnd Hnew Ho. unfold main. simpl negb. cbv iota.
  unfold try_except, bind, lift. rewrite Hnew.
  change (negb true) with false. cbv beta iota.
  rewrite (load_existing_distinct _ Hnd), values_entries.
  unfold generate_embeddings_for_chunks. simpl embed_chunks_from.
  unfold bind. rewrite Ho. simpl. unfold ret.
  rewrite app_nil_r. reflexivity.
Qed.

End Client.

End EmbeddingFacts.

(* ================================================================== *)
(** * The specified properties *)
(* ================================================================== *)

Import VectorStore QASystem Embedding Chunker Fixtures.
Import PyFacts VectorStoreFacts AggregationFacts QAFacts ChunkerFacts
  EmbeddingFacts.

(** A search on the sample store with a working embedding call finds both
    records, in record order since their scores are equal. *)
Lemma sample_cosine : cosine_similarity [1%R] [1%R] = Returns 1%R.
Proof.
  apply cosine_similarity_self. unfold norm, sumsq. simpl.
  replace (1 * 1 + 0)%R with 1%R by ring. rewrite sqrt_1. lra.
Qed.

Lemma sample_search `{AzureOpenAI} (query : string) (top_k : Z) (w : world) :
  truthy (strip (replace_char newline " "%char query)) = true ->
  embeddings_create w (strip (replace_char newline " "%char query))
  = Returns [1%R] ->
  2 <= top_k ->
  similarity_search (load_embeddings demo_file) query top_k (3 / 10) None w
  = (Returns [hit 0 1 item1; hit 1 1 item2],
     (w ++ [EmbeddingsCreate (strip (replace_char newline " "%char query))])%list).
Proof.
  intros Hq He Hk.
  rewrite (@similarity_search_loaded _ (load_embeddings demo_file) query top_k
             (3 / 10)%R None w
             (w ++ [EmbeddingsCreate
                      (strip (replace_char newline " "%char query))])%list
             [[1%R]; [1%R]] [1%R] [hit 0 1 item1; hit 1 1 item2]).
  - unfold sort_desc, by_similarity. simpl.
    assert (E : Rltb 1 1 = false) by (apply Rltb_false; lra).
    rewrite E. rewrite slice_prefix_all by (unfold len; simpl; lia).
    reflexivity.
  - reflexivity.
  - discriminate.
  - apply get_query_embedding_ok; assumption.
  - simpl. rewrite sample_cosine. simpl.
    assert (E : Rgeb 1 (3 / 10) = true) by (apply Rgeb_true; lra).
    rewrite E. reflexivity.
Qed.

(** C1.  For every loaded index, query, [top_k > 0], minimum score and
    optional work item filter, and a query embedding of the dimension of
    the index: the search returns at most [top_k] matches, each the match
    of a record of the index with the query vector, each with score at
    least the minimum, sorted by descending score, matches of equal score
    in the record order of the index. *)
Theorem similarity_search_ranked `{AzureOpenAI} (f : embeddings_file)
    (query : string) (top_k : Z) (min_score : R)
    (workitem_filter : option (list string)) (w : world) :
  0 < top_k ->
  (forall qe w0 matrix,
     get_query_embedding query w = (Returns (Some qe), w0) ->
     embeddings_matrix (load_embeddings f) = Some matrix ->
     Forall (fun row => List.length row = List.length qe) matrix) ->
  exists ms w',
    similarity_search (load_embeddings f) query top_k min_score
      workitem_filter w = (Returns ms, w')
    /\ len ms <= top_k
    /\ Forall (fun m => (min_score <= sr_similarity m)%R) ms
    /\ StronglySorted score_order ms
    /\ (forall qe w0 matrix,
          get_query_embedding query w = (Returns (Some qe), w0) ->
          embeddings_matrix (load_embeddings f) = Some matrix ->
          Forall (is_match matrix (chunk_metadata (load_embeddings f)) qe) ms).
Proof.
  intros Hk Hdim.
  destruct (similarity_search_total f query top_k min_score workitem_filter w
              Hdim) as [ms [w' Hs]].
  exists ms, w'. split; [exact Hs|].
  destruct (@similarity_search_spec _ _ _ _ _ _ _ _ _ Hk Hs)
    as [Hlen [Hmin [Hsorted Hmatch]]].
  repeat split; auto.
  intros qe w0 matrix Hq Hm.
  destruct Hmatch as [->|[matrix' [qe' [w0' [Hm' [Hq' Hall]]]]]]; [constructor|].
  rewrite Hm in Hm'. rewrite Hq in Hq'. inversion Hm'. inversion Hq'. subst.
  exact Hall.
Qed.

Lemma similarity_search_ranked_witness :
  exists ms w',
    @similarity_search demo_client (load_embeddings demo_file)
      "login error" 5 (3 / 10) None [] = (Returns ms, w')
    /\ len ms <= 5
    /\ Forall (fun m => (3 / 10 <= sr_similarity m)%R) ms
    /\ StronglySorted score_order ms.
Proof.
  destruct (@similarity_search_ranked demo_client demo_file "login error" 5
              (3 / 10)%R None []) as [ms [w' [Hs [Hlen [Hmin [Hsorted _]]]]]].
  - lia.
  - intros qe w0 matrix Hq Hm. inversion Hq. inversion Hm.
    repeat constructor.
  - exists ms, w'. auto.
Defined.








(** C5, amended.  When the search returned at least one match and the
    generation call fails, [answer_question] returns (no exception
    reaches the caller) a result whose answer is the error text of the
    failure, whose sources are those of the matches, and whose confidence
    is the tier computed from the match scores: "high", "medium" or
    "low", never "error". *)
Theorem answer_question_generation_failure `{AzureOpenAI} `{FloatFormat}
    (vector_store : ADOVectorStore) (query : string) (top_k : Z)
    (similarity_threshold : R) (include_metadata : bool) (temperature : R)
    (w w1 : world) (ms : list search_result) (e : exn) :
  similarity_search vector_store query top_k similarity_threshold None w
  = (Returns ms, w1) ->
  ms <> [] ->
  chat_completions_create w1 system_message
    (user_message_of query (_build_context_string ms include_metadata))
    temperature 1500 (9 / 10)%R = Raises e ->
  exists confidence w',
    answer_question vector_store query top_k similarity_threshold
      include_metadata temperature w
    = (Returns {| ans_answer := generation_error_text e;
                  ans_sources := _format_sources ms;
                  ans_confidence := confidence;
                  ans_query := query;
                  ans_num_sources := Some (len ms) |}, w')
    /\ _calculate_confidence ms = Returns confidence
    /\ (confidence = "high" \/ confidence = "medium" \/ confidence = "low")
    /\ confidence <> "error".
Proof.
  intros Hs Hne He.
  destruct (@answer_question_found _ _ vector_store query top_k
              similarity_threshold include_metadata temperature w w1 ms Hs Hne)
    as [c [Hc [Htier Ha]]].
  rewrite He in Ha.
  eexists c, _. split; [exact Ha|]. split; [exact Hc|]. split; [exact Htier|].
  destruct Htier as [->|[->| ->]]; discriminate.
Qed.

Lemma answer_question_generation_failure_witness :
  exists confidence w',
    @answer_question chat_down_client plain_format
      (load_embeddings demo_file) "login error" 5 (3 / 10) true (2 / 10) []
    = (Returns {| ans_answer :=
                    "Rate limit exceeded for GPT model: busy. Please wait and try again.";
                  ans_sources :=
                    @_format_sources plain_format
                      [hit 0 1 item1; hit 1 1 item2];
                  ans_confidence := confidence;
                  ans_query := "login error";
                  ans_num_sources := Some 2 |}, w')
    /\ confidence <> "error".
Proof.
  destruct (@answer_question_generation_failure chat_down_client plain_format
              (load_embeddings demo_file) "login error" 5 (3 / 10)%R true
              (2 / 10)%R [] [EmbeddingsCreate "login error"]
              [hit 0 1 item1; hit 1 1 item2] (RateLimitError "busy"))
    as [c [w' [Ha [_ [_ Hne]]]]].
  - apply (@sample_search chat_down_client); [reflexivity|reflexivity|lia].
  - discriminate.
  - reflexivity.
  - exists c, w'. split; [exact Ha|exact Hne].
Defined.

(** The search finds two matches and the generation call fails, yet the
    confidence returned is not "error". *)
Lemma generation_failure_confidence_not_error :
  exists r w1 w',
    @similarity_search chat_down_client (load_embeddings demo_file)
      "login error" 5 (3 / 10) None []
    = (Returns [hit 0 1 item1; hit 1 1 item2], w1)
    /\ @chat_completions_create chat_down_client w1 system_message
         (user_message_of "login error"
            (@_build_context_string plain_format
               [hit 0 1 item1; hit 1 1 item2] true))
         (2 / 10)%R 1500 (9 / 10)%R
       = Raises (RateLimitError "busy")
    /\ @answer_question chat_down_client plain_format
         (load_embeddings demo_file) "login error" 5 (3 / 10) true (2 / 10) []
       = (Returns r, w')
    /\ ans_confidence r <> "error".
Proof.
  assert (Hs : @similarity_search chat_down_client (load_embeddings demo_file)
                 "login error" 5 (3 / 10) None []
               = (Returns [hit 0 1 item1; hit 1 1 item2],
                  [EmbeddingsCreate "login error"])).
  { apply (@sample_search chat_down_client); [reflexivity|reflexivity|lia]. }
  destruct (@answer_question_found chat_down_client plain_format
              (load_embeddings demo_file) "login error" 5 (3 / 10)%R true
              (2 / 10)%R [] [EmbeddingsCreate "login error"]
              [hit 0 1 item1; hit 1 1 item2])
    as [c [Hc [Htier Ha]]].
  - exact Hs.
  - discriminate.
  - eexists. eexists. eexists. split; [exact Hs|].
    split; [reflexivity|]. split; [exact Ha|]. simpl.
    destruct Htier as [->|[->| ->]]; discriminate.
Qed.

(** C6, amended.  For every query that is empty or holds whitespace only,
    [answer_question] raises nothing: it returns the "no relevant work
    items" result with confidence "low" and no sources, without any call
    to the embedding or generation client (the log of calls is
    unchanged, so nothing is retried either). *)
Theorem answer_question_blank_query `{AzureOpenAI} `{FloatFormat}
    (vector_store : ADOVectorStore) (query : string) (top_k : Z)
    (similarity_threshold : R) (include_metadata : bool) (temperature : R)
    (w : world) :
  blank query = true ->
  answer_question vector_store query top_k similarity_threshold
    include_metadata temperature w
  = (Returns {| ans_answer := not_found_answer;
                ans_sources := [];
                ans_confidence := "low";
                ans_query := query;
                ans_num_sources := None |}, w).
Proof. apply answer_question_blank. Qed.

Lemma answer_question_blank_query_witness :
  @answer_question demo_client plain_format (load_embeddings demo_file)
    "   " 5 (3 / 10) true (2 / 10) []
  = (Returns {| ans_answer := not_found_answer;
                ans_sources := [];
                ans_confidence := "low";
                ans_query := "   ";
                ans_num_sources := None |}, []).
Proof.
  apply (@answer_question_blank_query demo_client plain_format). reflexivity.
Defined.

(** A blank query is not rejected with an error. *)
Lemma blank_query_not_rejected :
  blank "   " = true
  /\ ~ exists e w',
        @answer_question demo_client plain_format (load_embeddings demo_file)
          "   " 5 (3 / 10) true (2 / 10) [] = (Raises e, w').
Proof.
  split; [reflexivity|]. intros [e [w' He]].
  rewrite (@answer_question_blank demo_client plain_format) in He
    by reflexivity.
  discriminate.
Qed.

(** C9.  For every list of questions, [batch_answer_questions] returns
    (no exception leaves the call) one result per question, in the order
    of the questions; each result is the one [answer_question] returns
    for its question, whatever happened to the questions before it. *)
Theorem batch_answer_questions_total `{AzureOpenAI} `{FloatFormat}
    (vector_store : ADOVectorStore) (questions : list string) (w : world) :
  exists results w',
    batch_answer_questions vector_store questions w = (Returns results, w')
    /\ List.length results = List.length questions
    /\ map ans_query results = questions
    /\ Forall2 (fun question result =>
                  exists w1 w2,
                    answer_question vector_store question 5 (3 / 10) true
                      (2 / 10) w1 = (Returns result, w2))
         questions results.
Proof.
  revert w. induction questions as [|question rest IH]; intros w; simpl.
  - exists [], w. repeat split; constructor.
  - destruct (answer_question_returns vector_store question 5 (3 / 10)%R true
                (2 / 10)%R w) as [r [w1 [Hr Hq]]].
    destruct (IH w1) as [results [w' [Hb [Hlen [Hqs Hall]]]]].
    exists (r :: results), w'. unfold bind. rewrite Hr, Hb.
    split; [reflexivity|]. simpl. split; [rewrite Hlen; reflexivity|].
    split; [rewrite Hq, Hqs; reflexivity|].
    constructor; [exists w, w1; exact Hr|exact Hall].
Qed.

(** Three questions, the embedding call of the second one failing: the
    first and the third are answered, the second gets the "not found"
    result. *)
Example batch_with_failing_embedding :
  exists r1 r2 r3 w',
    @batch_answer_questions demo_client plain_format
      (load_embeddings demo_file)
      ["first question"; "second question"; "third question"] []
    = (Returns [r1; r2; r3], w')
    /\ ans_answer r1 = "ok" /\ ans_num_sources r1 = Some 2
    /\ ans_answer r2 = not_found_answer /\ ans_confidence r2 = "low"
    /\ ans_answer r3 = "ok" /\ ans_num_sources r3 = Some 2.
Proof.
  destruct (@answer_question_found demo_client plain_format
              (load_embeddings demo_file) "first question" 5 (3 / 10)%R true
              (2 / 10)%R [] [EmbeddingsCreate "first question"]
              [hit 0 1 item1; hit 1 1 item2])
    as [c1 [_ [_ H1]]];
    [apply (@sample_search demo_client); [reflexivity|reflexivity|lia]
    |discriminate|].
  match type of H1 with
  | _ = (_, ?w1) =>
      destruct (@answer_question_embedding_failure demo_client plain_format
                  (load_embeddings demo_file) "second question" 5 (3 / 10)%R
                  true (2 / 10)%R w1 (APIConnectionError "down")
                  eq_refl eq_refl) as [w2 H2]
  end.
  destruct (@answer_question_found demo_client plain_format
              (load_embeddings demo_file) "third question" 5 (3 / 10)%R true
              (2 / 10)%R w2 (w2 ++ [EmbeddingsCreate "third question"])%list
              [hit 0 1 item1; hit 1 1 item2])
    as [c3 [_ [_ H3]]];
    [apply (@sample_search demo_client); [reflexivity|reflexivity|lia]
    |discriminate|].
  eexists; eexists; eexists; eexists. split.
  - eapply batch_answer_questions_step; [exact H1|].
    eapply batch_answer_questions_step; [exact H2|].
    eapply batch_answer_questions_step; [exact H3|reflexivity].
  - simpl. repeat split; reflexivity.
Qed.

(** C7, amended.  [split] does not check [overlapTokens < maxTokens]: it
    fails only when [overlapTokens = maxTokens] and a window slice is
    reached, with the error of a zero step, and returns otherwise; and
    for every configuration, valid or not, the empty text is split into
    the empty sequence. *)
Theorem split_document_unvalidated `{Tokenizer} (maxTokens overlapTokens : Z) :
  (forall separators text filepath e,
     split_document (init maxTokens overlapTokens separators) text filepath
     = Raises e ->
     overlapTokens = maxTokens /\ e = zero_step_error)
  /\ (forall filepath,
        split_document (init maxTokens overlapTokens None) "" filepath
        = Returns []).
Proof.
  split.
  - intros separators text filepath e He.
    apply split_document_raises in He. simpl in He. destruct He as [Hs He].
    split; [symmetry; exact Hs|exact He].
  - intros filepath. unfold split_document.
    change (separators (init maxTokens overlapTokens None))
      with default_separators.
    unfold default_separators. rewrite split_text_empty by reflexivity.
    reflexivity.
Qed.

Lemma split_document_unvalidated_witness :
  (5 = 5 /\ zero_step_error = zero_step_error)
  /\ @split_document char_tokenizer (init 5 5 None) "" "workitem_1"
     = Returns [].
Proof.
  destruct (@split_document_unvalidated char_tokenizer 5 5) as [Hraise Hempty].
  split; [|apply Hempty].
  apply (Hraise None "abcdefgh" "workitem_1"). reflexivity.
Defined.

(** With [overlapTokens = maxTokens] (and with [overlapTokens >
    maxTokens]) a text is split without any error. *)
Lemma split_accepts_overlap_not_below_size :
  @split_document char_tokenizer (init 5 5 None) "abc def" "wi"
  = Returns [ {| cd_content := "abc"; cd_filepath := "wi";
                 cd_chunk_id := "wi_0" |};
              {| cd_content := "def"; cd_filepath := "wi";
                 cd_chunk_id := "wi_1" |} ]
  /\ @split_document char_tokenizer (init 2 3 None) "abc def" "wi"
     = Returns [].
Proof. split; reflexivity. Qed.

(** The character tokenizer is length monotone. *)
Lemma length_lstrip (s : string) :
  (String.length (lstrip s) <= String.length s)%nat.
Proof.
  induction s as [|c s IH]; simpl; [lia|].
  destruct (isspace c); simpl; lia.
Qed.

Lemma length_rstrip (s : string) :
  (String.length (rstrip s) <= String.length s)%nat.
Proof.
  induction s as [|c s IH]; simpl; [lia|].
  destruct (rstrip s); [destruct (isspace c)|]; simpl in *; lia.
Qed.

Lemma length_list_ascii (s : string) :
  List.length (list_ascii_of_string s) = String.length s.
Proof. induction s as [|c s IH]; simpl; [reflexivity|rewrite IH; reflexivity]. Qed.

Lemma char_tokenizer_monotone : LengthMonotone char_tokenizer.
Proof.
  split.
  - intros ts. simpl. rewrite list_ascii_of_string_of_list_ascii. lia.
  - intros s. simpl. unfold len, strip. rewrite !length_list_ascii.
    pose proof (length_rstrip (lstrip s)). pose proof (length_lstrip s). lia.
Qed.




(** C10, amended.  For persisted records with distinct chunk ids and
    every chunk list, a run of the ingestion keeps every existing record,
    unaltered and in place, and appends only records of chunks whose ids
    were not present.  After a run with exactly one new chunk the record
    count is the original count plus one when the embedding of that chunk
    is obtained; when it is not, the chunk is left out and the records
    stay as they were. *)
Theorem incremental_embedding_merge `{AzureOpenAI}
    (existing_data : list embedding_item) (chunks : list chunk_meta)
    (w : world) :
  NoDup (map ei_chunk_id existing_data) ->
  (exists added w',
     main (ChunksData chunks) true (FileData existing_data) w
     = (Returns (FileData (existing_data ++ added)), w')
     /\ Forall (fun item => exists chunk e,
                   In chunk chunks
                   /\ ~ In (cm_chunk_id chunk) (map ei_chunk_id existing_data)
                   /\ item = embedding_data_of chunk e) added)
  /\ (forall chunk o w1,
        new_chunks_of (load_existing_embeddings (FileData existing_data)) chunks
        = [chunk] ->
        generate_embeddings_with_retry (cm_content chunk) 3 w
        = (Returns o, w1) ->
        match o with
        | Some e =>
            exists merged,
              main (ChunksData chunks) true (FileData existing_data) w
              = (Returns (FileData merged), w1)
              /\ merged = (existing_data ++ [embedding_data_of chunk e])%list
              /\ len merged = len existing_data + 1
        | None =>
            main (ChunksData chunks) true (FileData existing_data) w
            = (Returns (FileData existing_data), w1)
        end).
Proof.
  intros Hnd. split; [apply main_appends; exact Hnd|].
  intros chunk o w1 Hnew Ho.
  pose proof (@main_one_new _ existing_data chunks chunk o w w1 Hnd Hnew Ho)
    as Hm.
  destruct o as [e|].
  - eexists. split; [exact Hm|]. split; [reflexivity|].
    unfold len. rewrite length_app. simpl. lia.
  - rewrite app_nil_r in Hm. exact Hm.
Qed.

Lemma incremental_embedding_merge_witness :
  exists merged w1,
    @main demo_client
      (ChunksData [meta_of_item item1; meta_of_item item2; chunk3]) true
      demo_file [] = (Returns (FileData merged), w1)
    /\ merged = [item1; item2; embedding_data_of chunk3 [1%R]]
    /\ len merged = 2 + 1.
Proof.
  destruct (@incremental_embedding_merge demo_client [item1; item2]
              [meta_of_item item1; meta_of_item item2; chunk3] [])
    as [_ Hone].
  - repeat constructor; simpl; intuition discriminate.
  - specialize (Hone chunk3 (Some [1%R]) [EmbeddingsCreate "gamma"]
                  eq_refl eq_refl).
    destruct Hone as [merged [Hm [Hmerged Hlen]]].
    exists merged, [EmbeddingsCreate "gamma"]. auto.
Defined.

(** Two runs with one new chunk after which the count is not the
    original count plus one: the embedding call fails and the records
    stay as they were; two persisted records share a chunk id and the
    first of them is lost. *)
Lemma one_new_chunk_count_unchanged :
  (exists out w',
     @main offline_client (ChunksData [chunk3]) true demo_file []
     = (Returns (FileData out), w')
     /\ out = [item1; item2]
     /\ len out <> 2 + 1)
  /\ (exists out w',
        @main demo_client (ChunksData [chunk3]) true
          (FileData [item1; item1_again]) []
        = (Returns (FileData out), w')
        /\ out = [item1_again; embedding_data_of chunk3 [1%R]]
        /\ len out <> 2 + 1).
Proof.
  split; eexists; eexists;
    (split; [reflexivity|split; [reflexivity|unfold len; simpl; lia]]).
Qed.

(* ================================================================== *)
(** * Further properties of the vector store *)
(* ================================================================== *)

(** The two shapes of a store after [load_embeddings]. *)
Lemma load_embeddings_rows (f : embeddings_file) :
  (embeddings_matrix (load_embeddings f) = None
   /\ chunk_metadata (load_embeddings f) = [])
  \/ exists items matrix d,
       f = FileData items
       /\ embeddings_matrix (load_embeddings f) = Some matrix
       /\ matrix = map ei_embedding (filter has_embedding items)
       /\ chunk_metadata (load_embeddings f)
          = map meta_of_item (filter has_embedding items)
       /\ matrix <> []
       /\ (0 < d)%nat
       /\ Forall (fun row => List.length row = d) matrix.
Proof.
  destruct f as [| |items]; simpl; auto.
  destruct items as [|it items]; [auto|].
  remember (filter has_embedding (it :: items)) as valid eqn:Ev.
  assert (Hvalid : Forall (fun i => has_embedding i = true) valid).
  { rewrite Forall_forall. intros i Hi. rewrite Ev in Hi.
    apply filter_In in Hi. tauto. }
  destruct valid as [|v valid]; [auto|]. simpl map.
  unfold np_array.
  destruct (forallb _ (map ei_embedding valid)) eqn:E; simpl; [|auto].
  right. exists (it :: items), (map ei_embedding (v :: valid)),
    (List.length (ei_embedding v)).
  inversion Hvalid as [|? ? Hv _]; subst.
  split; [reflexivity|]. split; [reflexivity|].
  split; [rewrite <- Ev; reflexivity|]. split; [rewrite <- Ev; reflexivity|].
  split; [discriminate|]. split.
  - unfold has_embedding in Hv. destruct (ei_embedding v); [discriminate|].
    simpl. lia.
  - simpl. constructor; [reflexivity|].
    rewrite forallb_forall in E. rewrite Forall_forall. intros row Hrow.
    apply Nat.eqb_eq. apply E. exact Hrow.
Qed.

(** X1.  Whatever the embeddings file, the store after [load_embeddings]
    is either empty (no matrix, no metadata) or holds, for the records of
    the file that have an embedding and in their order, one row and one
    metadata entry each, all rows of one positive dimension. *)
Theorem load_embeddings_uniform (f : embeddings_file) :
  (embeddings_matrix (load_embeddings f) = None
   /\ chunk_metadata (load_embeddings f) = [])
  \/ exists items matrix d,
       f = FileData items
       /\ embeddings_matrix (load_embeddings f) = Some matrix
       /\ matrix = map ei_embedding (filter has_embedding items)
       /\ chunk_metadata (load_embeddings f)
          = map meta_of_item (filter has_embedding items)
       /\ matrix <> []
       /\ (0 < d)%nat
       /\ Forall (fun row => List.length row = d) matrix.
Proof. exact (load_embeddings_rows f). Qed.

(** X2.  A search for fewer results returns a prefix of the search for
    more: with the same store, query, threshold, filter and client state,
    the [top_k] results are the first [top_k] of the results for any larger
    limit. *)
Theorem similarity_search_prefix `{AzureOpenAI} (self : ADOVectorStore)
    (query : string) (top_k top_k' : Z) (min_score : R)
    (workitem_filter : option (list string)) (w w' : world)
    (ms' : list search_result) :
  0 <= top_k <= top_k' ->
  similarity_search self query top_k' min_score workitem_filter w
  = (Returns ms', w') ->
  similarity_search self query top_k min_score workitem_filter w
  = (Returns (firstn (Z.to_nat top_k) ms'), w').
Proof.
  intros Hk. unfold similarity_search.
  destruct (embeddings_matrix self) as [matrix|];
    [|intros E; inversion E; rewrite firstn_nil; reflexivity].
  destruct (len (chunk_metadata self) =? 0);
    [intros E; inversion E; rewrite firstn_nil; reflexivity|].
  unfold bind.
  destruct (get_query_embedding query w) as [[[qe|]|e] w0];
    [|intros E; inversion E; rewrite firstn_nil; reflexivity|discriminate].
  unfold lift.
  destruct (scan qe (chunk_metadata self) min_score workitem_filter 0 matrix)
    as [rs|e]; [|discriminate].
  unfold ret. intros E. inversion E; subst. f_equal. f_equal.
  rewrite !slice_prefix. unfold norm_bound.
  destruct (top_k <? 0) eqn:E1; [apply Z.ltb_lt in E1; lia|].
  destruct (top_k' <? 0) eqn:E2; [apply Z.ltb_lt in E2; lia|].
  rewrite firstn_firstn. f_equal. lia.
Qed.

Lemma similarity_search_prefix_witness :
  @similarity_search demo_client (load_embeddings demo_file) "login error" 1
    (3 / 10) None []
  = (Returns [hit 0 1 item1], [EmbeddingsCreate "login error"]).
Proof.
  apply (@similarity_search_prefix demo_client (load_embeddings demo_file)
           "login error" 1 5 (3 / 10)%R None []
           [EmbeddingsCreate "login error"] [hit 0 1 item1; hit 1 1 item2]).
  - lia.
  - apply (@sample_search demo_client); [reflexivity|reflexivity|lia].
Defined.

Lemma skipn_cons_inv {A} (l : list A) (i : nat) (x : A) (rest : list A) :
  skipn i l = x :: rest -> nth_error l i = Some x /\ skipn (S i) l = rest.
Proof.
  revert l. induction i as [|i IH]; intros [|y l] Hl; simpl in *;
    try discriminate.
  - inversion Hl. auto.
  - apply IH. exact Hl.
Qed.

(** The loop keeps no match of a filtered work item, and at most one
    match per row. *)
Lemma scan_filtered qe metas thr filt rows i rs :
  scan qe metas thr filt i rows = Returns rs ->
  Forall (fun r => filtered_out filt (str_id (sr_workitem_id r)) = false) rs
  /\ (List.length rs <= List.length rows)%nat.
Proof.
  revert i rs. induction rows as [|row rows IH]; intros i rs Hscan;
    simpl in Hscan.
  - inversion Hscan. split; [constructor|simpl; lia].
  - rsteps Hscan. rename a into sim, Ha into Hsim.
    rsteps Hscan. rename a into skip, Ha into Hskip.
    rsteps Hscan. rename a into here, Ha into Hhere.
    rsteps Hscan. rename a into rest, Ha into Hrest.
    inversion Hscan; subst rs; clear Hscan.
    destruct (IH _ _ Hrest) as [Hall Hlen].
    assert (Hhere' : Forall (fun r => filtered_out filt
                                        (str_id (sr_workitem_id r)) = false)
                       here /\ (List.length here <= 1)%nat).
    { destruct skip.
      - inversion Hhere. split; [constructor|simpl; lia].
      - destruct (Rgeb sim thr); [|inversion Hhere; split;
                                     [constructor|simpl; lia]].
        rsteps Hhere. inversion Hhere; subst here.
        split; [|simpl; lia]. constructor; [|constructor]. simpl.
        destruct (filter_active filt) eqn:Ef.
        + rsteps Hskip. rewrite Ha in Ha0. inversion Ha0; subst.
          inversion Hskip. reflexivity.
        + destruct filt as [[|x ids]|]; try discriminate; reflexivity. }
    destruct Hhere' as [Hh Hl]. split.
    + apply Forall_app. split; assumption.
    + rewrite length_app. simpl. lia.
Qed.

(** The loop keeps every row that passes the filter and the threshold. *)
Lemma scan_complete qe metas thr filt matrix rows i rs :
  skipn i matrix = rows ->
  scan qe metas thr filt i rows = Returns rs ->
  forall j row m s,
    (i <= j)%nat ->
    nth_error matrix j = Some row ->
    nth_error metas j = Some m ->
    cosine_similarity qe row = Returns s ->
    (thr <= s)%R ->
    filtered_out filt (str_id (cm_workitem_id m)) = false ->
    exists r, In r rs /\ sr_index r = j /\ sr_similarity r = s
              /\ sr_chunk_id r = cm_chunk_id m.
Proof.
  revert i rs. induction rows as [|row0 rows IH];
    intros i rs Hrows Hscan j row m s Hij Hrow Hm Hs Hthr Hf.
  - exfalso. assert (Hlen : (List.length matrix <= i)%nat).
    { destruct (Nat.le_gt_cases (List.length matrix) i) as [H|H]; [exact H|].
      assert (Hsk : List.length (skipn i matrix) = 0%nat)
        by (rewrite Hrows; reflexivity).
      rewrite length_skipn in Hsk. lia. }
    assert (nth_error matrix j = None) by (apply nth_error_None; lia).
    congruence.
  - simpl in Hscan.
    rsteps Hscan. rename a into sim, Ha into Hsim.
    rsteps Hscan. rename a into skip, Ha into Hskip.
    rsteps Hscan. rename a into here, Ha into Hhere.
    rsteps Hscan. rename a into rest, Ha into Hrest.
    inversion Hscan; subst rs; clear Hscan.
    destruct (skipn_cons_inv _ _ Hrows) as [Hnth Hrows'].
    destruct (Nat.eq_dec i j) as [->|Hne].
    + rewrite Hnth in Hrow. inversion Hrow; subst row0.
      rewrite Hs in Hsim. inversion Hsim; subst sim.
      assert (Hsub : subscript metas j = Returns m)
        by (apply subscript_returns; exact Hm).
      assert (skip = false).
      { destruct (filter_active filt); [|inversion Hskip; reflexivity].
        rewrite Hsub in Hskip. simpl in Hskip. inversion Hskip. exact Hf. }
      subst skip.
      assert (E : Rgeb s thr = true) by (apply Rgeb_true; exact Hthr).
      rewrite E, Hsub in Hhere. simpl in Hhere. inversion Hhere; subst here.
      eexists. split; [left; reflexivity|]. simpl. auto.
    + destruct (IH (S i) rest Hrows' Hrest j row m s) as [r [Hin Hr]];
        auto; [lia|].
      exists r. split; [apply in_or_app; right; exact Hin|exact Hr].
Qed.



(** X4.  With a non-empty work item filter, every match returned belongs
    to a work item of the filter; so [get_similar_chunks_by_workitem]
    returns chunks of the given work item only.  An empty filter list
    filters nothing. *)
Theorem similarity_search_filtered `{AzureOpenAI} (self : ADOVectorStore)
    (query : string) (top_k : Z) (min_score : R) (w : world) :
  (forall ids ms w',
     ids <> [] ->
     similarity_search self query top_k min_score (Some ids) w
     = (Returns ms, w') ->
     Forall (fun r => In (str_id (sr_workitem_id r)) ids) ms)
  /\ (forall workitem_id ms w',
        get_similar_chunks_by_workitem self workitem_id query top_k w
        = (Returns ms, w') ->
        Forall (fun r => str_id (sr_workitem_id r) = workitem_id) ms)
  /\ similarity_search self query top_k min_score (Some []) w
     = similarity_search self query top_k min_score None w.
Proof.
  assert (Hgen : forall ids thr ms w',
            ids <> [] ->
            similarity_search self query top_k thr (Some ids) w
            = (Returns ms, w') ->
            Forall (fun r => In (str_id (sr_workitem_id r)) ids) ms).
  { intros ids thr ms w' Hids. unfold similarity_search.
    destruct (embeddings_matrix self) as [matrix|];
      [|intros E; inversion E; constructor].
    destruct (len (chunk_metadata self) =? 0);
      [intros E; inversion E; constructor|].
    unfold bind.
    destruct (get_query_embedding query w) as [[[qe|]|e] w0];
      [|intros E; inversion E; constructor|discriminate].
    unfold lift.
    destruct (scan qe (chunk_metadata self) thr (Some ids) 0 matrix)
      as [rs|e] eqn:Escan; [|discriminate].
    intros E. inversion E; subst. rewrite slice_prefix.
    apply Forall_firstn, sort_desc_Forall.
    destruct (scan_filtered _ _ _ _ _ _ Escan) as [Hall _].
    eapply Forall_impl; [|exact Hall]. simpl. intros r Hr.
    destruct ids as [|x ids]; [congruence|].
    unfold filtered_out in Hr. apply negb_false_iff in Hr.
    apply AggregationFacts.existsb_eqb_In in Hr. exact Hr. }
  split; [intros ids; apply Hgen|]. split.
  - intros workitem_id ms w' Hs. unfold get_similar_chunks_by_workitem in Hs.
    apply Hgen in Hs; [|discriminate].
    eapply Forall_impl; [|exact Hs]. simpl. intros r [Hr|[]]. symmetry. exact Hr.
  - unfold similarity_search.
    destruct (embeddings_matrix self) as [matrix|]; [|reflexivity].
    destruct (len (chunk_metadata self) =? 0); [reflexivity|].
    unfold bind. destruct (get_query_embedding query w) as [[[qe|]|e] w0];
      try reflexivity.
    assert (Hscan : forall rows i,
              scan qe (chunk_metadata self) min_score (Some []) i rows
              = scan qe (chunk_metadata self) min_score None i rows).
    { induction rows as [|row rows IH]; intros i; simpl; [reflexivity|].
      rewrite IH. reflexivity. }
    rewrite Hscan. reflexivity.
Qed.

Lemma sample_search_filtered `{AzureOpenAI} (query : string) (w : world) :
  truthy (strip (replace_char newline " "%char query)) = true ->
  embeddings_create w (strip (replace_char newline " "%char query))
  = Returns [1%R] ->
  similarity_search (load_embeddings demo_file) query 5 (3 / 10) (Some ["2"]) w
  = (Returns [hit 1 1 item2],
     (w ++ [EmbeddingsCreate (strip (replace_char newline " "%char query))])%list).
Proof.
  intros Hq He.
  rewrite (@similarity_search_loaded _ (load_embeddings demo_file) query 5
             (3 / 10)%R (Some ["2"]) w
             (w ++ [EmbeddingsCreate
                      (strip (replace_char newline " "%char query))])%list
             [[1%R]; [1%R]] [1%R] [hit 1 1 item2]).
  - reflexivity.
  - reflexivity.
  - discriminate.
  - apply get_query_embedding_ok; assumption.
  - simpl. rewrite sample_cosine. simpl.
    assert (E : Rgeb 1 (3 / 10) = true) by (apply Rgeb_true; lra).
    rewrite E. reflexivity.
Qed.

Lemma similarity_search_filtered_witness :
  Forall (fun r => In (str_id (sr_workitem_id r)) ["2"]) [hit 1 1 item2].
Proof.
  destruct (@similarity_search_filtered demo_client (load_embeddings demo_file)
              "login error" 5 (3 / 10)%R []) as [Hfilter _].
  apply (Hfilter ["2"] [hit 1 1 item2] [EmbeddingsCreate "login error"]).
  - discriminate.
  - apply (@sample_search_filtered demo_client); reflexivity.
Defined.

(** ** The text sent to the embedding client *)

Lemma chars_lstrip (c : ascii) (s : string) :
  In c (list_ascii_of_string (lstrip s)) -> In c (list_ascii_of_string s).
Proof.
  induction s as [|a s IH]; simpl; [tauto|].
  destruct (isspace a); simpl; auto.
Qed.

Lemma chars_rstrip (c : ascii) (s : string) :
  In c (list_ascii_of_string (rstrip s)) -> In c (list_ascii_of_string s).
Proof.
  induction s as [|a s IH]; simpl; [tauto|].
  destruct (rstrip s) as [|b r] eqn:E.
  - destruct (isspace a); simpl; tauto.
  - simpl in *. intros [Hc|Hc]; auto.
Qed.

Lemma replace_newline_gone (s : string) :
  ~ In newline (list_ascii_of_string (replace_char newline " "%char s)).
Proof.
  induction s as [|a s IH]; simpl; [tauto|].
  intros [Ha|Hin]; [|contradiction].
  destruct (Ascii.eqb a newline) eqn:E; [discriminate|].
  apply Ascii.eqb_neq in E. congruence.
Qed.

Lemma rstrip_idempotent (s : string) : rstrip (rstrip s) = rstrip s.
Proof.
  induction s as [|a s IH]; simpl; [reflexivity|].
  destruct (rstrip s) as [|b r] eqn:E.
  - destruct (isspace a) eqn:Ea; simpl; [reflexivity|]. rewrite Ea. reflexivity.
  - simpl in IH. simpl. destruct (rstrip r) as [|b' r'] eqn:Er.
    + destruct (isspace b); [discriminate|]. rewrite IH. reflexivity.
    + rewrite IH. reflexivity.
Qed.

Lemma strip_idempotent (s : string) : strip (strip s) = strip s.
Proof.
  unfold strip. destruct (lstrip_head s) as [->|[c [s' [-> Hc]]]];
    [reflexivity|].
  destruct (@rstrip_head c s' Hc) as [r Hr]. rewrite Hr.
  simpl lstrip. rewrite Hc. rewrite <- Hr. apply rstrip_idempotent.
Qed.

Lemma truthy_nonempty (s : string) : s <> "" -> truthy s = true.
Proof. destruct s; [congruence|reflexivity]. Qed.

(** X5.  The text [get_query_embedding] and [get_text_embedding] send to
    the embedding client holds no newline and no leading or trailing
    whitespace and is never empty: for a text that is blank after
    cleaning no call is made and [None] is returned; otherwise exactly
    one call is made, and a vector is returned exactly when that call
    returns it (neither function raises). *)
Theorem embedding_input_cleaned `{AzureOpenAI} (text : string) (w : world) :
  let t := strip (replace_char newline " "%char text) in
  ~ In newline (list_ascii_of_string t)
  /\ strip t = t
  /\ (t = "" ->
      get_query_embedding text w = (Returns None, w)
      /\ get_text_embedding text w = (Returns None, w))
  /\ (t <> "" ->
      exists o w',
        get_query_embedding text w
        = (Returns o, (w ++ [EmbeddingsCreate t])%list)
        /\ get_text_embedding text w = (Returns o, w')
        /\ (w' = (w ++ [EmbeddingsCreate t])%list
            \/ w' = (w ++ [EmbeddingsCreate t] ++ [Sleep 10])%list)
        /\ (forall v, o = Some v <-> embeddings_create w t = Returns v)).
Proof.
  intros t. split; [|split; [apply strip_idempotent|split]].
  - intros Hin. unfold t, strip in Hin.
    apply chars_rstrip, chars_lstrip in Hin.
    exact (replace_newline_gone _ Hin).
  - intros Ht. unfold get_query_embedding, get_text_embedding. cbv zeta.
    fold t. rewrite Ht. split; reflexivity.
  - intros Ht. unfold get_query_embedding, get_text_embedding. cbv zeta.
    fold t. assert (Htr : truthy t = true) by (apply truthy_nonempty; exact Ht).
    rewrite Htr. change (negb true) with false. cbv iota.
    unfold try_except, bind, call_embeddings, ret, sleep.
    destruct (embeddings_create w t) as [v|e] eqn:Ec.
    + exists (Some v). eexists. split; [reflexivity|]. split; [reflexivity|].
      split; [left; reflexivity|]. intros v'. split; congruence.
    + exists None. destruct e;
        (eexists; split; [reflexivity|]; split; [reflexivity|];
         split; [first [left; reflexivity
                       |right; rewrite <- app_assoc; reflexivity]|];
         intros v'; split; discriminate).
Qed.

Lemma embedding_input_cleaned_witness :
  exists o w',
    @get_query_embedding demo_client ("login" ++ nl ++ "error  ") []
    = (Returns o, [EmbeddingsCreate "login error"])
    /\ @get_text_embedding demo_client ("login" ++ nl ++ "error  ") []
       = (Returns o, w')
    /\ @get_query_embedding demo_client ("  " ++ nl) [] = (Returns None, []).
Proof.
  destruct (@embedding_input_cleaned demo_client ("login" ++ nl ++ "error  ")
              []) as [_ [_ [_ Hcall]]].
  destruct (@embedding_input_cleaned demo_client ("  " ++ nl) [])
    as [_ [_ [Hblank _]]].
  destruct Hcall as [o [w' [Hq [Ht _]]]]; [discriminate|].
  exists o, w'. split; [exact Hq|]. split; [exact Ht|].
  apply Hblank. reflexivity.
Defined.

(** ** Lookup by chunk id *)

Lemma find_chunk_none (chunks : list chunk_meta) (chunk_id : string) :
  find_chunk chunks chunk_id = None <-> ~ In chunk_id (map cm_chunk_id chunks).
Proof.
  induction chunks as [|c chunks IH]; simpl; [tauto|].
  destruct (String.eqb (cm_chunk_id c) chunk_id) eqn:E.
  - apply String.eqb_eq in E. split; [discriminate|]. intros Hn. tauto.
  - apply String.eqb_neq in E. rewrite IH. tauto.
Qed.

Lemma find_chunk_some (chunks : list chunk_meta) (chunk_id : string)
    (c : chunk_meta) :
  find_chunk chunks chunk_id = Some c ->
  cm_chunk_id c = chunk_id
  /\ exists l1 l2, chunks = (l1 ++ c :: l2)%list
                   /\ ~ In chunk_id (map cm_chunk_id l1).
Proof.
  induction chunks as [|c0 chunks IH]; simpl; [discriminate|].
  destruct (String.eqb (cm_chunk_id c0) chunk_id) eqn:E.
  - intros Hc. inversion Hc; subst. apply String.eqb_eq in E.
    split; [exact E|]. exists [], chunks. simpl. auto.
  - intros Hc. destruct (IH Hc) as [Hid [l1 [l2 [Hl Hn]]]].
    split; [exact Hid|]. exists (c0 :: l1)%list, l2.
    split; [rewrite Hl; reflexivity|].
    apply String.eqb_neq in E. simpl. tauto.
Qed.

(** X6.  [get_chunk_by_id] returns [None] exactly when no chunk of the
    store has the id, and otherwise the first chunk of the store that
    has it. *)
Theorem get_chunk_by_id_first (self : ADOVectorStore) (chunk_id : string) :
  (get_chunk_by_id self chunk_id = None <->
   ~ In chunk_id (map cm_chunk_id (chunk_metadata self)))
  /\ (forall c, get_chunk_by_id self chunk_id = Some c ->
        cm_chunk_id c = chunk_id
        /\ exists l1 l2, chunk_metadata self = (l1 ++ c :: l2)%list
                         /\ ~ In chunk_id (map cm_chunk_id l1)).
Proof.
  split; [apply find_chunk_none|apply find_chunk_some].
Qed.

Lemma get_chunk_by_id_first_witness :
  cm_chunk_id (meta_of_item item2) = "workitem_2_chunk_0"
  /\ exists l1 l2,
       chunk_metadata (load_embeddings demo_file)
       = (l1 ++ meta_of_item item2 :: l2)%list
       /\ ~ In "workitem_2_chunk_0" (map cm_chunk_id l1).
Proof.
  apply (proj2 (get_chunk_by_id_first (load_embeddings demo_file)
                  "workitem_2_chunk_0")).
  reflexivity.
Defined.

Lemma find_chunk_distinct (chunks : list chunk_meta) (c : chunk_meta) :
  NoDup (map cm_chunk_id chunks) -> In c chunks ->
  find_chunk chunks (cm_chunk_id c) = Some c.
Proof.
  induction chunks as [|c0 chunks IH]; simpl; [tauto|].
  intros Hnd Hin. inversion Hnd as [|? ? Hc0 Hnd']; subst.
  destruct Hin as [->|Hin]; [rewrite String.eqb_refl; reflexivity|].
  destruct (String.eqb (cm_chunk_id c0) (cm_chunk_id c)) eqn:E.
  - apply String.eqb_eq in E. exfalso. apply Hc0. rewrite E.
    apply in_map. exact Hin.
  - apply IH; assumption.
Qed.

Lemma valid_records_distinct (items : list embedding_item) :
  NoDup (map ei_chunk_id items) ->
  NoDup (map ei_chunk_id (filter has_embedding items)).
Proof.
  induction items as [|item items IH]; simpl; [auto|].
  intros Hnd. inversion Hnd as [|? ? Hfresh Hnd']; subst.
  destruct (has_embedding item); [|apply IH; exact Hnd'].
  simpl. constructor; [|apply IH; exact Hnd'].
  intros Hin. apply Hfresh. apply in_map_iff in Hin.
  destruct Hin as [other [Hid Hin]]. apply filter_In in Hin.
  apply in_map_iff. exists other. tauto.
Qed.

(** X7.  Load and look up: when the file loads (its embedded vectors have
    one dimension) and its chunk ids are distinct, every record that has
    an embedding is found again under its chunk id, with its content,
    work item id and metadata. *)
Theorem load_then_get_chunk (items : list embedding_item)
    (item : embedding_item) :
  embeddings_matrix (load_embeddings (FileData items)) <> None ->
  NoDup (map ei_chunk_id items) ->
  In item items ->
  has_embedding item = true ->
  get_chunk_by_id (load_embeddings (FileData items)) (ei_chunk_id item)
  = Some (meta_of_item item).
Proof.
  intros Hload Hnd Hin Hemb.
  destruct (load_embeddings_rows (FileData items))
    as [[Hnone _]|[items' [matrix [d [Hf [_ [_ [Hmeta _]]]]]]]];
    [contradiction|].
  inversion Hf; subst items'. unfold get_chunk_by_id. rewrite Hmeta.
  change (ei_chunk_id item) with (cm_chunk_id (meta_of_item item)).
  apply find_chunk_distinct.
  - rewrite map_map. simpl. apply valid_records_distinct. exact Hnd.
  - apply in_map. apply filter_In. auto.
Qed.

Lemma load_then_get_chunk_witness :
  get_chunk_by_id (load_embeddings demo_file) "workitem_2_chunk_0"
  = Some (meta_of_item item2).
Proof.
  apply (load_then_get_chunk [item1; item2] item2).
  - discriminate.
  - repeat constructor; simpl; intuition discriminate.
  - right. left. reflexivity.
  - reflexivity.
Defined.

(** ** Statistics *)

Lemma count_up_keys (counts : list (string * Z)) (k : string) :
  map fst (count_up counts k) = add_key (map fst counts) k.
Proof.
  unfold add_key. induction counts as [|[k' n] counts IH]; simpl;
    [reflexivity|].
  destruct (String.eqb k k') eqn:E; simpl; [reflexivity|].
  rewrite IH. destruct (existsb _ (map fst counts)); reflexivity.
Qed.

Lemma count_up_sum (counts : list (string * Z)) (k : string) :
  fold_right Z.add 0 (map snd (count_up counts k))
  = fold_right Z.add 0 (map snd counts) + 1.
Proof.
  induction counts as [|[k' n] counts IH]; simpl; [reflexivity|].
  destruct (String.eqb k k'); simpl; [lia|]. rewrite IH. lia.
Qed.

Lemma count_up_positive (counts : list (string * Z)) (k : string) :
  Forall (fun n => 1 <= n) (map snd counts) ->
  Forall (fun n => 1 <= n) (map snd (count_up counts k)).
Proof.
  induction counts as [|[k' n] counts IH]; simpl; intros Hall.
  - constructor; [lia|constructor].
  - inversion Hall; subst. destruct (String.eqb k k'); simpl.
    + constructor; [lia|assumption].
    + constructor; [assumption|apply IH; assumption].
Qed.

(** The counting dict after the loop over [ids]. *)
Lemma count_loop (ids : list string) :
  let counts := fold_left count_up ids [] in
  map fst counts = first_seen ids
  /\ fold_right Z.add 0 (map snd counts) = len ids
  /\ Forall (fun n => 1 <= n) (map snd counts).
Proof.
  induction ids as [|k ids IH] using rev_ind; simpl.
  - repeat split. constructor.
  - cbv zeta in IH. destruct IH as [Hkeys [Hsum Hpos]].
    rewrite fold_left_app. simpl.
    split; [|split].
    + rewrite count_up_keys, Hkeys, first_seen_snoc. reflexivity.
    + rewrite count_up_sum, Hsum. unfold len. rewrite length_app. simpl. lia.
    + apply count_up_positive. exact Hpos.
Qed.

Lemma distinct_count (ids : list string) :
  List.length (distinct ids) = List.length (first_seen ids).
Proof.
  apply Permutation_length. apply NoDup_Permutation.
  - apply NoDup_nodup.
  - apply first_seen_NoDup.
  - intros k. unfold distinct. rewrite nodup_In, first_seen_In. tauto.
Qed.

Lemma fold_max_bounds (l : list Z) (x : Z) :
  x <= fold_left Z.max l x
  /\ Forall (fun n => n <= fold_left Z.max l x) l
  /\ (fold_left Z.max l x = x \/ In (fold_left Z.max l x) l).
Proof.
  revert x. induction l as [|y l IH]; intros x; simpl.
  - split; [lia|]. split; [constructor|left; reflexivity].
  - destruct (IH (Z.max x y)) as [Hx [Hall Hin]].
    split; [lia|]. split.
    + constructor; [lia|exact Hall].
    + destruct Hin as [Hm|Hin]; [|right; right; exact Hin].
      rewrite Hm. destruct (Z.max_spec x y) as [[_ ->]|[_ ->]]; auto.
Qed.

Lemma fold_min_bounds (l : list Z) (x : Z) :
  fold_left Z.min l x <= x
  /\ Forall (fun n => fold_left Z.min l x <= n) l
  /\ (fold_left Z.min l x = x \/ In (fold_left Z.min l x) l).
Proof.
  revert x. induction l as [|y l IH]; intros x; simpl.
  - split; [lia|]. split; [constructor|left; reflexivity].
  - destruct (IH (Z.min x y)) as [Hx [Hall Hin]].
    split; [lia|]. split.
    + constructor; [lia|exact Hall].
    + destruct Hin as [Hm|Hin]; [|right; right; exact Hin].
      rewrite Hm. destruct (Z.min_spec x y) as [[_ ->]|[_ ->]]; auto.
Qed.

Lemma sum_between (l : list Z) (lo hi : Z) :
  Forall (fun n => lo <= n <= hi) l ->
  len l * lo <= fold_right Z.add 0 l <= len l * hi.
Proof.
  induction 1 as [|n l Hn Hall IH]; unfold len in *; [simpl; lia|].
  simpl fold_right. simpl List.length. rewrite Nat2Z.inj_succ. lia.
Qed.

(** X8.  [get_statistics] on a loaded store reports "No data loaded" when
    the store has no chunk; otherwise the total is the number of chunks,
    the number of work items is between 1 and the total, the smallest and
    largest chunk counts are at least 1 and bracket the mean
    ([unique * min <= total <= unique * max]), the reported average is
    the rounded quotient, and the dimension is the positive length of
    every row.  [system_status] is "operational" exactly in the second
    case. *)
Theorem get_statistics_consistent `{FloatRound2} (f : embeddings_file) :
  let self := load_embeddings f in
  let total := len (chunk_metadata self) in
  (chunk_metadata self = [] ->
   get_statistics self = Returns (StatsError "No data loaded")
   /\ system_status self = Returns "error")
  /\ (chunk_metadata self <> [] ->
      exists unique mx mn d,
        get_statistics self
        = Returns (Stats total unique (round_2 (IZR total / IZR unique))
                     mx mn d)
        /\ system_status self = Returns "operational"
        /\ 1 <= unique <= total
        /\ 1 <= mn /\ mn <= mx /\ mx <= total
        /\ unique * mn <= total <= unique * mx
        /\ 0 < d
        /\ (forall matrix row,
              embeddings_matrix self = Some matrix -> In row matrix ->
              len row = d)).
Proof.
  intros self total. split.
  - intros Hempty. unfold system_status, get_statistics. rewrite Hempty.
    split; reflexivity.
  - intros Hne.
    destruct (load_embeddings_rows f)
      as [[_ Hnil]|[items [matrix [d [_ [Hm [_ [_ [Hmne [Hd Hrows]]]]]]]]]];
      [contradiction|].
    fold self in Hm.
    set (ids := map (fun chunk => str_id (cm_workitem_id chunk))
                  (chunk_metadata self)).
    destruct (count_loop ids) as [Hkeys [Hsum Hpos]].
    set (counts := fold_left count_up ids []) in *.
    assert (Hlen : len ids = total)
      by (unfold ids, len, total; rewrite length_map; reflexivity).
    assert (Hids : ids <> []).
    { unfold ids. destruct (chunk_metadata self); [congruence|discriminate]. }
    assert (Hu : len (distinct ids) = len (map snd counts)).
    { unfold len. rewrite distinct_count, <- Hkeys, !length_map. reflexivity. }
    assert (Hcne : counts <> []).
    { intros Hc. destruct ids as [|k ids'] eqn:Ei; [congruence|].
      assert (Hin : In k (map fst counts))
        by (rewrite Hkeys; apply first_seen_In; left; reflexivity).
      rewrite Hc in Hin. destruct Hin. }
    destruct counts as [|[k0 n0] counts'] eqn:Ec; [congruence|].
    simpl map in *.
    destruct (fold_max_bounds (map snd counts') n0) as [Hx1 [Hx2 Hx3]].
    destruct (fold_min_bounds (map snd counts') n0) as [Hn1 [Hn2 Hn3]].
    set (mx := fold_left Z.max (map snd counts') n0) in *.
    set (mn := fold_left Z.min (map snd counts') n0) in *.
    assert (Hall : Forall (fun n => mn <= n <= mx) (n0 :: map snd counts')).
    { constructor; [lia|]. rewrite Forall_forall in *. intros n Hn.
      specialize (Hx2 n Hn). specialize (Hn2 n Hn). lia. }
    pose proof (sum_between Hall) as Hbetween. rewrite Hsum, Hlen in Hbetween.
    assert (Hmn1 : 1 <= mn).
    { inversion Hpos as [|? ? Hp0 Hp']; subst.
      destruct Hn3 as [->|Hin]; [exact Hp0|].
      rewrite Forall_forall in Hp'. apply Hp'. exact Hin. }
    assert (Hstats : get_statistics self
                     = Returns (Stats total (len (distinct ids))
                                  (round_2 (IZR total / IZR (len (distinct ids))))
                                  mx mn (Z.of_nat d))).
    { unfold get_statistics.
      destruct matrix as [|row0 matrix']; [congruence|].
      pose proof (Forall_inv Hrows) as Hrow0. cbv beta in Hrow0.
      destruct (chunk_metadata self) as [|c0 cs] eqn:Emeta; [congruence|].
      cbv zeta. fold ids. fold counts. rewrite Ec, Hm.
      cbn [rbind max_int min_int map snd shape1]. fold mx. fold mn.
      fold total. replace (len row0) with (Z.of_nat d)
        by (unfold len; rewrite Hrow0; reflexivity).
      destruct (distinct ids) eqn:Ed; [|reflexivity].
      exfalso. unfold len in Hu. simpl in Hu. lia. }
    exists (len (distinct ids)), mx, mn, (Z.of_nat d).
    split; [exact Hstats|]. split.
    { unfold system_status. rewrite Hstats. reflexivity. }
    rewrite Hu.
    assert (Hu1 : 1 <= len (n0 :: map snd counts'))
      by (unfold len; simpl List.length; lia).
    assert (Hmx : mx <= total).
    { rewrite <- Hlen, <- Hsum. clear - Hx3 Hpos.
      assert (Hge : forall l, Forall (fun n => 1 <= n) l ->
                forall m, In m l -> m <= fold_right Z.add 0 l).
      { induction 1 as [|n l Hn Hl IH]; intros m Hm; [destruct Hm|].
        destruct Hm as [Hm|Hm]; simpl.
        - subst. clear IH.
          assert (0 <= fold_right Z.add 0 l)
            by (induction Hl; simpl; lia). lia.
        - specialize (IH m Hm). lia. }
      apply (Hge _ Hpos). destruct Hx3 as [->|Hin];
        [left; reflexivity|right; exact Hin]. }
    generalize dependent (len (n0 :: map snd counts')). intros u _ Hbetween Hu1.
    clearbody mx mn total.
    split; [nia|]. split; [exact Hmn1|]. split; [lia|].
    split; [exact Hmx|]. split; [exact Hbetween|]. split; [lia|].
    intros matrix0 row Hm0 Hrow. rewrite Hm in Hm0. inversion Hm0; subst.
    rewrite Forall_forall in Hrows. unfold len. f_equal. apply Hrows.
    exact Hrow.
Qed.

(** ** Calls made to the client *)

Lemma get_query_embedding_log `{AzureOpenAI} (query : string) (w : world) :
  (truthy (strip (replace_char newline " "%char query)) = false
   /\ get_query_embedding query w = (Returns None, w))
  \/ (truthy (strip (replace_char newline " "%char query)) = true
      /\ get_query_embedding query w
         = (Returns match embeddings_create w
                            (strip (replace_char newline " "%char query)) with
                    | Returns v => Some v
                    | Raises _ => None
                    end,
            (w ++ [EmbeddingsCreate
                     (strip (replace_char newline " "%char query))])%list)).
Proof.
  unfold get_query_embedding. cbv zeta.
  destruct (truthy (strip (replace_char newline " "%char query))) eqn:Et.
  - right. split; [reflexivity|]. change (negb true) with false. cbv iota.
    unfold try_except, bind, call_embeddings, ret.
    destruct (embeddings_create w _); reflexivity.
  - left. split; reflexivity.
Qed.

(** [similarity_search] makes at most one call, an embedding call for the
    cleaned query. *)
Lemma similarity_search_log `{AzureOpenAI} self query top_k thr filt
    (w : world) :
  similarity_search self query top_k thr filt w = (Returns [], w)
  \/ exists r,
       similarity_search self query top_k thr filt w
       = (r, (w ++ [EmbeddingsCreate
                      (strip (replace_char newline " "%char query))])%list)
       /\ (forall ms, r = Returns ms -> 0 <= top_k -> len ms <= top_k).
Proof.
  unfold similarity_search.
  destruct (embeddings_matrix self) as [matrix|]; [|left; reflexivity].
  destruct (len (chunk_metadata self) =? 0); [left; reflexivity|].
  unfold bind.
  destruct (get_query_embedding_log query w) as [[_ ->]|[_ ->]];
    [left; reflexivity|right].
  destruct (embeddings_create w _) as [qe|e].
  - unfold lift.
    destruct (scan qe (chunk_metadata self) thr filt 0 matrix) as [rs|e].
    + eexists. split; [reflexivity|].
      intros ms E Hk. inversion E; subst. apply slice_prefix_length. exact Hk.
    + eexists. split; [reflexivity|]. intros ms E. discriminate.
  - eexists. split; [reflexivity|].
    intros ms E Hk. inversion E; subst. unfold len. simpl. exact Hk.
Qed.

(** X9.  [answer_question] always returns a dict for the query, after at
    most one embedding call (for the cleaned query) followed by at most
    one generation call, and nothing else.  The generation call is made
    exactly when ['num_sources'] is present; then it counts the sources,
    is at least 1 and (for [top_k >= 0]) at most [top_k], and the
    confidence is a tier.  Otherwise there is no source and the
    confidence is "low" (nothing found) or "error". *)
Theorem answer_question_accounting `{AzureOpenAI} `{FloatFormat}
    (vector_store : ADOVectorStore) (query : string) (top_k : Z)
    (similarity_threshold : R) (include_metadata : bool) (temperature : R)
    (w : world) :
  exists a delta,
    answer_question vector_store query top_k similarity_threshold
      include_metadata temperature w = (Returns a, (w ++ delta)%list)
    /\ ans_query a = query
    /\ match ans_num_sources a with
       | Some n =>
           n = len (ans_sources a) /\ 1 <= n /\ (0 <= top_k -> n <= top_k)
           /\ (ans_confidence a = "high" \/ ans_confidence a = "medium"
               \/ ans_confidence a = "low")
           /\ exists context,
                delta = [EmbeddingsCreate
                           (strip (replace_char newline " "%char query));
                         chat_call_of query context temperature]
       | None =>
           ans_sources a = []
           /\ (ans_answer a = not_found_answer /\ ans_confidence a = "low"
               \/ ans_confidence a = "error")
           /\ (delta = []
               \/ delta = [EmbeddingsCreate
                             (strip (replace_char newline " "%char query))])
       end.
Proof.
  destruct (similarity_search_log vector_store query top_k
              similarity_threshold None w) as [Hs|[r [Hs Hlen]]].
  - exists {| ans_answer := not_found_answer; ans_sources := [];
              ans_confidence := "low"; ans_query := query;
              ans_num_sources := None |}, [].
    rewrite app_nil_r.
    unfold answer_question, try_except, answer_question_body, bind.
    rewrite Hs. split; [reflexivity|]. simpl.
    split; [reflexivity|]. split; [reflexivity|].
    split; [left; split; reflexivity|left; reflexivity].
  - destruct r as [[|m ms]|e].
    + exists {| ans_answer := not_found_answer; ans_sources := [];
                ans_confidence := "low"; ans_query := query;
                ans_num_sources := None |}.
      eexists.
      unfold answer_question, try_except, answer_question_body, bind.
      rewrite Hs. split; [reflexivity|]. simpl.
      split; [reflexivity|]. split; [reflexivity|].
      split; [left; split; reflexivity|right; reflexivity].
    + destruct (@answer_question_found _ _ vector_store query top_k
                  similarity_threshold include_metadata temperature w _
                  (m :: ms) Hs) as [c [_ [Htier Ha]]]; [discriminate|].
      eexists. eexists. rewrite Ha, <- app_assoc. split; [reflexivity|].
      cbn [ans_query ans_num_sources ans_sources ans_confidence].
      split; [reflexivity|].
      split; [unfold _format_sources, len; rewrite length_map; reflexivity|].
      split; [unfold len; simpl; lia|].
      split; [apply Hlen; reflexivity|].
      split; [exact Htier|]. eexists. reflexivity.
    + eexists. eexists.
      unfold answer_question, try_except, answer_question_body, bind.
      rewrite Hs. unfold ret. split; [reflexivity|]. simpl.
      split; [reflexivity|]. split; [reflexivity|].
      split; [right; reflexivity|right; reflexivity].
Qed.

(** ** A query vector of the wrong dimension *)

Lemma cosine_similarity_mismatch (a b : list R) :
  List.length a <> List.length b -> exists e, cosine_similarity a b = Raises e.
Proof.
  intros Hne. unfold cosine_similarity.
  destruct (dot a b) as [d|e] eqn:Ed; [|exists e; reflexivity].
  apply dot_length in Ed. contradiction.
Qed.

(** A scan that meets a row of another dimension than the query vector
    raises. *)
Lemma scan_mismatch qe metas thr filt rows i (row : list R) :
  In row rows -> List.length row <> List.length qe ->
  exists e, scan qe metas thr filt i rows = Raises e.
Proof.
  intros Hin Hne. revert i.
  induction rows as [|row0 rows IH]; intros i; [destruct Hin|].
  simpl scan.
  destruct (cosine_similarity qe row0) as [c|e] eqn:Ec;
    [|exists e; reflexivity].
  destruct Hin as [->|Hin].
  { destruct (@cosine_similarity_mismatch qe row) as [e He]; [congruence|].
    congruence. }
  destruct (IH Hin (S i)) as [e He]. rewrite He.
  cbn [rbind].
  match goal with
  | |- exists e0, rbind ?m _ = _ => destruct m as [skip|e1];
                                     [|exists e1; reflexivity]
  end.
  cbn [rbind].
  match goal with
  | |- exists e0, rbind ?m _ = _ => destruct m as [here|e1];
                                     [|exists e1; reflexivity]
  end.
  exists e. reflexivity.
Qed.

(** X10.  When the embedding of the query has another dimension than a
    row of the index, [similarity_search] raises after its embedding
    call; [answer_question] turns this into a dict with confidence
    "error", no source and the message of the exception, and makes no
    generation call; [search_workitems_by_criteria] has no handler and
    raises in both of its modes. *)
Theorem dimension_mismatch_reported `{AzureOpenAI} `{FloatFormat}
    (vector_store : ADOVectorStore) (query : string) (top_k : Z)
    (similarity_threshold : R) (include_metadata : bool) (temperature : R)
    (w : world) (matrix : list (list R)) (row qe : list R) :
  let q := strip (replace_char newline " "%char query) in
  embeddings_matrix vector_store = Some matrix ->
  chunk_metadata vector_store <> [] ->
  truthy q = true ->
  embeddings_create w q = Returns qe ->
  In row matrix ->
  List.length row <> List.length qe ->
  exists e,
    similarity_search vector_store query top_k similarity_threshold None w
    = (Raises e, (w ++ [EmbeddingsCreate q])%list)
    /\ answer_question vector_store query top_k similarity_threshold
         include_metadata temperature w
       = (Returns {| ans_answer :=
                       "An error occurred while processing your question: "
                       ++ exn_str e;
                     ans_sources := [];
                     ans_confidence := "error";
                     ans_query := query;
                     ans_num_sources := None |},
          (w ++ [EmbeddingsCreate q])%list)
    /\ search_workitems_by_criteria vector_store query top_k false
         similarity_threshold w
       = (Raises e, (w ++ [EmbeddingsCreate q])%list)
    /\ exists e',
         search_workitems_by_criteria vector_store query top_k true
           similarity_threshold w
         = (Raises e', (w ++ [EmbeddingsCreate q])%list).
Proof.
  intros q Hm Hmeta Hq He Hin Hne.
  assert (Hsearch : forall k thr, exists e,
            similarity_search vector_store query k thr None w
            = (Raises e, (w ++ [EmbeddingsCreate q])%list)).
  { intros k thr.
    destruct (@scan_mismatch qe (chunk_metadata vector_store) thr None
                matrix 0%nat row Hin Hne) as [e Hscan].
    exists e. unfold similarity_search. rewrite Hm.
    destruct (len (chunk_metadata vector_store) =? 0) eqn:E.
    { apply Z.eqb_eq in E. unfold len in E.
      destruct (chunk_metadata vector_store); [congruence|simpl in E; lia]. }
    unfold bind. rewrite (get_query_embedding_ok query w Hq He).
    unfold lift. rewrite Hscan. reflexivity. }
  destruct (Hsearch top_k similarity_threshold) as [e Hs].
  destruct (Hsearch 50 0%R) as [e' Hs'].
  exists e. split; [exact Hs|]. split; [|split].
  - unfold answer_question, try_except, answer_question_body, bind.
    rewrite Hs. reflexivity.
  - unfold search_workitems_by_criteria, bind. rewrite Hs. reflexivity.
  - exists e'. unfold search_workitems_by_criteria, get_related_workitems, bind.
    rewrite Hs'. reflexivity.
Qed.

Lemma dimension_mismatch_reported_witness :
  exists e,
    @answer_question wide_client plain_format (load_embeddings demo_file)
      "status" 5 (3 / 10)%R true (2 / 10)%R []
    = (Returns {| ans_answer :=
                    "An error occurred while processing your question: "
                    ++ exn_str e;
                  ans_sources := [];
                  ans_confidence := "error";
                  ans_query := "status";
                  ans_num_sources := None |},
       [EmbeddingsCreate "status"]).
Proof.
  destruct (@dimension_mismatch_reported wide_client plain_format
              (load_embeddings demo_file) "status" 5 (3 / 10)%R true
              (2 / 10)%R [] [[1%R]; [1%R]] [1%R] [1%R; 0%R])
    as [e [_ [Ha _]]].
  - reflexivity.
  - discriminate.
  - reflexivity.
  - reflexivity.
  - left; reflexivity.
  - simpl. lia.
  - exists e. exact Ha.
Defined.

(** ** Summaries and searches by criteria *)

Lemma filter_head {A} (p : A -> bool) (l : list A) (first : A) (rest : list A) :
  filter p l = first :: rest ->
  exists before after,
    l = (before ++ first :: after)%list
    /\ Forall (fun a => p a = false) before
    /\ p first = true
    /\ rest = filter p after.
Proof.
  induction l as [|a l IH]; simpl; [discriminate|].
  destruct (p a) eqn:Ea.
  - intros E. inversion E; subst. exists [], l. repeat split; auto.
  - intros E. destruct (IH E) as [before [after [-> [Hb [Hf Hr]]]]].
    exists (a :: before), after. repeat split; auto.
Qed.

Lemma filter_length_le {A} (p : A -> bool) (l : list A) :
  (List.length (filter p l) <= List.length l)%nat.
Proof.
  induction l as [|a l IH]; simpl; [lia|]. destruct (p a); simpl; lia.
Qed.

(** X11.  [get_workitem_summary] never raises and never asks for an
    embedding.  The work item is found exactly when some chunk of the
    store carries its id (compared as strings); then exactly one
    generation call is made, the chunk count is the number of such
    chunks, and the metadata is that of the first of them in store
    order.  When it is not found no call is made at all. *)
Theorem get_workitem_summary_accounting `{AzureOpenAI} `{FloatFormat}
    (vector_store : ADOVectorStore) (workitem_id : string) (w : world) :
  exists s delta,
    get_workitem_summary vector_store workitem_id w
    = (Returns s, (w ++ delta)%list)
    /\ sum_workitem_id s = workitem_id
    /\ (sum_found s = true <->
        exists chunk, In chunk (chunk_metadata vector_store)
                      /\ str_id (cm_workitem_id chunk) = workitem_id)
    /\ if sum_found s
       then
         (exists context,
            delta = [chat_call_of (summary_query workitem_id) context
                       (2 / 10)%R])
         /\ sum_chunk_count s
            = Some (len (get_workitem_chunks vector_store workitem_id))
         /\ 1 <= len (get_workitem_chunks vector_store workitem_id)
              <= len (chunk_metadata vector_store)
         /\ exists before first after,
              chunk_metadata vector_store = (before ++ first :: after)%list
              /\ Forall (fun c => str_id (cm_workitem_id c) <> workitem_id)
                   before
              /\ str_id (cm_workitem_id first) = workitem_id
              /\ sum_metadata s = Some (cm_metadata first)
       else
         delta = []
         /\ sum_answer s = "Work item " ++ workitem_id
                           ++ " not found in the knowledge base."
         /\ sum_metadata s = None /\ sum_chunk_count s = None.
Proof.
  unfold get_workitem_summary. cbv zeta.
  destruct (get_workitem_chunks vector_store workitem_id)
    as [|first rest] eqn:Ec.
  - eexists. exists []. rewrite app_nil_r. split; [reflexivity|].
    cbn [sum_workitem_id sum_found sum_answer sum_metadata sum_chunk_count].
    split; [reflexivity|]. split; [|repeat split].
    split; [discriminate|]. intros [chunk [Hin Hid]].
    assert (Hc : In chunk (get_workitem_chunks vector_store workitem_id)).
    { unfold get_workitem_chunks. apply filter_In. split; [exact Hin|].
      apply String.eqb_eq. exact Hid. }
    rewrite Ec in Hc. destruct Hc.
  - unfold bind. rewrite generate_response_cases. unfold ret.
    eexists. eexists. split; [reflexivity|].
    cbn [sum_workitem_id sum_found sum_answer sum_metadata sum_chunk_count].
    unfold get_workitem_chunks in Ec.
    destruct (filter_head _ _ Ec) as [before [after [Hl [Hb [Hf _]]]]].
    apply String.eqb_eq in Hf.
    split; [reflexivity|]. split; [|split; [|split; [|split]]].
    + split; [|reflexivity]. intros _. exists first. split; [|exact Hf].
      rewrite Hl. apply in_or_app. right. left. reflexivity.
    + eexists. reflexivity.
    + reflexivity.
    + pose proof (filter_length_le
                    (fun chunk => String.eqb (str_id (cm_workitem_id chunk))
                                    workitem_id)
                    (chunk_metadata vector_store)) as Hle.
      rewrite Ec in Hle. unfold len. simpl List.length in *. lia.
    + exists before, first, after. split; [exact Hl|].
      split; [|split; [exact Hf|reflexivity]].
      eapply Forall_impl; [|exact Hb]. intros c Hc Hid. cbv beta in Hc.
      apply String.eqb_neq in Hc. contradiction.
Qed.

Lemma firstn_NoDup {A} (l : list A) (n : nat) :
  NoDup l -> NoDup (firstn n l).
Proof.
  intros Hl. revert n. induction Hl as [|a l Ha Hl IH]; intros [|n]; simpl;
    try constructor.
  - intros Hin. apply Ha. eapply In_firstn. exact Hin.
  - apply IH.
Qed.

(** Nothing to search in, or nothing to search for: no call is made. *)
Lemma similarity_search_nothing `{AzureOpenAI} self query top_k thr filt
    (w : world) :
  blank query = true \/ chunk_metadata self = [] ->
  similarity_search self query top_k thr filt w = (Returns [], w).
Proof.
  intros [Hb|He].
  - unfold similarity_search.
    destruct (embeddings_matrix self); [|reflexivity].
    destruct (len _ =? 0); [reflexivity|].
    unfold bind, get_query_embedding. rewrite (strip_blank_query _ Hb).
    reflexivity.
  - unfold similarity_search. rewrite He.
    destruct (embeddings_matrix self); reflexivity.
Qed.

(** X12.  With blank criteria or an empty store the two modes of
    [search_workitems_by_criteria] differ: the grouped mode returns its
    "No work items found" dict, without a count, and calls nothing; the
    flat mode still makes its generation call, on an empty context, and
    returns the reply (or the error text of a failed call) as the answer,
    with ['found'] false and ['count'] 0. *)
Theorem search_by_criteria_nothing_found `{AzureOpenAI} `{FloatFormat}
    (vector_store : ADOVectorStore) (criteria : string) (top_k : Z)
    (similarity_threshold : R) (w : world) :
  blank criteria = true \/ chunk_metadata vector_store = [] ->
  search_workitems_by_criteria vector_store criteria top_k true
    similarity_threshold w
  = (Returns {| cr_answer := "No work items found matching criteria: '"
                             ++ criteria ++ "'";
                cr_criteria := criteria;
                cr_workitems := Some [];
                cr_chunks := None;
                cr_found := false;
                cr_count := None |}, w)
  /\ search_workitems_by_criteria vector_store criteria top_k false
       similarity_threshold w
     = (Returns {| cr_answer :=
                     match chat_completions_create w system_message
                             (user_message_of (flat_query criteria) "")
                             (2 / 10)%R 1500 (9 / 10)%R with
                     | Returns text => text
                     | Raises e => generation_error_text e
                     end;
                   cr_criteria := criteria;
                   cr_workitems := None;
                   cr_chunks := Some [];
                   cr_found := false;
                   cr_count := Some 0 |},
        (w ++ [chat_call_of (flat_query criteria) "" (2 / 10)%R])%list).
Proof.
  intros Hnone. split.
  - unfold search_workitems_by_criteria, get_related_workitems, bind.
    rewrite (similarity_search_nothing vector_store criteria 50 0%R None w Hnone).
    unfold lift, related_workitems_of, aggregate_sorted. simpl.
    rewrite slice_prefix. simpl. rewrite firstn_nil. reflexivity.
  - unfold search_workitems_by_criteria, bind.
    rewrite (similarity_search_nothing vector_store criteria top_k
               similarity_threshold None w Hnone).
    rewrite generate_response_cases. reflexivity.
Qed.

Lemma search_by_criteria_nothing_found_witness :
  @search_workitems_by_criteria demo_client plain_format
    (load_embeddings demo_file) "   " 10 true (3 / 10)%R []
  = (Returns {| cr_answer := "No work items found matching criteria: '   '";
                cr_criteria := "   ";
                cr_workitems := Some [];
                cr_chunks := None;
                cr_found := false;
                cr_count := None |}, [])
  /\ exists r,
       @search_workitems_by_criteria demo_client plain_format
         (load_embeddings demo_file) "   " 10 false (3 / 10)%R []
       = (Returns r, [chat_call_of (flat_query "   ") "" (2 / 10)%R])
       /\ cr_answer r = "ok" /\ cr_found r = false /\ cr_count r = Some 0.
Proof.
  destruct (@search_by_criteria_nothing_found demo_client plain_format
              (load_embeddings demo_file) "   " 10 (3 / 10)%R [])
    as [Hg Hf]; [left; reflexivity|].
  split; [exact Hg|]. eexists. split; [exact Hf|]. repeat split.
Defined.

(** X13.  The grouped mode of [search_workitems_by_criteria], whenever
    its search returns: the work items reported carry pairwise distinct
    ids, each is the aggregate of exactly the matches of its id among the
    (at most 50) matches searched with minimum score 0, and for
    [top_k >= 0] there are at most [top_k] of them.  It reports found
    exactly when this list is non-empty; then the count is its length and
    one generation call is made, otherwise neither a count nor a call.
    The [similarity_threshold] argument has no effect in this mode. *)
Theorem search_by_criteria_grouped `{AzureOpenAI} `{FloatFormat}
    (vector_store : ADOVectorStore) (criteria : string) (top_k : Z)
    (similarity_threshold : R) (w w1 : world)
    (all_results : list search_result) :
  similarity_search vector_store criteria 50 0%R None w
  = (Returns all_results, w1) ->
  exists r delta workitems,
    search_workitems_by_criteria vector_store criteria top_k true
      similarity_threshold w = (Returns r, (w1 ++ delta)%list)
    /\ cr_criteria r = criteria
    /\ cr_workitems r = Some workitems /\ cr_chunks r = None
    /\ NoDup (map wr_workitem_id workitems)
    /\ Forall (aggregates all_results) workitems
    /\ len all_results <= 50
    /\ (0 <= top_k -> len workitems <= top_k)
    /\ (cr_found r = true <-> workitems <> [])
    /\ (if cr_found r
        then cr_count r = Some (len workitems)
             /\ delta = [chat_call_of (grouped_query criteria)
                           (criteria_context criteria workitems) (2 / 10)%R]
        else cr_count r = None /\ delta = [])
    /\ forall other_threshold,
         search_workitems_by_criteria vector_store criteria top_k true
           other_threshold w
         = search_workitems_by_criteria vector_store criteria top_k true
             similarity_threshold w.
Proof.
  intros Hs.
  destruct (aggregate_sorted_spec all_results)
    as [aggs [Haggs [Hperm [Hall _]]]].
  assert (Hnd : NoDup (map wr_workitem_id (slice aggs None (Some top_k)))).
  { rewrite slice_prefix, <- firstn_map. apply firstn_NoDup.
    eapply Permutation_NoDup; [exact Hperm|apply first_seen_NoDup]. }
  assert (Hagg : Forall (aggregates all_results) (slice aggs None (Some top_k))).
  { rewrite slice_prefix. apply Forall_firstn. exact Hall. }
  assert (H50 : len all_results <= 50).
  { destruct (similarity_search_log vector_store criteria 50 0%R None w)
      as [E|[r [E Hlen]]]; rewrite Hs in E; inversion E; subst.
    - unfold len. simpl. lia.
    - apply Hlen; [reflexivity|lia]. }
  assert (Hthr : forall thr1 thr2,
            search_workitems_by_criteria vector_store criteria top_k true thr1 w
            = search_workitems_by_criteria vector_store criteria top_k true
                thr2 w) by reflexivity.
  unfold search_workitems_by_criteria at 1.
  unfold get_related_workitems, bind.
  rewrite Hs. unfold lift, related_workitems_of. rewrite Haggs. cbn [rbind].
  destruct (slice aggs None (Some top_k)) as [|a related] eqn:Eslice.
  - eexists. exists [], []. rewrite app_nil_r. split; [reflexivity|].
    cbn [cr_criteria cr_workitems cr_chunks cr_found cr_count].
    split; [reflexivity|]. split; [reflexivity|]. split; [reflexivity|].
    split; [constructor|]. split; [constructor|]. split; [exact H50|].
    split; [intros Hk; unfold len; simpl; exact Hk|].
    split; [split; [discriminate|congruence]|].
    split; [split; reflexivity|]. intros thr. apply Hthr.
  - rewrite generate_response_cases. unfold ret.
    eexists. eexists. exists (a :: related). split; [reflexivity|].
    cbn [cr_criteria cr_workitems cr_chunks cr_found cr_count].
    split; [reflexivity|]. split; [reflexivity|]. split; [reflexivity|].
    split; [exact Hnd|]. split; [exact Hagg|]. split; [exact H50|].
    split; [intros Hk; rewrite <- Eslice; apply slice_prefix_length; exact Hk|].
    split; [split; [discriminate|reflexivity]|].
    split; [split; reflexivity|]. intros thr. apply Hthr.
Qed.

Lemma sample_search_all `{AzureOpenAI} (query : string) (w : world) :
  truthy (strip (replace_char newline " "%char query)) = true ->
  embeddings_create w (strip (replace_char newline " "%char query))
  = Returns [1%R] ->
  similarity_search (load_embeddings demo_file) query 50 0%R None w
  = (Returns [hit 0 1 item1; hit 1 1 item2],
     (w ++ [EmbeddingsCreate (strip (replace_char newline " "%char query))])%list).
Proof.
  intros Hq He.
  rewrite (@similarity_search_loaded _ (load_embeddings demo_file) query 50
             0%R None w
             (w ++ [EmbeddingsCreate
                      (strip (replace_char newline " "%char query))])%list
             [[1%R]; [1%R]] [1%R] [hit 0 1 item1; hit 1 1 item2]).
  - unfold sort_desc, by_similarity. simpl.
    assert (E : Rltb 1 1 = false) by (apply Rltb_false; lra).
    rewrite E. rewrite slice_prefix_all by (unfold len; simpl; lia).
    reflexivity.
  - reflexivity.
  - discriminate.
  - apply get_query_embedding_ok; assumption.
  - simpl. rewrite sample_cosine. simpl.
    assert (E : Rgeb 1 0 = true) by (apply Rgeb_true; lra).
    rewrite E. reflexivity.
Qed.

Lemma search_by_criteria_grouped_witness :
  exists r delta,
    @search_workitems_by_criteria demo_client plain_format
      (load_embeddings demo_file) "status" 10 true (3 / 10)%R []
    = (Returns r, ([EmbeddingsCreate "status"] ++ delta)%list)
    /\ cr_criteria r = "status".
Proof.
  destruct (@search_by_criteria_grouped demo_client plain_format
              (load_embeddings demo_file) "status" 10 (3 / 10)%R []
              [EmbeddingsCreate "status"] [hit 0 1 item1; hit 1 1 item2])
    as [r [delta [workitems [Hr [Hc _]]]]].
  - apply (@sample_search_all demo_client "status" []); reflexivity.
  - exists r, delta. split; [exact Hr|exact Hc].
Defined.

(** ** Sources *)

Lemma length_string_of_list (l : list ascii) :
  String.length (string_of_list_ascii l) = List.length l.
Proof. induction l as [|c l IH]; simpl; [reflexivity|]. rewrite IH. reflexivity. Qed.

Lemma length_list_of_string (s : string) :
  List.length (list_ascii_of_string s) = String.length s.
Proof. induction s as [|c s IH]; simpl; [reflexivity|]. rewrite IH. reflexivity. Qed.

Lemma length_append (s t : string) :
  String.length (s ++ t) = (String.length s + String.length t)%nat.
Proof. induction s as [|c s IH]; simpl; [reflexivity|]. rewrite IH. reflexivity. Qed.

Lemma string_of_list_app (l1 l2 : list ascii) :
  string_of_list_ascii (l1 ++ l2)%list
  = string_of_list_ascii l1 ++ string_of_list_ascii l2.
Proof. induction l1 as [|c l1 IH]; simpl; [reflexivity|]. rewrite IH. reflexivity. Qed.

(** X14.  [_format_sources] keeps the matches one to one and in order.
    The preview of a content of at most 200 characters is the content
    itself; a longer content is cut to its first 200 characters followed
    by three dots, so a preview never has more than 203 characters. *)
Theorem format_sources_preview `{FloatFormat} (chunks : list search_result) :
  map src_chunk_id (_format_sources chunks) = map sr_chunk_id chunks
  /\ map src_workitem_id (_format_sources chunks) = map sr_workitem_id chunks
  /\ Forall2
       (fun chunk s =>
          (String.length (src_content_preview s) <= 203)%nat
          /\ ((String.length (sr_content chunk) <= 200)%nat ->
              src_content_preview s = sr_content chunk)
          /\ ((200 < String.length (sr_content chunk))%nat ->
              exists head tail,
                sr_content chunk = head ++ tail
                /\ String.length head = 200%nat
                /\ src_content_preview s = head ++ "..."))
       chunks (_format_sources chunks).
Proof.
  unfold _format_sources. rewrite !map_map.
  split; [reflexivity|]. split; [reflexivity|].
  induction chunks as [|chunk chunks IH]; simpl; constructor; [|exact IH].
  cbn [src_content_preview format_source].
  unfold len. rewrite length_list_of_string.
  destruct (200 <? Z.of_nat (String.length (sr_content chunk))) eqn:E.
  - apply Z.ltb_lt in E.
    assert (Hcut : str_slice (sr_content chunk) None (Some 200)
                   = string_of_list_ascii
                       (firstn 200 (list_ascii_of_string (sr_content chunk)))).
    { unfold str_slice. rewrite slice_prefix. f_equal. f_equal.
      unfold norm_bound, len. rewrite length_list_of_string.
      change (200 <? 0) with false. cbv iota. rewrite Z.min_l by lia.
      reflexivity. }
    assert (Hhead : String.length
                      (str_slice (sr_content chunk) None (Some 200))
                    = 200%nat).
    { rewrite Hcut, length_string_of_list, length_firstn,
        length_list_of_string. lia. }
    split; [rewrite length_append, Hhead; simpl; lia|].
    split; [intros Hle; lia|]. intros _.
    exists (str_slice (sr_content chunk) None (Some 200)),
      (string_of_list_ascii
         (skipn 200 (list_ascii_of_string (sr_content chunk)))).
    split; [|split; [exact Hhead|reflexivity]].
    rewrite Hcut, <- string_of_list_app, firstn_skipn.
    symmetry. apply string_of_list_ascii_of_string.
  - apply Z.ltb_ge in E.
    split; [lia|]. split; [reflexivity|]. intros Hlt. lia.
Qed.

(* ================================================================== *)
(** * Embedding generation *)

(** One attempt on a text with something to embed: one embedding call,
    followed by a sleep of 10 seconds when the call was rate limited. *)
Lemma get_text_embedding_log `{AzureOpenAI} (text : string) (w : world) :
  let q := strip (replace_char newline " "%char text) in
  truthy q = true ->
  (exists v, embeddings_create w q = Returns v
             /\ get_text_embedding text w
                = (Returns (Some v), (w ++ [EmbeddingsCreate q])%list))
  \/ get_text_embedding text w
     = (Returns None, (w ++ [EmbeddingsCreate q])%list)
  \/ get_text_embedding text w
     = (Returns None, (w ++ [EmbeddingsCreate q; Sleep 10])%list).
Proof.
  intros q Hq. unfold get_text_embedding. cbv zeta. fold q. rewrite Hq.
  change (negb true) with false. cbv iota.
  unfold try_except, bind, call_embeddings, ret, sleep.
  destruct (embeddings_create w q) as [v|e].
  - left. exists v. split; reflexivity.
  - right. destruct e; try (left; reflexivity).
    right. rewrite <- app_assoc. reflexivity.
Qed.

(** X15.  [generate_embeddings_with_retry] with three attempts, on a text
    that is not blank once cleaned: it never raises; it makes between one
    and three embedding calls, all for the cleaned text, and otherwise
    only sleeps of 5 or 10 seconds; it stops at the first call that
    answers and returns that answer; it returns [None] only after three
    calls. *)
Theorem retry_schedule `{AzureOpenAI} (text : string) (w : world) :
  let q := strip (replace_char newline " "%char text) in
  truthy q = true ->
  exists o delta,
    generate_embeddings_with_retry text 3 w = (Returns o, (w ++ delta)%list)
    /\ Forall (fun c => c = EmbeddingsCreate q \/ c = Sleep 5 \/ c = Sleep 10)
         delta
    /\ (1 <= List.length (filter is_embedding_call delta) <= 3)%nat
    /\ match o with
       | Some v =>
           exists before,
             delta = (before ++ [EmbeddingsCreate q])%list
             /\ embeddings_create (w ++ before)%list q = Returns v
       | None => List.length (filter is_embedding_call delta) = 3%nat
       end.
Proof.
  intros q Hq.
  unfold generate_embeddings_with_retry, bind at 1, lift.
  change (range 0 3 1) with (Returns [0; 1; 2]). cbv iota beta.
  cbn [retry_loop]. unfold bind, sleep, ret.
  change (0 <? 3 - 1) with true. change (1 <? 3 - 1) with true.
  change (2 <? 3 - 1) with false. cbv iota.
  change (IZR ((0 + 1) * 5)) with 5%R. change (IZR ((1 + 1) * 5)) with 10%R.
  assert (Hdone : forall (delta before : list call) v,
            delta = (before ++ [EmbeddingsCreate q])%list ->
            Forall (fun c => c = EmbeddingsCreate q \/ c = Sleep 5
                             \/ c = Sleep 10) delta ->
            (1 <= List.length (filter is_embedding_call delta) <= 3)%nat ->
            embeddings_create (w ++ before)%list q = Returns v ->
            exists o delta0,
              (Returns (Some v), (w ++ delta)%list)
              = (Returns o, (w ++ delta0)%list)
              /\ Forall (fun c => c = EmbeddingsCreate q \/ c = Sleep 5
                                  \/ c = Sleep 10) delta0
              /\ (1 <= List.length (filter is_embedding_call delta0) <= 3)%nat
              /\ match o with
                 | Some v0 =>
                     exists before0,
                       delta0 = (before0 ++ [EmbeddingsCreate q])%list
                       /\ embeddings_create (w ++ before0)%list q = Returns v0
                 | None =>
                     List.length (filter is_embedding_call delta0) = 3%nat
                 end).
  { intros delta before v Hd Hall Hn Hv. exists (Some v), delta.
    split; [reflexivity|]. split; [exact Hall|]. split; [exact Hn|].
    exists before. split; assumption. }
  assert (Hfail : forall delta : list call,
            Forall (fun c => c = EmbeddingsCreate q \/ c = Sleep 5
                             \/ c = Sleep 10) delta ->
            List.length (filter is_embedding_call delta) = 3%nat ->
            exists o delta0,
              (Returns (@None (list R)), (w ++ delta)%list)
              = (Returns o, (w ++ delta0)%list)
              /\ Forall (fun c => c = EmbeddingsCreate q \/ c = Sleep 5
                                  \/ c = Sleep 10) delta0
              /\ (1 <= List.length (filter is_embedding_call delta0) <= 3)%nat
              /\ match o with
                 | Some v0 =>
                     exists before0,
                       delta0 = (before0 ++ [EmbeddingsCreate q])%list
                       /\ embeddings_create (w ++ before0)%list q = Returns v0
                 | None =>
                     List.length (filter is_embedding_call delta0) = 3%nat
                 end).
  { intros delta Hall Hn. exists None, delta.
    split; [reflexivity|]. split; [exact Hall|]. split; [lia|exact Hn]. }
  assert (Hstep : forall w0,
            (exists v, embeddings_create w0 q = Returns v
                       /\ get_text_embedding text w0
                          = (Returns (Some v),
                             (w0 ++ [EmbeddingsCreate q])%list))
            \/ get_text_embedding text w0
               = (Returns None, (w0 ++ [EmbeddingsCreate q])%list)
            \/ get_text_embedding text w0
               = (Returns None, (w0 ++ [EmbeddingsCreate q; Sleep 10])%list))
    by (intros w0; apply get_text_embedding_log; exact Hq).
  destruct (Hstep w) as [[v [Hv ->]]|[->| ->]].
  { apply (Hdone [EmbeddingsCreate q] [] v); [reflexivity|constructor; auto| |].
    - simpl. lia.
    - rewrite app_nil_r. exact Hv. }
  all: rewrite <- ?app_assoc; cbn [app];
    match goal with
    | |- context [get_text_embedding _ ?w0] =>
        destruct (Hstep w0) as [[v [Hv ->]]|[->| ->]]
    end.
  all: rewrite <- ?app_assoc; cbn [app].
  all: try match goal with
           | Hv : embeddings_create (_ ++ ?before)%list _ = Returns ?v
             |- exists o delta, (Returns (Some ?v), _) = _ /\ _ =>
               apply (Hdone _ before v);
                 [reflexivity|repeat (apply Forall_cons; [first [left; reflexivity|right; left; reflexivity|right; right; reflexivity]|]); apply Forall_nil|simpl; lia|exact Hv]
           end.
  all: match goal with
       | |- context [get_text_embedding _ ?w0] =>
           destruct (Hstep w0) as [[v [Hv ->]]|[->| ->]]
       end.
  all: rewrite <- ?app_assoc; cbn [app].
  all: try match goal with
           | Hv : embeddings_create (_ ++ ?before)%list _ = Returns ?v
             |- exists o delta, (Returns (Some ?v), _) = _ /\ _ =>
               apply (Hdone _ before v);
                 [reflexivity|repeat (apply Forall_cons; [first [left; reflexivity|right; left; reflexivity|right; right; reflexivity]|]); apply Forall_nil|simpl; lia|exact Hv]
           end.
  all: apply Hfail; [repeat (apply Forall_cons; [first [left; reflexivity|right; left; reflexivity|right; right; reflexivity]|]); apply Forall_nil|reflexivity].
Qed.

Lemma retry_schedule_witness :
  exists o delta,
    @generate_embeddings_with_retry offline_client "alpha" 3 []
    = (Returns o, delta)
    /\ (1 <= List.length (filter is_embedding_call delta) <= 3)%nat.
Proof.
  destruct (@retry_schedule offline_client "alpha" [] eq_refl)
    as [o [delta [Hrun [_ [Hn _]]]]].
  exists o, delta. split; [exact Hrun|exact Hn].
Defined.

(** The attempts on a blank text. *)
Lemma retry_blank `{AzureOpenAI} (text : string) (w : world) :
  blank text = true ->
  get_text_embedding text w = (Returns None, w)
  /\ generate_embeddings_with_retry text 3 w
     = (Returns None, (w ++ [Sleep 5; Sleep 10])%list).
Proof.
  intros Hb.
  assert (Hone : forall w0, get_text_embedding text w0 = (Returns None, w0)).
  { intros w0. unfold get_text_embedding. rewrite (strip_blank_query _ Hb).
    reflexivity. }
  split; [apply Hone|].
  unfold generate_embeddings_with_retry, bind at 1, lift.
  change (range 0 3 1) with (Returns [0; 1; 2]). cbv iota beta.
  cbn [retry_loop]. unfold bind, sleep, ret.
  change (0 <? 3 - 1) with true. change (1 <? 3 - 1) with true.
  change (2 <? 3 - 1) with false.
  change (IZR ((0 + 1) * 5)) with 5%R. change (IZR ((1 + 1) * 5)) with 10%R.
  rewrite Hone. cbv beta iota. rewrite Hone. cbv beta iota.
  rewrite Hone. cbv beta iota.
  rewrite <- app_assoc. reflexivity.
Qed.

(** X16.  A text that is blank (empty or whitespace only) is never sent
    to the client: [get_text_embedding] returns [None] at once, and
    [generate_embeddings_with_retry] with three attempts returns [None]
    after sleeping 5 and then 10 seconds between its attempts. *)
Theorem retry_blank_text `{AzureOpenAI} (text : string) (w : world) :
  blank text = true ->
  get_text_embedding text w = (Returns None, w)
  /\ generate_embeddings_with_retry text 3 w
     = (Returns None, (w ++ [Sleep 5; Sleep 10])%list).
Proof. exact (retry_blank text w). Qed.

Lemma retry_blank_text_witness :
  @generate_embeddings_with_retry demo_client "  " 3 []
  = (Returns None, [Sleep 5; Sleep 10]).
Proof.
  apply (@retry_blank_text demo_client "  " []). reflexivity.
Defined.

Lemma embedded_from_length (chunks : list chunk_meta)
    (data : list embedding_item) :
  embedded_from chunks data -> (List.length data <= List.length chunks)%nat.
Proof. induction 1; simpl; lia. Qed.

Lemma retry_some_not_blank `{AzureOpenAI} (text : string) (w w' : world)
    (e : list R) :
  generate_embeddings_with_retry text 3 w = (Returns (Some e), w') ->
  blank text = false.
Proof.
  intros Hrun. destruct (blank text) eqn:Hb; [|reflexivity].
  destruct (retry_blank text w Hb) as [_ Hnone].
  rewrite Hnone in Hrun. discriminate.
Qed.

Lemma embed_chunks_from_order `{AzureOpenAI} (chunks : list chunk_meta)
    (i n : Z) (w : world) :
  exists data w',
    embed_chunks_from i n chunks w = (Returns data, w')
    /\ embedded_from chunks data
    /\ Forall (fun item => blank (ei_content item) = false) data.
Proof.
  revert i w. induction chunks as [|chunk rest IH]; intros i w; simpl.
  - exists [], w. repeat split; constructor.
  - unfold bind.
    destruct (generate_embeddings_with_retry_returns (cm_content chunk) w)
      as [o [w1 Ho]]. rewrite Ho.
    assert (Hs : exists w2,
               (if i <? n - 1 then sleep (5 / 10) else ret tt) w1
               = (Returns tt, w2)).
    { destruct (i <? n - 1); eexists; reflexivity. }
    destruct Hs as [w2 Hs]. rewrite Hs.
    destruct (IH (i + 1) w2) as [more [w3 [Hmore [Hord Hnb]]]].
    rewrite Hmore. eexists; eexists. split; [reflexivity|].
    destruct o as [e|]; simpl.
    + split; [constructor; exact Hord|].
      constructor; [|exact Hnb]. simpl.
      eapply retry_some_not_blank. exact Ho.
    + split; [constructor; exact Hord|exact Hnb].
Qed.

(** X17.  [generate_embeddings_for_chunks] never raises.  The records it
    returns are records of the given chunks in the order of the chunks,
    at most one per chunk, each with the chunk id, content, work item id
    and metadata of its chunk; no record is made for a chunk whose
    content is blank. *)
Theorem generate_embeddings_in_order `{AzureOpenAI}
    (chunks : list chunk_meta) (w : world) :
  exists data w',
    generate_embeddings_for_chunks chunks w = (Returns data, w')
    /\ embedded_from chunks data
    /\ len data <= len chunks
    /\ Forall (fun item => blank (ei_content item) = false) data
    /\ Forall (fun item =>
                 exists chunk,
                   In chunk chunks
                   /\ ei_chunk_id item = cm_chunk_id chunk
                   /\ ei_content item = cm_content chunk
                   /\ ei_workitem_id item = cm_workitem_id chunk
                   /\ ei_metadata item = cm_metadata chunk) data.
Proof.
  unfold generate_embeddings_for_chunks.
  destruct (embed_chunks_from_order chunks 0 (len chunks) w)
    as [data [w' [Hrun [Hord Hnb]]]].
  exists data, w'. split; [exact Hrun|]. split; [exact Hord|].
  split; [unfold len; apply inj_le, embedded_from_length; exact Hord|].
  split; [exact Hnb|].
  clear Hrun Hnb. induction Hord as [|chunk e chunks data Hord IH|chunk chunks data Hord IH].
  - constructor.
  - constructor.
    + exists chunk. simpl. repeat split. left. reflexivity.
    + eapply Forall_impl; [|exact IH]. intros item [c [Hc Hf]].
      exists c. split; [right; exact Hc|exact Hf].
  - eapply Forall_impl; [|exact IH]. intros item [c [Hc Hf]].
    exists c. split; [right; exact Hc|exact Hf].
Qed.

(** ** The persisted records as a dict *)

Lemma setitem_keys (d : record_dict) (k : string) (v : embedding_item) :
  map fst (setitem d k v) = add_key (map fst d) k.
Proof.
  unfold add_key. induction d as [|[k' v'] d IH]; simpl; [reflexivity|].
  destruct (String.eqb k k'); simpl; [reflexivity|].
  rewrite IH. destruct (existsb _ (map fst d)); reflexivity.
Qed.

Lemma setitem_In (d : record_dict) (k : string) (v : embedding_item)
    (k' : string) (v' : embedding_item) :
  NoDup (map fst d) ->
  In (k', v') (setitem d k v) ->
  (k' = k /\ v' = v) \/ (k' <> k /\ In (k', v') d).
Proof.
  induction d as [|[k0 v0] d IH]; simpl; intros Hnd.
  - intros [E|[]]. inversion E. left. split; reflexivity.
  - inversion Hnd as [|? ? Hk0 Hnd']; subst.
    destruct (String.eqb k k0) eqn:Ek.
    + apply String.eqb_eq in Ek. subst k0. intros [E|Hin].
      * inversion E. left. split; reflexivity.
      * right. split; [|right; exact Hin].
        intros ->. apply Hk0. apply in_map_iff. exists (k, v'). auto.
    + apply String.eqb_neq in Ek. intros [E|Hin].
      * inversion E; subst. right. split; [congruence|left; reflexivity].
      * destruct (IH Hnd' Hin) as [Hsame|[Hne Hd]]; [left; exact Hsame|].
        right. split; [exact Hne|right; exact Hd].
Qed.

Lemma load_keys (existing_data : list embedding_item) :
  map fst (load_existing_embeddings (FileData existing_data))
  = first_seen (map ei_chunk_id existing_data).
Proof.
  simpl. induction existing_data as [|item rest IH] using rev_ind;
    [reflexivity|].
  rewrite fold_left_app, map_app. simpl.
  rewrite setitem_keys, IH, first_seen_snoc. reflexivity.
Qed.

Lemma haskey_keys (d : record_dict) (k : string) :
  haskey d k = true <-> In k (map fst d).
Proof.
  unfold haskey. rewrite existsb_exists. split.
  - intros [kv [Hin E]]. apply String.eqb_eq in E. subst k.
    apply in_map. exact Hin.
  - intros Hin. apply in_map_iff in Hin. destruct Hin as [kv [<- Hkv]].
    exists kv. split; [exact Hkv|apply String.eqb_refl].
Qed.

Lemma load_haskey (existing_data : list embedding_item) (k : string) :
  haskey (load_existing_embeddings (FileData existing_data)) k = true
  <-> In k (map ei_chunk_id existing_data).
Proof. rewrite haskey_keys, load_keys. apply first_seen_In. Qed.

(** X18.  [load_existing_embeddings] on a readable file: the dict has one
    entry per chunk id of the file, in order of first occurrence; the
    value under an id is the last record of the file with that id, so an
    earlier record with the same id is dropped.  A missing or unreadable
    file gives the empty dict. *)
Theorem load_existing_last_wins (existing_data : list embedding_item) :
  let d := load_existing_embeddings (FileData existing_data) in
  NoDup (map fst d)
  /\ (forall k, haskey d k = true <-> In k (map ei_chunk_id existing_data))
  /\ (forall k v,
        In (k, v) d ->
        ei_chunk_id v = k
        /\ exists before after,
             existing_data = (before ++ v :: after)%list
             /\ ~ In k (map ei_chunk_id after))
  /\ len (values d) <= len existing_data
  /\ load_existing_embeddings FileMissing = []
  /\ forall e, load_existing_embeddings (FileUnreadable e) = [].
Proof.
  intros d.
  assert (Hnd : forall data,
            NoDup (map fst (load_existing_embeddings (FileData data)))).
  { intros data. rewrite load_keys. apply first_seen_NoDup. }
  split; [apply Hnd|]. split; [|split; [|split; [|split]]].
  - intros k. apply load_haskey.
  - unfold d. clear d.
    induction existing_data as [|item rest IH] using rev_ind;
      [intros k v []|].
    intros k v Hin.
    change (load_existing_embeddings (FileData (rest ++ [item])))
      with (fold_left (fun d item => setitem d (ei_chunk_id item) item)
              (rest ++ [item])%list []) in Hin.
    rewrite fold_left_app in Hin. simpl in Hin.
    apply setitem_In in Hin; [|apply (Hnd rest)].
    destruct Hin as [[-> ->]|[Hne Hin]].
    + split; [reflexivity|]. exists rest, []. split; [reflexivity|].
      intros [].
    + destruct (IH k v Hin) as [Hid [before [after [Hrest Hlast]]]].
      split; [exact Hid|].
      exists before, (after ++ [item])%list. split.
      * rewrite Hrest, <- app_assoc. reflexivity.
      * rewrite map_app. intros Hk. apply in_app_or in Hk.
        destruct Hk as [Hk|[Hk|[]]]; [exact (Hlast Hk)|].
        apply Hne. symmetry. exact Hk.
  - unfold values, len. rewrite length_map.
    rewrite <- (length_map fst). unfold d. rewrite load_keys.
    apply inj_le. rewrite <- (length_map ei_chunk_id existing_data).
    generalize (map ei_chunk_id existing_data). intros ids.
    apply NoDup_incl_length; [apply first_seen_NoDup|].
    intros k Hk. apply first_seen_In. exact Hk.
  - reflexivity.
  - reflexivity.
Qed.

(** X19.  [main] leaves the output file exactly as it is, and calls
    nothing, when the input file is missing, when the environment is not
    configured, when the input file cannot be read, and when every chunk
    of the input already has a record in the output file (in particular
    when the input holds no chunk). *)
Theorem main_nothing_to_do `{AzureOpenAI} (input_file : chunks_file)
    (env_ok : bool) (output_file : embeddings_file) (w : world) :
  input_file = ChunksMissing
  \/ env_ok = false
  \/ (exists e, input_file = ChunksUnreadable e)
  \/ input_file = ChunksData []
  \/ (exists chunks existing_data,
        input_file = ChunksData chunks
        /\ output_file = FileData existing_data
        /\ Forall (fun chunk =>
                     In (cm_chunk_id chunk) (map ei_chunk_id existing_data))
             chunks) ->
  main input_file env_ok output_file w = (Returns output_file, w).
Proof.
  intros [->|[->|[[e ->]|[->|[chunks [existing_data [-> [-> Hall]]]]]]]].
  - reflexivity.
  - destruct input_file; reflexivity.
  - destruct env_ok; reflexivity.
  - destruct env_ok; reflexivity.
  - destruct env_ok; [|reflexivity].
    unfold main. change (negb true) with false. cbv iota.
    unfold try_except, bind, lift.
    assert (Hnone : new_chunks_of
                      (load_existing_embeddings (FileData existing_data))
                      chunks = []).
    { unfold new_chunks_of.
      induction Hall as [|chunk chunks Hin Hall IH]; [reflexivity|].
      cbn [filter].
      rewrite (proj2 (load_haskey existing_data (cm_chunk_id chunk)) Hin).
      exact IH. }
    rewrite Hnone. reflexivity.
Qed.

Lemma main_nothing_to_do_witness :
  @main demo_client (ChunksData [meta_of_item item1; meta_of_item item2])
    true demo_file []
  = (Returns demo_file, []).
Proof.
  apply (@main_nothing_to_do demo_client).
  right; right; right; right.
  exists [meta_of_item item1; meta_of_item item2], [item1; item2].
  split; [reflexivity|]. split; [reflexivity|].
  constructor; [left; reflexivity|].
  constructor; [right; left; reflexivity|constructor].
Defined.

(* ================================================================== *)
(** * Token windows *)

(** A window [l[i : i + s]] that starts inside the list. *)
Lemma slice_window (A : Type) (l : list A) (i s : Z) :
  0 <= i <= len l -> 0 <= s ->
  slice l (Some i) (Some (i + s))
  = firstn (Z.to_nat s) (skipn (Z.to_nat i) l).
Proof.
  intros Hi Hs. unfold slice, norm_bound. cbv zeta.
  destruct (i <? 0) eqn:E1; [apply Z.ltb_lt in E1; lia|].
  destruct (i + s <? 0) eqn:E2; [apply Z.ltb_lt in E2; lia|].
  rewrite (Z.min_l i) by lia.
  assert (Hlen : List.length (skipn (Z.to_nat i) l)
                 = Z.to_nat (len l - i)).
  { rewrite length_skipn. unfold len in *. lia. }
  destruct (Z.le_gt_cases (i + s) (len l)) as [Hle|Hgt].
  - rewrite Z.min_l by lia. f_equal. lia.
  - rewrite Z.min_r by lia.
    rewrite (firstn_all2 (n := Z.to_nat s)) by lia.
    apply firstn_all2. lia.
Qed.

(** Windows of [s] items taken every [s] items give the list back. *)
Lemma concat_windows (A : Type) (s : nat) (m : nat) (l : list A) :
  (List.length l <= m * s)%nat ->
  List.concat (map (fun k => firstn s (skipn (k * s) l)) (seq 0 m)) = l.
Proof.
  revert l. induction m as [|m IH]; intros l Hl.
  - simpl in *. destruct l; [reflexivity|simpl in Hl; lia].
  - cbn [seq map List.concat]. rewrite <- seq_shift, map_map.
    rewrite (map_ext _ (fun k => firstn s (skipn (k * s) (skipn s l)))).
    + rewrite IH; [apply firstn_skipn|]. rewrite length_skipn. simpl in Hl. lia.
    + intros k. rewrite skipn_skipn. f_equal. f_equal. simpl. lia.
Qed.

(** X20.  The token windows cut with [0 <= chunk_overlap < chunk_size]:
    the loop never raises; every window starts inside the token list and
    holds between 1 and [chunk_size] tokens; every token position lies in
    some window, so no token is lost; and without overlap the windows,
    put end to end, are the token list. *)
Theorem token_windows_cover `{Tokenizer}
    (self : RecursiveCharacterTextSplitter) (tokens : list token) :
  0 <= chunk_overlap self < chunk_size self ->
  exists starts,
    token_windows self tokens
    = Returns (map (fun i => decode (slice tokens (Some i)
                                       (Some (i + chunk_size self)))) starts)
    /\ covered starts (chunk_size self) (len tokens)
    /\ Forall (fun i =>
                 0 <= i < len tokens
                 /\ 1 <= len (slice tokens (Some i)
                                (Some (i + chunk_size self)))
                    <= chunk_size self) starts
    /\ (chunk_overlap self = 0 ->
        List.concat (map (fun i => slice tokens (Some i)
                                (Some (i + chunk_size self))) starts)
        = tokens).
Proof.
  intros Hcfg.
  set (size := chunk_size self) in *. set (overlap := chunk_overlap self) in *.
  set (step := size - overlap). set (n := len tokens).
  assert (Hstep : 0 < step) by (unfold step; lia).
  assert (Hn : 0 <= n) by (unfold n, len; lia).
  set (count := (n - 0 + step - 1) / step).
  assert (Hrange : range 0 n step
                   = Returns (map (fun k => 0 + Z.of_nat k * step)
                                (seq 0 (Z.to_nat count)))).
  { unfold range. destruct (step =? 0) eqn:E0; [apply Z.eqb_eq in E0; lia|].
    destruct (0 <? step) eqn:E1; [reflexivity|apply Z.ltb_ge in E1; lia]. }
  assert (Hlow : n <= step * count).
  { unfold count. replace (n - 0 + step - 1) with (n + step - 1) by lia.
    pose proof (Z.mod_pos_bound (n + step - 1) step Hstep).
    pose proof (Z.div_mod (n + step - 1) step). lia. }
  assert (Hhigh : step * count <= n + step - 1).
  { unfold count. replace (n - 0 + step - 1) with (n + step - 1) by lia.
    apply Z.mul_div_le. exact Hstep. }
  assert (Hcount : 0 <= count) by nia.
  assert (Hstart : forall i,
            In i (map (fun k => 0 + Z.of_nat k * step)
                    (seq 0 (Z.to_nat count))) ->
            exists k, i = Z.of_nat k * step /\ Z.of_nat k < count
                      /\ 0 <= i < n).
  { intros i Hi. apply in_map_iff in Hi. destruct Hi as [k [<- Hk]].
    apply in_seq in Hk. exists k. split; [lia|]. split; [lia|]. nia. }
  eexists. split; [|split; [|split]].
  - unfold token_windows. fold size overlap step n. rewrite Hrange.
    reflexivity.
  - intros j Hj. exists (Z.of_nat (Z.to_nat (j / step)) * step).
    assert (Hq : 0 <= j / step) by (apply Z.div_pos; lia).
    assert (Hqc : j / step < count)
      by (apply Z.div_lt_upper_bound; lia).
    pose proof (Z.mod_pos_bound j step Hstep).
    pose proof (Z.div_mod j step).
    split.
    + apply in_map_iff. exists (Z.to_nat (j / step)). split; [lia|].
      apply in_seq. lia.
    + rewrite Z2Nat.id by lia. unfold step in *. lia.
  - rewrite Forall_forall. intros i Hi.
    destruct (Hstart i Hi) as [k [_ [_ Hin]]]. split; [exact Hin|].
    rewrite slice_window by (fold n; lia).
    unfold len. rewrite length_firstn, length_skipn.
    unfold n, len in *. lia.
  - intros Hzero.
    assert (Hss : step = size) by (unfold step; lia).
    rewrite map_map.
    rewrite (map_ext_in _
               (fun k => firstn (Z.to_nat size)
                           (skipn (k * Z.to_nat size) tokens))).
    + apply concat_windows. unfold n, len in *.
      rewrite Hss in *. nia.
    + intros k Hk.
      destruct (Hstart (0 + Z.of_nat k * step)) as [k' [_ [_ Hin]]].
      { apply in_map_iff. exists k. split; [reflexivity|exact Hk]. }
      rewrite slice_window by (fold n; lia).
      f_equal. f_equal. rewrite Hss. nia.
Qed.

Lemma token_windows_cover_witness :
  exists starts,
    @token_windows char_tokenizer (init 3 1 None) ["a"; "b"; "c"; "d"]%char
    = Returns (map (fun i => @decode char_tokenizer
                               (slice ["a"; "b"; "c"; "d"]%char (Some i)
                                  (Some (i + 3)))) starts)
    /\ covered starts 3 4.
Proof.
  destruct (@token_windows_cover char_tokenizer (init 3 1 None)
              ["a"; "b"; "c"; "d"]%char) as [starts [Hw [Hc _]]].
  - simpl. lia.
  - exists starts. split; [exact Hw|exact Hc].
Defined.

(* ================================================================== *)
(** * Chunks of work items *)

Lemma number_chunks_spec (item : workitem) (total : Z)
    (chunk_docs : list chunk_doc) (i : Z) :
  List.length (number_chunks item i total chunk_docs)
  = List.length chunk_docs
  /\ map wc_chunk_index (number_chunks item i total chunk_docs)
     = map (fun k => i + Z.of_nat k) (seq 0 (List.length chunk_docs))
  /\ map wc_content (number_chunks item i total chunk_docs)
     = map cd_content chunk_docs
  /\ Forall (fun c =>
               exists content,
                 c = workitem_chunk_of item content (wc_chunk_index c) total
                 /\ i <= wc_chunk_index c < i + len chunk_docs)
       (number_chunks item i total chunk_docs).
Proof.
  revert i. induction chunk_docs as [|d docs IH]; intros i.
  - simpl. repeat split. constructor.
  - destruct (IH (i + 1)) as [Hlen [Hidx [Hcontent Hall]]].
    cbn [number_chunks List.length map seq]. repeat split.
    + rewrite Hlen. reflexivity.
    + rewrite Hidx, <- seq_shift, map_map. f_equal; [simpl; lia|].
      apply map_ext. intros k. lia.
    + rewrite Hcontent. reflexivity.
    + constructor.
      * exists (cd_content d). split; [reflexivity|].
        unfold len. simpl wc_chunk_index. simpl List.length. lia.
      * eapply Forall_impl; [|exact Hall].
        intros c [content [Hc Hi]]. exists content. split; [exact Hc|].
        unfold len in *. simpl List.length. lia.
Qed.

(** The chunks of one work item are always a numbering of some docs. *)
Lemma chunks_of_workitem_numbering `{Tokenizer}
    (splitter : RecursiveCharacterTextSplitter) (item : workitem) :
  exists chunk_docs,
    chunks_of_workitem splitter item
    = number_chunks item 0 (len chunk_docs) chunk_docs.
Proof.
  unfold chunks_of_workitem. cbv zeta.
  match goal with
  | |- exists _, match ?m with _ => _ end = _ =>
      destruct m as [chunks|e] eqn:Em
  end.
  - rsteps Em. rsteps Em. inversion Em. eexists. reflexivity.
  - exists [ {| cd_content := full_content_of item;
                cd_filepath := "";
                cd_chunk_id := "" |} ]. reflexivity.
Qed.

(** X21.  Every chunk [create_workitem_chunks] makes belongs to one of
    the given work items and copies its id, title, state, assignee and
    links; within a work item the chunks are numbered 0, 1, 2, ... in
    order, the chunk id is [workitem_<id>_chunk_<index>], and
    ['total_chunks'] is the number of chunks of that work item.  A work
    item whose splitting raises gets one chunk holding its full
    content. *)
Theorem create_workitem_chunks_numbered `{Tokenizer}
    (CHUNK_SIZE CHUNK_OVERLAP : Z) (cleaned_workitems : list workitem) :
  let splitter := workitem_splitter CHUNK_SIZE CHUNK_OVERLAP in
  create_workitem_chunks CHUNK_SIZE CHUNK_OVERLAP cleaned_workitems
  = List.concat (map (chunks_of_workitem splitter) cleaned_workitems)
  /\ (forall item,
        let chunks := chunks_of_workitem splitter item in
        map wc_chunk_index chunks
        = map Z.of_nat (seq 0 (List.length chunks))
        /\ Forall (fun c =>
                     wc_total_chunks c = len chunks
                     /\ c = workitem_chunk_of item (wc_content c)
                            (wc_chunk_index c) (len chunks)) chunks)
  /\ Forall (fun c =>
               exists item,
                 In item cleaned_workitems
                 /\ wc_workitem_id c = wi_id item
                 /\ wc_chunk_id c
                    = "workitem_" ++ str_id (wi_id item) ++ "_chunk_"
                      ++ str_of_int (wc_chunk_index c)
                 /\ 0 <= wc_chunk_index c < wc_total_chunks c)
       (create_workitem_chunks CHUNK_SIZE CHUNK_OVERLAP cleaned_workitems)
  /\ (forall item e,
        split_document splitter (full_content_of item)
          ("workitem_" ++ str_id (wi_id item)) = Raises e ->
        chunks_of_workitem splitter item
        = [workitem_chunk_of item (full_content_of item) 0 1]).
Proof.
  intros splitter.
  assert (Hitem : forall item,
            let chunks := chunks_of_workitem splitter item in
            map wc_chunk_index chunks
            = map Z.of_nat (seq 0 (List.length chunks))
            /\ Forall (fun c =>
                         wc_total_chunks c = len chunks
                         /\ c = workitem_chunk_of item (wc_content c)
                                (wc_chunk_index c) (len chunks)
                         /\ 0 <= wc_chunk_index c < len chunks) chunks).
  { intros item chunks.
    destruct (chunks_of_workitem_numbering splitter item) as [docs Hdocs].
    destruct (number_chunks_spec item (len docs) docs 0)
      as [Hlen [Hidx [_ Hall]]].
    unfold chunks. rewrite Hdocs. split.
    - rewrite Hidx, Hlen. apply map_ext. intros k. lia.
    - eapply Forall_impl; [|exact Hall].
      intros c [content [Hc Hi]].
      assert (Hl : len (number_chunks item 0 (len docs) docs) = len docs)
        by (unfold len at 1; rewrite Hlen; reflexivity).
      rewrite Hl. split; [rewrite Hc; reflexivity|]. split; [|lia].
      rewrite Hc at 1. rewrite Hc at 2. reflexivity. }
  split; [|split; [|split]].
  - unfold create_workitem_chunks. fold splitter. apply flat_map_concat_map.
  - intros item chunks. destruct (Hitem item) as [Hidx Hall].
    split; [exact Hidx|]. eapply Forall_impl; [|exact Hall].
    intros c [Ht [Hc _]]. split; assumption.
  - unfold create_workitem_chunks. fold splitter.
    rewrite Forall_forall. intros c Hc. apply in_flat_map in Hc.
    destruct Hc as [item [Hin Hc]]. exists item. split; [exact Hin|].
    destruct (Hitem item) as [_ Hall]. rewrite Forall_forall in Hall.
    destruct (Hall c Hc) as [Ht [Heq Hi]].
    split; [rewrite Heq; reflexivity|].
    split; [rewrite Heq at 1; reflexivity|]. rewrite Ht. exact Hi.
  - intros item e He. unfold chunks_of_workitem. cbv zeta. rewrite He.
    reflexivity.
Qed.

(* ================================================================== *)
(** * Chunk ids of [split_document] *)

Lemma process_chunks_indexed (filepath : string) (chunks : list string)
    (i : Z) :
  exists indices,
    StronglySorted Z.lt indices
    /\ Forall (fun k => i <= k < i + len chunks) indices
    /\ (forall k, i <= k < i + len chunks ->
          (In k indices
           <-> truthy (strip (nth (Z.to_nat (k - i)) chunks "")) = true))
    /\ process_chunks filepath i chunks
       = map (fun k =>
                {| cd_content := strip (nth (Z.to_nat (k - i)) chunks "");
                   cd_filepath := filepath;
                   cd_chunk_id := filepath ++ "_" ++ str_of_int k |}) indices.
Proof.
  revert i. induction chunks as [|c chunks IH]; intros i.
  - exists []. split; [constructor|]. split; [constructor|].
    split; [|reflexivity].
    intros k Hk. unfold len in Hk. simpl in Hk. lia.
  - destruct (IH (i + 1)) as [indices [Hsorted [Hrange [Hin Hrun]]]].
    assert (Hlen : len (c :: chunks) = 1 + len chunks)
      by (unfold len; simpl List.length; lia).
    assert (Hpos : 0 <= len chunks) by (unfold len; lia).
    assert (Hnth : forall k, i + 1 <= k ->
              nth (Z.to_nat (k - i)) (c :: chunks) ""
              = nth (Z.to_nat (k - (i + 1))) chunks "").
    { intros k Hk. replace (Z.to_nat (k - i))
        with (S (Z.to_nat (k - (i + 1)))) by lia. reflexivity. }
    assert (Hmap : map (fun k =>
                     {| cd_content :=
                          strip (nth (Z.to_nat (k - (i + 1))) chunks "");
                        cd_filepath := filepath;
                        cd_chunk_id := filepath ++ "_" ++ str_of_int k |})
                     indices
                   = map (fun k =>
                     {| cd_content :=
                          strip (nth (Z.to_nat (k - i)) (c :: chunks) "");
                        cd_filepath := filepath;
                        cd_chunk_id := filepath ++ "_" ++ str_of_int k |})
                     indices).
    { apply map_ext_in. intros k Hk. rewrite Hnth; [reflexivity|].
      rewrite Forall_forall in Hrange. specialize (Hrange k Hk). lia. }
    assert (Hrange' : Forall (fun k => i <= k < i + len (c :: chunks)) indices).
    { eapply Forall_impl; [|exact Hrange]. intros k Hk. cbv beta in Hk. lia. }
    assert (Hhead : nth (Z.to_nat (i - i)) (c :: chunks) "" = c)
      by (rewrite Z.sub_diag; reflexivity).
    cbn [process_chunks]. rewrite Hrun, Hmap.
    destruct (truthy (strip c)) eqn:Et.
    + exists (i :: indices). split; [|split; [|split]].
      * constructor; [exact Hsorted|].
        eapply Forall_impl; [|exact Hrange]. intros k Hk. cbv beta in Hk. lia.
      * constructor; [lia|exact Hrange'].
      * intros k Hk. destruct (Z.eq_dec k i) as [->|Hne].
        -- rewrite Hhead, Et. split; [reflexivity|]. intros _. left. reflexivity.
        -- rewrite Hnth by lia. rewrite <- Hin by lia. split.
           ++ intros [E|Hk']; [congruence|exact Hk'].
           ++ intros Hk'. right. exact Hk'.
      * cbn [map app]. rewrite Hhead. reflexivity.
    + exists indices. split; [exact Hsorted|]. split; [exact Hrange'|].
      split; [|reflexivity].
      intros k Hk. destruct (Z.eq_dec k i) as [->|Hne].
      * rewrite Hhead, Et. split; [|discriminate]. intros Hi.
        rewrite Forall_forall in Hrange. specialize (Hrange i Hi). lia.
      * rewrite Hnth by lia. apply Hin. lia.
Qed.

(** X22.  The docs [split_document] returns are the chunks of
    [_split_text] that are not blank, stripped, in order; a doc's chunk id
    is [<filepath>_<k>] where [k] is the position of its chunk among all
    chunks of [_split_text], blank ones included, so the numbers of the
    ids increase strictly but skip the positions of blank chunks. *)
Theorem split_document_ids `{Tokenizer}
    (self : RecursiveCharacterTextSplitter)
    (document_content filepath : string) (docs : list chunk_doc) :
  split_document self document_content filepath = Returns docs ->
  exists chunks indices,
    _split_text self document_content (separators self) = Returns chunks
    /\ StronglySorted Z.lt indices
    /\ (forall k, In k indices <->
                  0 <= k < len chunks
                  /\ truthy (strip (nth (Z.to_nat k) chunks "")) = true)
    /\ docs = map (fun k =>
                     {| cd_content := strip (nth (Z.to_nat k) chunks "");
                        cd_filepath := filepath;
                        cd_chunk_id := filepath ++ "_" ++ str_of_int k |})
                indices.
Proof.
  intros Hrun. unfold split_document in Hrun. rsteps Hrun.
  inversion Hrun; subst docs; clear Hrun.
  destruct (process_chunks_indexed filepath a 0)
    as [indices [Hsorted [Hrange [Hin Hdocs]]]].
  exists a, indices. split; [exact Ha|]. split; [exact Hsorted|].
  split.
  - intros k. split.
    + intros Hk. rewrite Forall_forall in Hrange.
      pose proof (Hrange k Hk) as Hr. split; [lia|].
      rewrite <- (Z.sub_0_r k). apply Hin; [lia|exact Hk].
    + intros [Hr Ht]. apply Hin; [lia|]. rewrite Z.sub_0_r. exact Ht.
  - rewrite Hdocs. apply map_ext. intros k. rewrite Z.sub_0_r. reflexivity.
Qed.

Lemma split_document_ids_witness :
  exists chunks indices,
    @_split_text char_tokenizer (init 5 0 None) "ab" (separators (init 5 0 None))
    = Returns chunks
    /\ StronglySorted Z.lt indices
    /\ map cd_chunk_id
         [ {| cd_content := "ab"; cd_filepath := "f"; cd_chunk_id := "f_0" |} ]
       = map (fun k => "f" ++ "_" ++ str_of_int k) indices.
Proof.
  destruct (@split_document_ids char_tokenizer (init 5 0 None) "ab" "f"
              [ {| cd_content := "ab"; cd_filepath := "f";
                   cd_chunk_id := "f_0" |} ])
    as [chunks [indices [Hc [Hs [_ Hd]]]]].
  - reflexivity.
  - exists chunks, indices. split; [exact Hc|]. split; [exact Hs|].
    rewrite Hd, map_map. reflexivity.
Defined.
